(** * IntelDeflater.c: the native half of htsjdk.samtools.util.zip.IntelDeflater

    A shallow embedding of [src/c/inteldeflater/IntelDeflater.c] and the
    properties of its session layer: backend selection in [init], the step
    protocol of [deflateBytes], the counters, the checksum query, [reset]
    and the handle that travels between Java and C.

    zlib, igzip, the JVM and the CPU are outside the file.  They enter the
    model as the class [Externals]; every definition below is stated for an
    arbitrary instance of it.  A small instance, [Ref.ext], that moves bytes
    without compressing them is used to run the model on concrete inputs. *)

From Stdlib Require Import ZArith Bool List String Lia.
From stdpp Require Import base gmap.
Import ListNotations.

Open Scope Z_scope.

(** ** Machine integers

    [jint] is a signed 32-bit integer, [jlong] a signed 64-bit one, zlib's
    [uInt] and igzip's [UINT32] are unsigned 32-bit.  All are carried by [Z];
    the conversions C inserts are written out. *)

Definition to_uInt (z : Z) : Z := z mod 2 ^ 32.
Definition to_jint (z : Z) : Z := (z + 2 ^ 31) mod 2 ^ 32 - 2 ^ 31.
Definition to_jlong (z : Z) : Z := (z + 2 ^ 63) mod 2 ^ 64 - 2 ^ 63.

Definition is_jint (z : Z) : Prop := - 2 ^ 31 <= z < 2 ^ 31.

Arguments to_uInt : simpl never.
Arguments to_jint : simpl never.
Arguments to_jlong : simpl never.

(** ** Constants

    The first three are [#define]d in IntelDeflater.c.  The others belong to
    zlib.h, which the file includes; the values are those of zlib's public
    interface. *)

Definition DEF_MEM_LEVEL : Z := 8.
Definition FAST_COMPRESSION : Z := 1.
Definition IGZIP_TRUE : Z := 1.

Definition Z_OK : Z := 0.
Definition Z_STREAM_END : Z := 1.
Definition Z_STREAM_ERROR : Z := -2.
Definition Z_MEM_ERROR : Z := -4.
Definition Z_BUF_ERROR : Z := -5.

Definition Z_NO_FLUSH : Z := 0.
Definition Z_PARTIAL_FLUSH : Z := 1.
Definition Z_SYNC_FLUSH : Z := 2.
Definition Z_FULL_FLUSH : Z := 3.
Definition Z_FINISH : Z := 4.

Definition Z_DEFLATED : Z := 8.
Definition MAX_WBITS : Z := 15.

Definition jlong_zero : Z := 0.
Definition newline : string := String (Ascii.ascii_of_nat 10) EmptyString.
Definition NULL : Z := 0.

(** ** The stream records

    [z_stream] and [LZ_Stream2] are declared in zlib.h and igzip_lib.h.  The
    fields IntelDeflater.c reads or writes are listed; whatever else the
    libraries keep behind them is the opaque component ([z_state],
    [lz_internal_state]).  Pointers are addresses in [Z], [NULL] is 0. *)

Record z_stream (ZS : Type) := mk_z_stream {
  z_next_in : Z;
  z_avail_in : Z;
  z_total_in : Z;
  z_next_out : Z;
  z_avail_out : Z;
  z_total_out : Z;
  z_msg : option string;
  z_state : option ZS;
  z_adler : Z
}.
Arguments mk_z_stream {ZS}.
Arguments z_next_in {ZS}.
Arguments z_avail_in {ZS}.
Arguments z_total_in {ZS}.
Arguments z_next_out {ZS}.
Arguments z_avail_out {ZS}.
Arguments z_total_out {ZS}.
Arguments z_msg {ZS}.
Arguments z_state {ZS}.
Arguments z_adler {ZS}.

Record LZ_Stream2 (LS : Type) := mk_LZ_Stream2 {
  lz_next_in : Z;
  lz_avail_in : Z;
  lz_total_in : Z;
  lz_next_out : Z;
  lz_avail_out : Z;
  lz_total_out : Z;
  lz_end_of_stream : Z;
  lz_internal_state : option LS
}.
Arguments mk_LZ_Stream2 {LS}.
Arguments lz_next_in {LS}.
Arguments lz_avail_in {LS}.
Arguments lz_total_in {LS}.
Arguments lz_next_out {LS}.
Arguments lz_avail_out {LS}.
Arguments lz_total_out {LS}.
Arguments lz_end_of_stream {LS}.
Arguments lz_internal_state {LS}.

(** [typedef struct { z_stream zStream; LZ_Stream2 lz2Stream; int useIGZIP; } Stream;] *)
Record Stream (ZS LS : Type) := mk_Stream {
  zStream : z_stream ZS;
  lz2Stream : LZ_Stream2 LS;
  useIGZIP : Z
}.
Arguments mk_Stream {ZS LS}.
Arguments zStream {ZS LS}.
Arguments lz2Stream {ZS LS}.
Arguments useIGZIP {ZS LS}.

(** The block [calloc] hands out: every byte zero. *)
Definition z_stream_zero {ZS} : z_stream ZS :=
  mk_z_stream 0 0 0 0 0 0 None None 0.
Definition LZ_Stream2_zero {LS} : LZ_Stream2 LS :=
  mk_LZ_Stream2 0 0 0 0 0 0 0 None.
Definition Stream_zero {ZS LS} : Stream ZS LS :=
  mk_Stream z_stream_zero LZ_Stream2_zero 0.

(** ** Structure layout

    Offsets follow the C rule: members in declaration order, each at the next
    multiple of its alignment. *)

Module Layout.

Record member := mk_member {
  m_name : string;
  m_size : Z;
  m_align : positive
}.

Definition align_up (o : Z) (a : positive) : Z :=
  (o + Z.pos a - 1) / Z.pos a * Z.pos a.

Fixpoint offsetof_from (o : Z) (ms : list member) (name : string) : Z :=
  match ms with
  | [] => o
  | m :: ms' =>
      let o' := align_up o (m_align m) in
      if String.eqb (m_name m) name then o'
      else offsetof_from (o' + m_size m) ms' name
  end.

Definition offsetof (ms : list member) (name : string) : Z :=
  offsetof_from 0 ms name.

End Layout.

(** ** What lies outside the file *)

Class Externals := {
  ZS : Type;
  LS : Type;
  (* the cpuid instruction: eax in, (ebx, ecx, edx) out *)
  cpuid : Z -> Z * Z * Z;
  (* sizeof and alignment of the two library records *)
  sizeof_z_stream : Z;
  alignof_z_stream : positive;
  sizeof_LZ_Stream2 : Z;
  alignof_LZ_Stream2 : positive;
  (* zlib *)
  deflateInit2 : z_stream ZS -> Z -> Z -> Z -> Z -> Z -> Z * z_stream ZS;
  deflateSetDictionary : z_stream ZS -> Z -> Z -> Z * z_stream ZS;
  deflateParams : z_stream ZS -> Z -> Z -> Z * z_stream ZS;
  deflate : z_stream ZS -> Z -> Z * z_stream ZS;
  deflateReset : z_stream ZS -> Z * z_stream ZS;
  deflateEnd : z_stream ZS -> Z * z_stream ZS;
  (* igzip *)
  init_stream : LZ_Stream2 LS -> LZ_Stream2 LS;
  fast_lz : LZ_Stream2 LS -> LZ_Stream2 LS
}.

(** ** The Java object and the world a native call runs in *)

(** The fields of the Java object that [initIDs] resolves: [level],
    [strategy], [off], [len] (signature "I"), [setParams], [finish],
    [finished] ("Z") and [buf] ("[B", an array reference). *)
Module JObj.
Record t := mk {
  level : Z;
  strategy : Z;
  setParams : bool;
  finish : bool;
  finished : bool;
  buf : Z;
  off : Z;
  len : Z
}.
End JObj.

Inductive jfieldID_I := levelID | strategyID | offID | lenID.
Inductive jfieldID_Z := setParamsID | finishID | finishedID.

Definition GetIntField (o : JObj.t) (f : jfieldID_I) : Z :=
  match f with
  | levelID => JObj.level o
  | strategyID => JObj.strategy o
  | offID => JObj.off o
  | lenID => JObj.len o
  end.

Definition GetBooleanField (o : JObj.t) (f : jfieldID_Z) : bool :=
  match f with
  | setParamsID => JObj.setParams o
  | finishID => JObj.finish o
  | finishedID => JObj.finished o
  end.

Definition SetIntField (f : jfieldID_I) (v : Z) (o : JObj.t) : JObj.t :=
  JObj.mk
    (match f with levelID => v | _ => JObj.level o end)
    (match f with strategyID => v | _ => JObj.strategy o end)
    (JObj.setParams o) (JObj.finish o) (JObj.finished o) (JObj.buf o)
    (match f with offID => v | _ => JObj.off o end)
    (match f with lenID => v | _ => JObj.len o end).

Definition SetBooleanField (f : jfieldID_Z) (v : bool) (o : JObj.t) : JObj.t :=
  JObj.mk (JObj.level o) (JObj.strategy o)
    (match f with setParamsID => v | _ => JObj.setParams o end)
    (match f with finishID => v | _ => JObj.finish o end)
    (match f with finishedID => v | _ => JObj.finished o end)
    (JObj.buf o) (JObj.off o) (JObj.len o).

Inductive BackendCall :=
| C_init_stream
| C_deflateInit2 (level method windowBits memLevel strategy : Z)
| C_deflateSetDictionary (dict len : Z)
| C_deflateParams (level strategy : Z)
| C_deflate (flush : Z)
| C_fast_lz
| C_deflateReset
| C_deflateEnd.

Inductive Event :=
| EvPrintf (s : string)
| EvThrow (cls : string) (msg : option string)
| EvPin (array ptr : Z)
| EvRelease (array ptr : Z)
| EvCall (c : BackendCall)
| EvFree (p : Z).

(** How a native function ends.  [FallsOffEnd]: control reaches the closing
    brace of a non-void function without a [return].  [AssertFails]: an
    [assert] stops the process.  [BadPointer]: a handle that is not a live
    [Stream] block is dereferenced. *)
Inductive Completion (A : Type) :=
| Returns (a : A)
| FallsOffEnd
| AssertFails
| BadPointer.
Arguments Returns {A}.
Arguments FallsOffEnd {A}.
Arguments AssertFails {A}.
Arguments BadPointer {A}.

Section IntelDeflater.

Context {E : Externals}.

Record World := mk_World {
  heap : gmap Z (Stream ZS LS);
  this : JObj.t;
  trace : list Event
}.

Definition log (e : Event) (w : World) : World :=
  mk_World (heap w) (this w) (trace w ++ [e]).

Definition set_this (o : JObj.t) (w : World) : World :=
  mk_World (heap w) o (trace w).

Definition set_heap (h : gmap Z (Stream ZS LS)) (w : World) : World :=
  mk_World h (this w) (trace w).

(** [(Stream * )jlong_to_ptr(addr)] followed by [->]. *)
Definition deref (w : World) (addr : Z) : option (Stream ZS LS) :=
  if addr =? NULL then None else heap w !! addr.

Definition store (addr : Z) (s : Stream ZS LS) (w : World) : World :=
  set_heap (<[addr := s]> (heap w)) w.

Definition free (p : Z) (w : World) : World :=
  log (EvFree p) (set_heap (delete p (heap w)) w).

Definition thrown (w : World) : list (string * option string) :=
  flat_map (fun e => match e with EvThrow c m => [(c, m)] | _ => [] end) (trace w).

Definition calls (w : World) : list BackendCall :=
  flat_map (fun e => match e with EvCall c => [c] | _ => [] end) (trace w).

(** *** CPU probe

    [ecx] and [bitidx] are C [int]s.  [ecx >> bitidx] is defined by C for
    counts 0..31 only, and that is the range [is_cpuid_ecx_bit_set] is
    used and reasoned about on; the one call passes 20. *)

Definition is_cpuid_ecx_bit_set (eax bitidx : Z) : bool :=
  let '(ebx, ecx, edx) := cpuid eax in
  Z.land (Z.shiftr ecx bitidx) 1 =? 1.

Definition is_sse42_supported : bool := is_cpuid_ecx_bit_set 1 20.

(** *** Raising Java exceptions

    [JNU_ThrowByName] looks the class up and calls [ThrowNew]; the four
    classes used here are in java.lang and are taken to be found.  A thrown
    exception is an event: the native code runs on to its [return]. *)

Definition JNU_ThrowByName (name : string) (msg : option string) (w : World) : World :=
  log (EvThrow name msg) w.

Definition JNU_ThrowOutOfMemoryError (msg : option string) : World -> World :=
  JNU_ThrowByName "java/lang/OutOfMemoryError" msg.

Definition JNU_ThrowIllegalArgumentException (msg : option string) : World -> World :=
  JNU_ThrowByName "java/lang/IllegalArgumentException" msg.

Definition JNU_ThrowInternalError (msg : option string) : World -> World :=
  JNU_ThrowByName "java/lang/InternalError" msg.

(** *** Field access on [this] *)

Definition get_I (w : World) (f : jfieldID_I) : Z := GetIntField (this w) f.
Definition get_Z (w : World) (f : jfieldID_Z) : bool := GetBooleanField (this w) f.
Definition set_I (f : jfieldID_I) (v : Z) (w : World) : World :=
  set_this (SetIntField f v (this w)) w.
Definition set_Z (f : jfieldID_Z) (v : bool) (w : World) : World :=
  set_this (SetBooleanField f v (this w)) w.

(** *** Writing the buffer fields of a stream before a backend call *)

Definition z_set_buffers (z : z_stream ZS) (next_in next_out avail_in avail_out : Z)
  : z_stream ZS :=
  mk_z_stream next_in avail_in (z_total_in z) next_out avail_out (z_total_out z)
              (z_msg z) (z_state z) (z_adler z).

Definition lz_set_buffers (l : LZ_Stream2 LS) (next_in next_out avail_in avail_out : Z)
  : LZ_Stream2 LS :=
  mk_LZ_Stream2 next_in avail_in (lz_total_in l) next_out avail_out (lz_total_out l)
                (lz_end_of_stream l) (lz_internal_state l).

Definition lz_set_end_of_stream (l : LZ_Stream2 LS) (v : Z) : LZ_Stream2 LS :=
  mk_LZ_Stream2 (lz_next_in l) (lz_avail_in l) (lz_total_in l) (lz_next_out l)
                (lz_avail_out l) (lz_total_out l) v (lz_internal_state l).

Definition set_zStream (s : Stream ZS LS) (z : z_stream ZS) : Stream ZS LS :=
  mk_Stream z (lz2Stream s) (useIGZIP s).

Definition set_lz2Stream (s : Stream ZS LS) (l : LZ_Stream2 LS) : Stream ZS LS :=
  mk_Stream (zStream s) l (useIGZIP s).

Definition set_useIGZIP (s : Stream ZS LS) (v : Z) : Stream ZS LS :=
  mk_Stream (zStream s) (lz2Stream s) v.

(** The members of [Stream], in declaration order. *)
Definition Stream_members : list Layout.member :=
  [ Layout.mk_member "zStream" sizeof_z_stream alignof_z_stream;
    Layout.mk_member "lz2Stream" sizeof_LZ_Stream2 alignof_LZ_Stream2;
    Layout.mk_member "useIGZIP" 4 4 ].

(** ** The native methods *)

(** [init].  [p] is what [calloc(1, sizeof(Stream))] returned: [NULL], or the
    address of a fresh zeroed block. *)
Definition Java_htsjdk_samtools_util_zip_IntelDeflater_init
    (p : Z) (level strategy : Z) (nowrap : bool) (w : World) : Completion Z * World :=
  let w := if p =? NULL then w else store p Stream_zero w in
  let strm := p in
  if (level =? FAST_COMPRESSION) && is_sse42_supported then
    let w := log (EvPrintf (String.append "Using igzip" newline)) w in
    (* strm->useIGZIP = IGZIP_TRUE; comes before the test of strm *)
    match deref w strm with
    | None => (BadPointer, w)
    | Some s =>
        let s := set_useIGZIP s IGZIP_TRUE in
        let w := store strm s w in
        if strm =? 0 then
          (Returns jlong_zero, JNU_ThrowOutOfMemoryError None w)
        else
          let w := log (EvCall C_init_stream) w in
          let w := store strm (set_lz2Stream s (init_stream (lz2Stream s))) w in
          (Returns strm, w)
    end
  else
    if strm =? 0 then
      (Returns jlong_zero, JNU_ThrowOutOfMemoryError None w)
    else
      match deref w strm with
      | None => (BadPointer, w)
      | Some s =>
          let windowBits := if nowrap then - MAX_WBITS else MAX_WBITS in
          let w := log (EvCall (C_deflateInit2 level Z_DEFLATED windowBits
                                               DEF_MEM_LEVEL strategy)) w in
          let '(res, z) := deflateInit2 (zStream s) level Z_DEFLATED windowBits
                                        DEF_MEM_LEVEL strategy in
          let w := store strm (set_zStream s z) w in
          if res =? Z_OK then
            (Returns (strm + Layout.offsetof Stream_members "zStream"), w)
          else if res =? Z_MEM_ERROR then
            (Returns jlong_zero, JNU_ThrowOutOfMemoryError None (free strm w))
          else if res =? Z_STREAM_ERROR then
            (Returns jlong_zero, JNU_ThrowIllegalArgumentException None (free strm w))
          else
            let msg := z_msg z in
            (Returns jlong_zero, JNU_ThrowInternalError msg (free strm w))
      end.

(** [setDictionary].  [buf] is what [GetPrimitiveArrayCritical] returned for
    the array [b]. *)
Definition Java_htsjdk_samtools_util_zip_IntelDeflater_setDictionary
    (buf : Z) (addr b off len : Z) (w : World) : Completion unit * World :=
  let w := log (EvPin b buf) w in
  if buf =? 0 then (Returns tt, w)
  else
    match deref w addr with
    | None => (BadPointer, w)
    | Some s =>
        (* deflateSetDictionary takes uInt dictLength: the jint len is converted *)
        let w := log (EvCall (C_deflateSetDictionary (buf + off) (to_uInt len))) w in
        let '(res, z) := deflateSetDictionary (zStream s) (buf + off) (to_uInt len) in
        let w := store addr (set_zStream s z) w in
        let w := log (EvRelease b buf) w in
        if res =? Z_OK then (Returns tt, w)
        else if res =? Z_STREAM_ERROR then
          (Returns tt, JNU_ThrowIllegalArgumentException None w)
        else (Returns tt, JNU_ThrowInternalError (z_msg z) w)
    end.

(** [deflateBytes].  [in_buf] and [out_buf] are what the JVM answers to the
    two [GetPrimitiveArrayCritical] requests, for [this.buf] and for [b];
    [NULL] is a failed pin. *)
Definition Java_htsjdk_samtools_util_zip_IntelDeflater_deflateBytes
    (in_buf out_buf : Z) (addr b off len flush : Z) (w : World) : Completion Z * World :=
  let this_buf := JObj.buf (this w) in
  let this_off := get_I w offID in
  let this_len := get_I w lenID in
  match deref w addr with
  | None => (BadPointer, w)
  | Some strm =>
    if negb (useIGZIP strm =? 0)
       && ((get_Z w setParamsID && negb (lz_total_in (lz2Stream strm) =? 0))
           || (flush =? 1)) then
      (FallsOffEnd, JNU_ThrowInternalError (Some "igzip doesn't support this"%string) w)
    else if negb (useIGZIP strm =? 0) then
      let w := log (EvPin this_buf in_buf) w in
      if in_buf =? NULL then
        (* Throw OOME only when length is not zero *)
        (Returns 0, if negb (this_len =? 0) then JNU_ThrowOutOfMemoryError None w else w)
      else
      let w := log (EvPin b out_buf) w in
      if out_buf =? NULL then
        let w := log (EvRelease this_buf in_buf) w in
        (Returns 0, if negb (len =? 0) then JNU_ThrowOutOfMemoryError None w else w)
      else
      let lz := lz_set_buffers (lz2Stream strm) (in_buf + this_off) (out_buf + off)
                               (to_uInt this_len) (to_uInt len) in
      let w := store addr (set_lz2Stream strm lz) w in
      if lz_avail_in lz =? 0 then (AssertFails, w)
      else if lz_avail_out lz =? 0 then (AssertFails, w)
      else
      let finish := get_Z w finishID in
      let lz := lz_set_end_of_stream lz (if finish then 1 else 0) in
      let w := log (EvCall C_fast_lz) w in
      let lz := fast_lz lz in
      let w := store addr (set_lz2Stream strm lz) w in
      let w := log (EvRelease b out_buf) w in
      let w := log (EvRelease this_buf in_buf) w in
      let w := if finish then set_Z finishedID true w else w in
      let this_off := to_jint (this_off + to_uInt (this_len - lz_avail_in lz)) in
      let w := set_I offID this_off w in
      let w := set_I lenID (to_jint (lz_avail_in lz)) w in
      (Returns (to_jint (to_uInt (len - lz_avail_out lz))), w)
    else
      if get_Z w setParamsID then
        let level := get_I w levelID in
        let strategy := get_I w strategyID in
        let w := log (EvPin this_buf in_buf) w in
        if in_buf =? NULL then
          (Returns 0, if negb (this_len =? 0) then JNU_ThrowOutOfMemoryError None w else w)
        else
        let w := log (EvPin b out_buf) w in
        if out_buf =? NULL then
          let w := log (EvRelease this_buf in_buf) w in
          (Returns 0, if negb (len =? 0) then JNU_ThrowOutOfMemoryError None w else w)
        else
        let z := z_set_buffers (zStream strm) (in_buf + this_off) (out_buf + off)
                               (to_uInt this_len) (to_uInt len) in
        let w := log (EvCall (C_deflateParams level strategy)) w in
        let '(res, z) := deflateParams z level strategy in
        let w := store addr (set_zStream strm z) w in
        let w := log (EvRelease b out_buf) w in
        let w := log (EvRelease this_buf in_buf) w in
        if res =? Z_OK then
          let w := set_Z setParamsID false w in
          let this_off := to_jint (this_off + to_uInt (this_len - z_avail_in z)) in
          let w := set_I offID this_off w in
          let w := set_I lenID (to_jint (z_avail_in z)) w in
          (Returns (to_jint (to_uInt (len - z_avail_out z))), w)
        else if res =? Z_BUF_ERROR then
          let w := set_Z setParamsID false w in
          (Returns 0, w)
        else
          (Returns 0, JNU_ThrowInternalError (z_msg z) w)
      else
        let finish := get_Z w finishID in
        let w := log (EvPin this_buf in_buf) w in
        if in_buf =? NULL then
          (Returns 0, if negb (this_len =? 0) then JNU_ThrowOutOfMemoryError None w else w)
        else
        let w := log (EvPin b out_buf) w in
        if out_buf =? NULL then
          let w := log (EvRelease this_buf in_buf) w in
          (Returns 0, if negb (len =? 0) then JNU_ThrowOutOfMemoryError None w else w)
        else
        let z := z_set_buffers (zStream strm) (in_buf + this_off) (out_buf + off)
                               (to_uInt this_len) (to_uInt len) in
        let w := log (EvCall (C_deflate (if finish then Z_FINISH else flush))) w in
        let '(res, z) := deflate z (if finish then Z_FINISH else flush) in
        let w := store addr (set_zStream strm z) w in
        let w := log (EvRelease b out_buf) w in
        let w := log (EvRelease this_buf in_buf) w in
        if (res =? Z_STREAM_END) || (res =? Z_OK) then
          (* case Z_STREAM_END sets finished and falls through to case Z_OK *)
          let w := if res =? Z_STREAM_END then set_Z finishedID true w else w in
          let this_off := to_jint (this_off + to_uInt (this_len - z_avail_in z)) in
          let w := set_I offID this_off w in
          let w := set_I lenID (to_jint (z_avail_in z)) w in
          (Returns (to_jint (to_uInt (len - z_avail_out z))), w)
        else if res =? Z_BUF_ERROR then
          (Returns 0, w)
        else
          (Returns 0, JNU_ThrowInternalError (z_msg z) w)
  end.

(** [getAdler]: the igzip branch throws and has no [return]. *)
Definition Java_htsjdk_samtools_util_zip_IntelDeflater_getAdler
    (addr : Z) (w : World) : Completion Z * World :=
  match deref w addr with
  | None => (BadPointer, w)
  | Some strm =>
      if negb (useIGZIP strm =? 0) then
        (FallsOffEnd,
         JNU_ThrowInternalError (Some "igzip doesn't support getAdler function"%string) w)
      else
        (Returns (to_jint (z_adler (zStream strm))), w)
  end.

Definition Java_htsjdk_samtools_util_zip_IntelDeflater_getBytesRead
    (addr : Z) (w : World) : Completion Z * World :=
  match deref w addr with
  | None => (BadPointer, w)
  | Some strm =>
      (Returns (to_jlong (if negb (useIGZIP strm =? 0)
                          then lz_total_in (lz2Stream strm)
                          else z_total_in (zStream strm))), w)
  end.

Definition Java_htsjdk_samtools_util_zip_IntelDeflater_getBytesWritten
    (addr : Z) (w : World) : Completion Z * World :=
  match deref w addr with
  | None => (BadPointer, w)
  | Some strm =>
      (Returns (to_jlong (if negb (useIGZIP strm =? 0)
                          then lz_total_out (lz2Stream strm)
                          else z_total_out (zStream strm))), w)
  end.

Definition Java_htsjdk_samtools_util_zip_IntelDeflater_reset
    (addr : Z) (w : World) : Completion unit * World :=
  match deref w addr with
  | None => (BadPointer, w)
  | Some strm =>
      if negb (useIGZIP strm =? 0) then
        let w := log (EvCall C_init_stream) w in
        (Returns tt, store addr (set_lz2Stream strm (init_stream (lz2Stream strm))) w)
      else
        let w := log (EvCall C_deflateReset) w in
        let '(res, z) := deflateReset (zStream strm) in
        let w := store addr (set_zStream strm z) w in
        if negb (res =? Z_OK) then (Returns tt, JNU_ThrowInternalError None w)
        else (Returns tt, w)
  end.

Definition Java_htsjdk_samtools_util_zip_IntelDeflater_end
    (addr : Z) (w : World) : Completion unit * World :=
  match deref w addr with
  | None => (BadPointer, w)
  | Some strm =>
      if useIGZIP strm =? 0 then
        let w := log (EvCall C_deflateEnd) w in
        let '(res, z) := deflateEnd (zStream strm) in
        let w := store addr (set_zStream strm z) w in
        let w := if res =? Z_STREAM_ERROR then JNU_ThrowInternalError None w else w in
        (Returns tt, free addr w)
      else
        (Returns tt, free addr w)
  end.

(** ** Session vocabulary *)

Inductive Backend := Standard | Fast.

(** Every native method dispatches on [useIGZIP] being nonzero. *)
Definition activeBackend (s : Stream ZS LS) : Backend :=
  if useIGZIP s =? 0 then Standard else Fast.

(** The test at the head of [deflateBytes]: an igzip session asked for what
    the comment there says igzip cannot do. *)
Definition igzip_unsupported (w : World) (strm : Stream ZS LS) (flush : Z) : bool :=
  negb (useIGZIP strm =? 0)
  && ((get_Z w setParamsID && negb (lz_total_in (lz2Stream strm) =? 0))
      || (flush =? 1)).

(** Modelled from the spec: the Java method [IntelDeflater.reset()], which is
    not under src/.  The spec has [reset] return the session "with counters and
    [finished] cleared"; the counters are the backend's and are cleared by the
    native [reset] above, the [finished] field lives in the Java object and is
    cleared here. *)
Definition Session_reset (addr : Z) (w : World) : Completion unit * World :=
  let '(r, w) := Java_htsjdk_samtools_util_zip_IntelDeflater_reset addr w in
  (r, set_Z finishedID false w).

(** Every native method casts its [addr] to [Stream *] and dereferences it;
    that succeeds whenever [addr] is the address of a live block. *)
Definition handle_ok (w : World) (h : Z) : Prop :=
  (forall in_buf out_buf b off len flush,
      fst (Java_htsjdk_samtools_util_zip_IntelDeflater_deflateBytes
             in_buf out_buf h b off len flush w) <> BadPointer) /\
  (forall buf b off len,
      fst (Java_htsjdk_samtools_util_zip_IntelDeflater_setDictionary
             buf h b off len w) <> BadPointer) /\
  fst (Java_htsjdk_samtools_util_zip_IntelDeflater_getAdler h w) <> BadPointer /\
  fst (Java_htsjdk_samtools_util_zip_IntelDeflater_getBytesRead h w) <> BadPointer /\
  fst (Java_htsjdk_samtools_util_zip_IntelDeflater_getBytesWritten h w) <> BadPointer /\
  fst (Java_htsjdk_samtools_util_zip_IntelDeflater_reset h w) <> BadPointer /\
  fst (Java_htsjdk_samtools_util_zip_IntelDeflater_end h w) <> BadPointer.

(** *** What the libraries promise

    zlib's and igzip's documented accounting: a call consumes and produces
    what it takes off [avail_in] and [avail_out], and adds as much to the
    totals. *)
Definition deflate_accounting : Prop :=
  forall (z : z_stream ZS) (flush : Z),
    0 <= z_avail_in z -> 0 <= z_avail_out z ->
    let z' := snd (deflate z flush) in
    0 <= z_avail_in z' <= z_avail_in z /\
    0 <= z_avail_out z' <= z_avail_out z /\
    z_total_in z' = z_total_in z + (z_avail_in z - z_avail_in z') /\
    z_total_out z' = z_total_out z + (z_avail_out z - z_avail_out z').

(** A stream that was just initialised or reset has compressed nothing. *)
Definition fresh_totals : Prop :=
  (forall l : LZ_Stream2 LS,
      lz_total_in (init_stream l) = 0 /\ lz_total_out (init_stream l) = 0) /\
  (forall (z : z_stream ZS) (level method windowBits memLevel strategy : Z),
      fst (deflateInit2 z level method windowBits memLevel strategy) = Z_OK ->
      z_total_in (snd (deflateInit2 z level method windowBits memLevel strategy)) = 0 /\
      z_total_out (snd (deflateInit2 z level method windowBits memLevel strategy)) = 0) /\
  (forall z : z_stream ZS,
      fst (deflateReset z) = Z_OK ->
      z_total_in (snd (deflateReset z)) = 0 /\ z_total_out (snd (deflateReset z)) = 0).

(** *** Reading a trace *)

(** The events a call added to the trace. *)
Definition new_events (w w' : World) : list Event :=
  skipn (length (trace w)) (trace w').

(** The arrays held pinned after a run of events, innermost first, starting
    from the stack [st].  A [GetPrimitiveArrayCritical] that answered [NULL]
    pins nothing; a release must name the innermost pin, else the run is
    ill-formed ([None]). *)
Fixpoint pin_stack (evs : list Event) (st : list (Z * Z)) : option (list (Z * Z)) :=
  match evs with
  | [] => Some st
  | EvPin a p :: evs' =>
      if p =? NULL then pin_stack evs' st else pin_stack evs' ((a, p) :: st)
  | EvRelease a p :: evs' =>
      match st with
      | (a', p') :: st' =>
          if (a =? a') && (p =? p') then pin_stack evs' st' else None
      | [] => None
      end
  | _ :: evs' => pin_stack evs' st
  end.

(** A compression call only takes from [avail_in] and [avail_out]. *)
Definition backend_takes_only : Prop :=
  (forall (z : z_stream ZS) (flush : Z),
      0 <= z_avail_in z -> 0 <= z_avail_out z ->
      0 <= z_avail_in (snd (deflate z flush)) <= z_avail_in z /\
      0 <= z_avail_out (snd (deflate z flush)) <= z_avail_out z) /\
  (forall (z : z_stream ZS) (level strategy : Z),
      0 <= z_avail_in z -> 0 <= z_avail_out z ->
      0 <= z_avail_in (snd (deflateParams z level strategy)) <= z_avail_in z /\
      0 <= z_avail_out (snd (deflateParams z level strategy)) <= z_avail_out z) /\
  (forall l : LZ_Stream2 LS,
      0 <= lz_avail_in l -> 0 <= lz_avail_out l ->
      0 <= lz_avail_in (fast_lz l) <= lz_avail_in l /\
      0 <= lz_avail_out (fast_lz l) <= lz_avail_out l).

End IntelDeflater.

Abbreviation init := Java_htsjdk_samtools_util_zip_IntelDeflater_init.
Abbreviation setDictionary := Java_htsjdk_samtools_util_zip_IntelDeflater_setDictionary.
Abbreviation deflateBytes := Java_htsjdk_samtools_util_zip_IntelDeflater_deflateBytes.
Abbreviation getAdler := Java_htsjdk_samtools_util_zip_IntelDeflater_getAdler.
Abbreviation getBytesRead := Java_htsjdk_samtools_util_zip_IntelDeflater_getBytesRead.
Abbreviation getBytesWritten := Java_htsjdk_samtools_util_zip_IntelDeflater_getBytesWritten.
Abbreviation reset := Java_htsjdk_samtools_util_zip_IntelDeflater_reset.
Abbreviation end_ := Java_htsjdk_samtools_util_zip_IntelDeflater_end.

(** ** A reference instance of the externals

    A backend that moves [min avail_in avail_out] bytes from input to output
    without compressing, with zlib's return-code conventions.  It serves to
    evaluate the model on concrete inputs. *)

Module Ref.

Definition z_move (z : z_stream unit) (n : Z) : z_stream unit :=
  mk_z_stream (z_next_in z + n) (z_avail_in z - n) (z_total_in z + n)
              (z_next_out z + n) (z_avail_out z - n) (z_total_out z + n)
              (z_msg z) (z_state z) (z_adler z).

Definition z_fresh (z : z_stream unit) : z_stream unit :=
  mk_z_stream (z_next_in z) (z_avail_in z) 0 (z_next_out z) (z_avail_out z) 0
              None (Some tt) 1.

Definition ref_deflateInit2 (z : z_stream unit)
    (level method windowBits memLevel strategy : Z) : Z * z_stream unit :=
  if (-1 <=? level) && (level <=? 9) && (method =? Z_DEFLATED)
     && (8 <=? Z.abs windowBits) && (Z.abs windowBits <=? 15)
     && (1 <=? memLevel) && (memLevel <=? 9)
     && (0 <=? strategy) && (strategy <=? 4)
  then (Z_OK, z_fresh z)
  else (Z_STREAM_ERROR, z).

Definition ref_deflateSetDictionary (z : z_stream unit) (dict len : Z)
  : Z * z_stream unit :=
  match z_state z with
  | None => (Z_STREAM_ERROR, z)
  | Some _ => (Z_OK, z)
  end.

Definition ref_deflateParams (z : z_stream unit) (level strategy : Z)
  : Z * z_stream unit :=
  if negb ((-1 <=? level) && (level <=? 9) && (0 <=? strategy) && (strategy <=? 4))
  then (Z_STREAM_ERROR, z)
  else if z_avail_out z =? 0 then (Z_BUF_ERROR, z)
  else (Z_OK, z).

Definition ref_deflate (z : z_stream unit) (flush : Z) : Z * z_stream unit :=
  let n := Z.min (z_avail_in z) (z_avail_out z) in
  if z_avail_out z =? 0 then (Z_BUF_ERROR, z)
  else if (flush =? Z_FINISH) && (z_avail_in z <? z_avail_out z) then
    (Z_STREAM_END, z_move z n)
  else if (n =? 0) && (flush =? Z_NO_FLUSH) then (Z_BUF_ERROR, z)
  else (Z_OK, z_move z n).

Definition ref_deflateReset (z : z_stream unit) : Z * z_stream unit :=
  match z_state z with
  | None => (Z_STREAM_ERROR, z)
  | Some _ => (Z_OK, z_fresh z)
  end.

Definition ref_deflateEnd (z : z_stream unit) : Z * z_stream unit :=
  match z_state z with
  | None => (Z_STREAM_ERROR, z)
  | Some _ =>
      (Z_OK, mk_z_stream (z_next_in z) (z_avail_in z) (z_total_in z) (z_next_out z)
                         (z_avail_out z) (z_total_out z) (z_msg z) None (z_adler z))
  end.

Definition ref_init_stream (l : LZ_Stream2 unit) : LZ_Stream2 unit :=
  mk_LZ_Stream2 (lz_next_in l) (lz_avail_in l) 0 (lz_next_out l) (lz_avail_out l) 0
                0 (Some tt).

Definition ref_fast_lz (l : LZ_Stream2 unit) : LZ_Stream2 unit :=
  let n := Z.min (lz_avail_in l) (lz_avail_out l) in
  mk_LZ_Stream2 (lz_next_in l + n) (lz_avail_in l - n) (lz_total_in l + n)
                (lz_next_out l + n) (lz_avail_out l - n) (lz_total_out l + n)
                (lz_end_of_stream l) (lz_internal_state l).

(** [sse42] is bit 20 of ecx for leaf 1. *)
Definition ref_cpuid (sse42 : bool) (eax : Z) : Z * Z * Z :=
  (0, if (eax =? 1) && sse42 then Z.shiftl 1 20 else 0, 0).

Definition ext (sse42 : bool) : Externals :=
  {| ZS := unit;
     LS := unit;
     cpuid := ref_cpuid sse42;
     sizeof_z_stream := 112;
     alignof_z_stream := 8;
     sizeof_LZ_Stream2 := 4096;
     alignof_LZ_Stream2 := 8;
     deflateInit2 := ref_deflateInit2;
     deflateSetDictionary := ref_deflateSetDictionary;
     deflateParams := ref_deflateParams;
     deflate := ref_deflate;
     deflateReset := ref_deflateReset;
     deflateEnd := ref_deflateEnd;
     init_stream := ref_init_stream;
     fast_lz := ref_fast_lz |}.

(** Java objects reading [n] bytes at offset 0 of array 7, level 6, default
    strategy: with nothing pending, with a parameter change pending, with
    [finish] requested. *)
Definition obj (n : Z) : JObj.t := JObj.mk 6 0 false false false 7 0 n.
Definition obj_params (n : Z) : JObj.t := JObj.mk 6 0 true false false 7 0 n.
Definition obj_finish (n : Z) : JObj.t := JObj.mk 6 0 false true false 7 0 n.

Definition world0 (sse42 : bool) (o : JObj.t) : @World (ext sse42) :=
  mk_World ∅ o [].

(** A zlib session at level 6 and an igzip session, both created by [init]
    with the block at address 4096, and the [Stream] each finds there. *)
Definition std_world (o : JObj.t) : @World (ext true) :=
  snd (init 4096 6 0 false (world0 true o)).

Definition igzip_world (o : JObj.t) : @World (ext true) :=
  snd (init 4096 1 0 false (world0 true o)).

Definition std_stream : Stream unit unit :=
  mk_Stream (z_fresh z_stream_zero) LZ_Stream2_zero 0.

Definition igzip_stream : Stream unit unit :=
  mk_Stream z_stream_zero (ref_init_stream LZ_Stream2_zero) 1.

End Ref.


(** * Properties *)

(** ** Integer conversions *)

Lemma to_jint_id (z : Z) : is_jint z -> to_jint z = z.
Proof.
  unfold is_jint, to_jint. intros H.
  rewrite Z.mod_small; lia.
Qed.

Lemma to_uInt_id (z : Z) : 0 <= z < 2 ^ 32 -> to_uInt z = z.
Proof. unfold to_uInt. intros H. apply Z.mod_small. lia. Qed.

Lemma to_jlong_id (z : Z) : - 2 ^ 63 <= z < 2 ^ 63 -> to_jlong z = z.
Proof.
  unfold to_jlong. intros H.
  rewrite Z.mod_small; lia.
Qed.

Lemma to_uInt_to_jint (z : Z) : 0 <= z < 2 ^ 32 -> to_uInt (to_jint z) = z.
Proof.
  unfold to_uInt, to_jint. intros H.
  rewrite Zminus_mod_idemp_l.
  replace (z + 2 ^ 31 - 2 ^ 31) with z by lia.
  apply Z.mod_small. lia.
Qed.

(** The update of [off]: [this_off += this_len - avail_in], with [avail_in]
    unsigned, stays exact as long as the window lies inside a Java array. *)
Lemma off_update_exact (this_off this_len avail : Z) :
  0 <= this_off -> 0 <= avail <= this_len -> this_off + this_len < 2 ^ 31 ->
  to_jint (this_off + to_uInt (this_len - avail)) = this_off + (this_len - avail).
Proof.
  intros H1 H2 H3.
  rewrite to_uInt_id by lia.
  apply to_jint_id. unfold is_jint. lia.
Qed.

Lemma produced_exact (len avail : Z) :
  0 <= avail <= len -> len < 2 ^ 31 ->
  to_jint (to_uInt (len - avail)) = len - avail.
Proof.
  intros H1 H2.
  rewrite to_uInt_id by lia.
  apply to_jint_id. unfold is_jint. lia.
Qed.

(** ** Structure layout *)

Lemma align_up_0 (a : positive) : Layout.align_up 0 a = 0.
Proof.
  unfold Layout.align_up.
  rewrite Z.div_small by lia. reflexivity.
Qed.

(** The first member of a structure sits at offset 0, whatever the sizes. *)
Lemma offsetof_first (m : Layout.member) (ms : list Layout.member) :
  Layout.offsetof (m :: ms) (Layout.m_name m) = 0.
Proof.
  unfold Layout.offsetof. simpl.
  rewrite String.eqb_refl. apply align_up_0.
Qed.

(** A member behind a first member of positive size does not. *)
Lemma offsetof_second (m1 m2 : Layout.member) (ms : list Layout.member) :
  Layout.m_name m1 <> Layout.m_name m2 -> 0 < Layout.m_size m1 ->
  0 < Layout.offsetof (m1 :: m2 :: ms) (Layout.m_name m2).
Proof.
  intros Hne Hsz. unfold Layout.offsetof. simpl.
  apply String.eqb_neq in Hne. rewrite Hne, String.eqb_refl, align_up_0.
  unfold Layout.align_up.
  assert (H : 0 < (0 + Layout.m_size m1 + Z.pos (Layout.m_align m2) - 1)
                  / Z.pos (Layout.m_align m2)).
  { apply Z.div_str_pos. lia. }
  nia.
Qed.

Section Properties.

Context {E : Externals}.

Lemma offsetof_zStream : Layout.offsetof Stream_members "zStream" = 0.
Proof. unfold Stream_members. apply (offsetof_first (Layout.mk_member "zStream" _ _)). Qed.

(** ** The world: reads after writes *)

Lemma deref_store (a : Z) (s : Stream ZS LS) (w : World) :
  a <> NULL -> deref (store a s w) a = Some s.
Proof.
  intros Ha. unfold deref, store, set_heap. simpl.
  destruct (a =? NULL) eqn:Heq; [apply Z.eqb_eq in Heq; contradiction|].
  apply lookup_insert_eq.
Qed.

Lemma deref_not_null (w : World) (a : Z) (s : Stream ZS LS) :
  deref w a = Some s -> a <> NULL.
Proof.
  unfold deref. destruct (a =? NULL) eqn:Heq; [discriminate|].
  intros _. apply Z.eqb_neq. exact Heq.
Qed.

Lemma deref_log (e : Event) (w : World) (a : Z) : deref (log e w) a = deref w a.
Proof. reflexivity. Qed.

Lemma deref_set_this (o : JObj.t) (w : World) (a : Z) : deref (set_this o w) a = deref w a.
Proof. reflexivity. Qed.

Lemma deref_set_I (f : jfieldID_I) (v : Z) (w : World) (a : Z) :
  deref (set_I f v w) a = deref w a.
Proof. reflexivity. Qed.

Lemma deref_set_Z (f : jfieldID_Z) (v : bool) (w : World) (a : Z) :
  deref (set_Z f v w) a = deref w a.
Proof. reflexivity. Qed.

Lemma thrown_log (e : Event) (w : World) :
  thrown (log e w) = thrown w ++ match e with EvThrow c m => [(c, m)] | _ => [] end.
Proof.
  unfold thrown, log. simpl. rewrite flat_map_app. simpl.
  rewrite app_nil_r. reflexivity.
Qed.

Lemma calls_log (e : Event) (w : World) :
  calls (log e w) = calls w ++ match e with EvCall c => [c] | _ => [] end.
Proof.
  unfold calls, log. simpl. rewrite flat_map_app. simpl.
  rewrite app_nil_r. reflexivity.
Qed.

Lemma calls_store (a : Z) (s : Stream ZS LS) (w : World) :
  calls (store a s w) = calls w.
Proof. reflexivity. Qed.

Lemma calls_set_this (o : JObj.t) (w : World) : calls (set_this o w) = calls w.
Proof. reflexivity. Qed.

Lemma calls_throw (n : string) (m : option string) (w : World) :
  calls (JNU_ThrowByName n m w) = calls w.
Proof. unfold JNU_ThrowByName. rewrite calls_log. apply app_nil_r. Qed.

Lemma calls_free (p : Z) (w : World) : calls (free p w) = calls w.
Proof. unfold free. rewrite calls_log. apply app_nil_r. Qed.

Lemma thrown_store (a : Z) (s : Stream ZS LS) (w : World) :
  thrown (store a s w) = thrown w.
Proof. reflexivity. Qed.

Lemma thrown_set_this (o : JObj.t) (w : World) : thrown (set_this o w) = thrown w.
Proof. reflexivity. Qed.

Lemma JObj_eta (o : JObj.t) :
  JObj.mk (JObj.level o) (JObj.strategy o) (JObj.setParams o) (JObj.finish o)
          (JObj.finished o) (JObj.buf o) (JObj.off o) (JObj.len o) = o.
Proof. destruct o. reflexivity. Qed.

Lemma World_eta (w : World) : mk_World (heap w) (this w) (trace w) = w.
Proof. destruct w. reflexivity. Qed.

(** ** Backend selection at session creation *)

(** The one backend call [init] makes, as a function of the dispatch test. *)
Lemma init_calls (p level strategy : Z) (nowrap : bool) (w : World) :
  p <> NULL ->
  calls (snd (init p level strategy nowrap w)) =
  calls w ++
    [if (level =? FAST_COMPRESSION) && is_sse42_supported then C_init_stream
     else C_deflateInit2 level Z_DEFLATED (if nowrap then - MAX_WBITS else MAX_WBITS)
                         DEF_MEM_LEVEL strategy].
Proof.
  intros Hp. unfold Java_htsjdk_samtools_util_zip_IntelDeflater_init.
  assert (Hz : (p =? NULL) = false) by (apply Z.eqb_neq; exact Hp).
  assert (Hz0 : (p =? 0) = false) by exact Hz.
  rewrite Hz.
  destruct ((level =? FAST_COMPRESSION) && is_sse42_supported).
  - rewrite deref_log, deref_store by exact Hp. rewrite Hz0. cbv zeta. unfold snd.
    rewrite calls_store, calls_log, calls_store, calls_log, calls_store.
    rewrite app_nil_r. reflexivity.
  - rewrite Hz0, deref_store by exact Hp.
    destruct (deflateInit2 _ _ _ _ _ _) as [res z].
    destruct (res =? Z_OK); [|destruct (res =? Z_MEM_ERROR); [|destruct (res =? Z_STREAM_ERROR)]];
      cbv zeta; unfold snd, JNU_ThrowOutOfMemoryError, JNU_ThrowIllegalArgumentException,
                 JNU_ThrowInternalError;
      rewrite ?calls_throw, ?calls_free, calls_store, calls_log, calls_store; reflexivity.
Qed.

(** A handle [init] returns is the address of the block, and the block holds
    a [Stream] whose [useIGZIP] records the dispatch test. *)
Lemma init_handle (p level strategy : Z) (nowrap : bool) (w : World) (h : Z) :
  p <> NULL ->
  fst (init p level strategy nowrap w) = Returns h -> h <> jlong_zero ->
  h = p /\
  exists s, deref (snd (init p level strategy nowrap w)) h = Some s /\
            useIGZIP s = (if (level =? FAST_COMPRESSION) && is_sse42_supported
                          then IGZIP_TRUE else 0).
Proof.
  intros Hp. unfold Java_htsjdk_samtools_util_zip_IntelDeflater_init.
  assert (Hz : (p =? NULL) = false) by (apply Z.eqb_neq; exact Hp).
  assert (Hz0 : (p =? 0) = false) by exact Hz.
  rewrite Hz.
  destruct ((level =? FAST_COMPRESSION) && is_sse42_supported).
  - rewrite deref_log, deref_store by exact Hp. rewrite Hz0. simpl.
    intros Hr _. injection Hr as <-. split; [reflexivity|].
    eexists. split; [apply deref_store; exact Hp|]. reflexivity.
  - rewrite Hz0, deref_store by exact Hp.
    destruct (deflateInit2 _ _ _ _ _ _) as [res z].
    destruct (res =? Z_OK).
    + simpl. rewrite offsetof_zStream, Z.add_0_r.
      intros Hr _. injection Hr as <-. split; [reflexivity|].
      eexists. split; [apply deref_store; exact Hp|]. reflexivity.
    + destruct (res =? Z_MEM_ERROR); [|destruct (res =? Z_STREAM_ERROR)];
        simpl; intros Hr Hh; injection Hr as <-; contradiction.
Qed.

(** C1.  At session creation the dispatch is decided by one test.  When the
    requested level is [FAST_COMPRESSION] (1) and the CPU probe answers true,
    [init] runs igzip's [init_stream] on the zeroed [lz2Stream], marks the
    session igzip and leaves [zStream] zeroed: zlib is not initialised.  In
    every other case it runs zlib's [deflateInit2] on the zeroed [zStream] with
    the requested level and strategy, method Z_DEFLATED, memory level 8 and
    window bits 15 (wrapped) when [nowrap] is false, -15 (raw) when it is
    true; what [deflateInit2] leaves is what the session keeps when it answers
    Z_OK, [lz2Stream] stays zeroed, and on any other answer there is no
    session.  A session that [init] hands back runs on igzip exactly when the
    test held. *)
Theorem C1_init_selects_backend (p level strategy : Z) (nowrap : bool) (w : World) :
  p <> NULL ->
  let r := init p level strategy nowrap w in
  let windowBits := if nowrap then - MAX_WBITS else MAX_WBITS in
  let zi := deflateInit2 z_stream_zero level Z_DEFLATED windowBits DEF_MEM_LEVEL
                         strategy in
  (level = FAST_COMPRESSION /\ is_sse42_supported = true ->
   fst r = Returns p /\
   calls (snd r) = calls w ++ [C_init_stream] /\
   thrown (snd r) = thrown w /\
   deref (snd r) p =
     Some (mk_Stream z_stream_zero (init_stream LZ_Stream2_zero) IGZIP_TRUE)) /\
  (~ (level = FAST_COMPRESSION /\ is_sse42_supported = true) ->
   calls (snd r) =
     calls w ++ [C_deflateInit2 level Z_DEFLATED windowBits DEF_MEM_LEVEL strategy] /\
   (fst zi = Z_OK ->
    fst r = Returns p /\ thrown (snd r) = thrown w /\
    deref (snd r) p = Some (mk_Stream (snd zi) LZ_Stream2_zero 0)) /\
   (fst zi <> Z_OK ->
    fst r = Returns jlong_zero /\ heap (snd r) !! p = None)) /\
  (forall h, fst r = Returns h -> h <> jlong_zero ->
     exists s, deref (snd r) h = Some s /\
               (activeBackend s = Fast <->
                level = FAST_COMPRESSION /\ is_sse42_supported = true)).
Proof.
  intros Hp r windowBits zi.
  assert (Htest : (level =? FAST_COMPRESSION) && is_sse42_supported = true <->
                  level = FAST_COMPRESSION /\ is_sse42_supported = true).
  { rewrite andb_true_iff, Z.eqb_eq. reflexivity. }
  assert (Hz : (p =? NULL) = false) by (apply Z.eqb_neq; exact Hp).
  assert (Hz0 : (p =? 0) = false) by exact Hz.
  split; [|split].
  - intros Hc. apply Htest in Hc. subst r.
    pose proof (init_calls p level strategy nowrap w Hp) as Hcalls.
    rewrite Hc in Hcalls.
    split; [|split; [exact Hcalls|]].
    + unfold Java_htsjdk_samtools_util_zip_IntelDeflater_init.
      rewrite Hz, Hc, deref_log, deref_store by exact Hp. rewrite Hz0. reflexivity.
    + unfold Java_htsjdk_samtools_util_zip_IntelDeflater_init.
      rewrite Hz, Hc, deref_log, deref_store by exact Hp. rewrite Hz0.
      cbv zeta. cbn [snd]. split.
      * rewrite thrown_store, thrown_log, thrown_store, thrown_log, thrown_store.
        rewrite !app_nil_r. reflexivity.
      * rewrite deref_store by exact Hp. reflexivity.
  - intros Hn.
    assert (Hc : (level =? FAST_COMPRESSION) && is_sse42_supported = false).
    { destruct ((level =? FAST_COMPRESSION) && is_sse42_supported) eqn:Hb;
        [|reflexivity]. exfalso. apply Hn, Htest. reflexivity. }
    subst r.
    pose proof (init_calls p level strategy nowrap w Hp) as Hcalls.
    rewrite Hc in Hcalls. split; [exact Hcalls|].
    unfold Java_htsjdk_samtools_util_zip_IntelDeflater_init.
    rewrite Hz, Hc, Hz0, deref_store by exact Hp.
    change (zStream Stream_zero) with (@z_stream_zero ZS).
    fold windowBits. fold zi. destruct zi as [res z]. cbn [fst snd]. split.
    + intros ->. change (Z_OK =? Z_OK) with true. cbv iota. cbn [fst snd].
      rewrite offsetof_zStream, Z.add_0_r.
      split; [reflexivity|]. split.
      * rewrite thrown_store, thrown_log, thrown_store. apply app_nil_r.
      * rewrite deref_store by exact Hp. reflexivity.
    + intros Hres. apply Z.eqb_neq in Hres. rewrite Hres.
      destruct (res =? Z_MEM_ERROR); [|destruct (res =? Z_STREAM_ERROR)];
        (split; [reflexivity|]);
        unfold JNU_ThrowOutOfMemoryError, JNU_ThrowIllegalArgumentException,
          JNU_ThrowInternalError, JNU_ThrowByName, free, log, set_heap;
        cbn [snd heap]; apply lookup_delete_eq.
  - intros h Hr Hh. subst r.
    destruct (init_handle p level strategy nowrap w h Hp Hr Hh) as [_ [s [Hd Hu]]].
    exists s. split; [exact Hd|].
    rewrite <- Htest. unfold activeBackend. rewrite Hu.
    destruct ((level =? FAST_COMPRESSION) && is_sse42_supported).
    + change (IGZIP_TRUE =? 0) with false. cbv iota. tauto.
    + change (0 =? 0) with true. cbv iota. split; discriminate.
Qed.

(** Flattens the trace of a world built by the primitives above. *)
Ltac world_simpl :=
  unfold thrown, calls, JNU_ThrowOutOfMemoryError, JNU_ThrowInternalError,
    JNU_ThrowIllegalArgumentException, JNU_ThrowByName, free, set_I, set_Z,
    set_this, store, set_heap, log;
  simpl; rewrite ?flat_map_app; simpl; rewrite ?app_nil_r.

(** ** The step: one equation per path of [deflateBytes] *)

Section Step.

Variables (in_buf out_buf addr b off len flush : Z) (w : World) (strm : Stream ZS LS).
Hypothesis Hderef : deref w addr = Some strm.

Lemma step_rejected :
  igzip_unsupported w strm flush = true ->
  deflateBytes in_buf out_buf addr b off len flush w =
  (FallsOffEnd, JNU_ThrowInternalError (Some "igzip doesn't support this"%string) w).
Proof.
  intros Hg. unfold Java_htsjdk_samtools_util_zip_IntelDeflater_deflateBytes.
  rewrite Hderef. unfold igzip_unsupported in Hg. rewrite Hg. reflexivity.
Qed.

Lemma step_pin_in_fails :
  igzip_unsupported w strm flush = false -> in_buf = NULL ->
  deflateBytes in_buf out_buf addr b off len flush w =
  (Returns 0,
   if negb (get_I w lenID =? 0)
   then JNU_ThrowOutOfMemoryError None (log (EvPin (JObj.buf (this w)) in_buf) w)
   else log (EvPin (JObj.buf (this w)) in_buf) w).
Proof.
  intros Hg Hin. unfold Java_htsjdk_samtools_util_zip_IntelDeflater_deflateBytes.
  rewrite Hderef. unfold igzip_unsupported in Hg. rewrite Hg.
  assert (Hn : (in_buf =? NULL) = true) by (apply Z.eqb_eq; exact Hin).
  rewrite Hn.
  destruct (negb (useIGZIP strm =? 0)); [reflexivity|].
  destruct (get_Z w setParamsID); reflexivity.
Qed.

Lemma step_pin_out_fails :
  igzip_unsupported w strm flush = false -> in_buf <> NULL -> out_buf = NULL ->
  deflateBytes in_buf out_buf addr b off len flush w =
  (Returns 0,
   let w1 := log (EvRelease (JObj.buf (this w)) in_buf)
               (log (EvPin b out_buf) (log (EvPin (JObj.buf (this w)) in_buf) w)) in
   if negb (len =? 0) then JNU_ThrowOutOfMemoryError None w1 else w1).
Proof.
  intros Hg Hin Hout.
  unfold Java_htsjdk_samtools_util_zip_IntelDeflater_deflateBytes.
  rewrite Hderef. unfold igzip_unsupported in Hg. rewrite Hg.
  assert (Hn : (in_buf =? NULL) = false) by (apply Z.eqb_neq; exact Hin).
  assert (Hm : (out_buf =? NULL) = true) by (apply Z.eqb_eq; exact Hout).
  rewrite Hn, Hm.
  destruct (negb (useIGZIP strm =? 0)); [reflexivity|].
  destruct (get_Z w setParamsID); reflexivity.
Qed.

(** The igzip path once both buffers are pinned. *)
Lemma step_igzip :
  igzip_unsupported w strm flush = false -> useIGZIP strm <> 0 ->
  in_buf <> NULL -> out_buf <> NULL ->
  let w1 := log (EvPin b out_buf) (log (EvPin (JObj.buf (this w)) in_buf) w) in
  let lz := lz_set_buffers (lz2Stream strm) (in_buf + get_I w offID) (out_buf + off)
                           (to_uInt (get_I w lenID)) (to_uInt len) in
  let w2 := store addr (set_lz2Stream strm lz) w1 in
  let fin := get_Z w finishID in
  let lz' := fast_lz (lz_set_end_of_stream lz (if fin then 1 else 0)) in
  let w3 := log (EvRelease (JObj.buf (this w)) in_buf)
              (log (EvRelease b out_buf)
                 (store addr (set_lz2Stream strm lz') (log (EvCall C_fast_lz) w2))) in
  let w4 := if fin then set_Z finishedID true w3 else w3 in
  deflateBytes in_buf out_buf addr b off len flush w =
    if (to_uInt (get_I w lenID) =? 0) || (to_uInt len =? 0) then (AssertFails, w2)
    else (Returns (to_jint (to_uInt (len - lz_avail_out lz'))),
          set_I lenID (to_jint (lz_avail_in lz'))
            (set_I offID
               (to_jint (get_I w offID + to_uInt (get_I w lenID - lz_avail_in lz'))) w4)).
Proof.
  intros Hg Hu Hin Hout.
  unfold Java_htsjdk_samtools_util_zip_IntelDeflater_deflateBytes.
  rewrite Hderef. unfold igzip_unsupported in Hg. rewrite Hg.
  assert (Hn : (in_buf =? NULL) = false) by (apply Z.eqb_neq; exact Hin).
  assert (Hm : (out_buf =? NULL) = false) by (apply Z.eqb_neq; exact Hout).
  assert (Hi : negb (useIGZIP strm =? 0) = true)
    by (apply negb_true_iff, Z.eqb_neq; exact Hu).
  rewrite Hi, Hn, Hm.
  unfold get_I, get_Z, GetIntField, GetBooleanField. cbv zeta.
  simpl lz_avail_in. simpl lz_avail_out.
  destruct (to_uInt (JObj.len (this w)) =? 0); [reflexivity|].
  destruct (to_uInt len =? 0); reflexivity.
Qed.

(** The parameter-change path of a zlib session once both buffers are pinned. *)
Lemma step_params (res : Z) (z' : z_stream ZS) :
  useIGZIP strm = 0 -> get_Z w setParamsID = true ->
  in_buf <> NULL -> out_buf <> NULL ->
  deflateParams (z_set_buffers (zStream strm) (in_buf + get_I w offID) (out_buf + off)
                               (to_uInt (get_I w lenID)) (to_uInt len))
                (get_I w levelID) (get_I w strategyID) = (res, z') ->
  let w1 := log (EvCall (C_deflateParams (get_I w levelID) (get_I w strategyID)))
              (log (EvPin b out_buf) (log (EvPin (JObj.buf (this w)) in_buf) w)) in
  let w2 := log (EvRelease (JObj.buf (this w)) in_buf)
              (log (EvRelease b out_buf) (store addr (set_zStream strm z') w1)) in
  deflateBytes in_buf out_buf addr b off len flush w =
    if res =? Z_OK then
      (Returns (to_jint (to_uInt (len - z_avail_out z'))),
       set_I lenID (to_jint (z_avail_in z'))
         (set_I offID (to_jint (get_I w offID + to_uInt (get_I w lenID - z_avail_in z')))
            (set_Z setParamsID false w2)))
    else if res =? Z_BUF_ERROR then (Returns 0, set_Z setParamsID false w2)
    else (Returns 0, JNU_ThrowInternalError (z_msg z') w2).
Proof.
  intros Hu Hsp Hin Hout Hcall.
  unfold Java_htsjdk_samtools_util_zip_IntelDeflater_deflateBytes.
  rewrite Hderef, Hu, Hsp.
  assert (Hn : (in_buf =? NULL) = false) by (apply Z.eqb_neq; exact Hin).
  assert (Hm : (out_buf =? NULL) = false) by (apply Z.eqb_neq; exact Hout).
  simpl negb. simpl andb. cbv iota. rewrite Hn, Hm. cbv zeta.
  rewrite Hcall.
  destruct (res =? Z_OK); [reflexivity|].
  destruct (res =? Z_BUF_ERROR); reflexivity.
Qed.

(** The ordinary path of a zlib session once both buffers are pinned. *)
Lemma step_deflate (res : Z) (z' : z_stream ZS) :
  useIGZIP strm = 0 -> get_Z w setParamsID = false ->
  in_buf <> NULL -> out_buf <> NULL ->
  deflate (z_set_buffers (zStream strm) (in_buf + get_I w offID) (out_buf + off)
                         (to_uInt (get_I w lenID)) (to_uInt len))
          (if get_Z w finishID then Z_FINISH else flush) = (res, z') ->
  let w1 := log (EvCall (C_deflate (if get_Z w finishID then Z_FINISH else flush)))
              (log (EvPin b out_buf) (log (EvPin (JObj.buf (this w)) in_buf) w)) in
  let w2 := log (EvRelease (JObj.buf (this w)) in_buf)
              (log (EvRelease b out_buf) (store addr (set_zStream strm z') w1)) in
  deflateBytes in_buf out_buf addr b off len flush w =
    if (res =? Z_STREAM_END) || (res =? Z_OK) then
      (Returns (to_jint (to_uInt (len - z_avail_out z'))),
       set_I lenID (to_jint (z_avail_in z'))
         (set_I offID (to_jint (get_I w offID + to_uInt (get_I w lenID - z_avail_in z')))
            (if res =? Z_STREAM_END then set_Z finishedID true w2 else w2)))
    else if res =? Z_BUF_ERROR then (Returns 0, w2)
    else (Returns 0, JNU_ThrowInternalError (z_msg z') w2).
Proof.
  intros Hu Hsp Hin Hout Hcall.
  unfold Java_htsjdk_samtools_util_zip_IntelDeflater_deflateBytes.
  rewrite Hderef, Hu, Hsp.
  assert (Hn : (in_buf =? NULL) = false) by (apply Z.eqb_neq; exact Hin).
  assert (Hm : (out_buf =? NULL) = false) by (apply Z.eqb_neq; exact Hout).
  simpl negb. simpl andb. cbv iota. rewrite Hn, Hm. cbv zeta.
  rewrite Hcall.
  destruct ((res =? Z_STREAM_END) || (res =? Z_OK)); [reflexivity|].
  destruct (res =? Z_BUF_ERROR); reflexivity.
Qed.

End Step.

(** ** Pin failures *)

(** C6.  On whichever path a step takes past the igzip test, a failed pin ends
    the step with 0.  When the input pin fails nothing else happens, except
    that OutOfMemoryError is thrown if (and only if) the input length is
    nonzero.  When the output pin fails the pinned input array is released
    first, then OutOfMemoryError is thrown if (and only if) the output length
    is nonzero.  No backend is called and neither the Java object nor the
    stream is written. *)
Theorem C6_pin_failure (in_buf out_buf addr b off len flush : Z) (w : World)
    (strm : Stream ZS LS) :
  deref w addr = Some strm ->
  igzip_unsupported w strm flush = false ->
  let step := deflateBytes in_buf out_buf addr b off len flush w in
  let oom (n : Z) :=
    if n =? 0 then [] else [EvThrow "java/lang/OutOfMemoryError" None] in
  (in_buf = NULL ->
   fst step = Returns 0 /\
   trace (snd step) =
     trace w ++ [EvPin (JObj.buf (this w)) NULL] ++ oom (get_I w lenID) /\
   this (snd step) = this w /\ heap (snd step) = heap w) /\
  (in_buf <> NULL -> out_buf = NULL ->
   fst step = Returns 0 /\
   trace (snd step) =
     trace w ++ [EvPin (JObj.buf (this w)) in_buf; EvPin b NULL;
                 EvRelease (JObj.buf (this w)) in_buf] ++ oom len /\
   this (snd step) = this w /\ heap (snd step) = heap w).
Proof.
  intros Hd Hg step oom. split.
  - intros Hin. subst step.
    rewrite (step_pin_in_fails _ _ _ _ _ _ _ _ _ Hd Hg Hin). subst in_buf.
    unfold oom. destruct (get_I w lenID =? 0); simpl;
      rewrite <- ?app_assoc; repeat split; reflexivity.
  - intros Hin Hout. subst step.
    rewrite (step_pin_out_fails _ _ _ _ _ _ _ _ _ Hd Hg Hin Hout). subst out_buf.
    unfold oom. destruct (len =? 0); simpl;
      rewrite <- ?app_assoc; repeat split; reflexivity.
Qed.

(** ** The igzip restrictions *)

(** What the test at the head of [deflateBytes] does reject: flush value 1,
    and a parameter change once igzip has taken input.  The backend is not
    called and nothing but the pending exception changes. *)
Lemma igzip_rejection (in_buf out_buf addr b off len flush : Z) (w : World)
    (strm : Stream ZS LS) :
  deref w addr = Some strm -> useIGZIP strm <> 0 ->
  flush = Z_PARTIAL_FLUSH \/
  (get_Z w setParamsID = true /\ lz_total_in (lz2Stream strm) <> 0) ->
  let step := deflateBytes in_buf out_buf addr b off len flush w in
  fst step = FallsOffEnd /\
  trace (snd step) =
    trace w ++ [EvThrow "java/lang/InternalError" (Some "igzip doesn't support this"%string)] /\
  this (snd step) = this w /\ heap (snd step) = heap w.
Proof.
  intros Hd Hu Hc step. subst step.
  rewrite (step_rejected _ _ _ _ _ _ _ _ _ Hd); [repeat split; reflexivity|].
  unfold igzip_unsupported.
  apply Z.eqb_neq in Hu. rewrite Hu.
  destruct Hc as [-> | [Hs Ht]]; [apply orb_true_r|].
  rewrite Hs. apply Z.eqb_neq in Ht. rewrite Ht. reflexivity.
Qed.

(** C3 (the code at the failing inputs).  The test compares [flush] with 1.
    zlib's Z_SYNC_FLUSH is 2 and Z_FULL_FLUSH is 3, so an igzip session asked
    for either flush is not rejected: with both buffers pinned and non-empty
    the step calls [fast_lz], throws nothing and returns a byte count. *)
Theorem C3_igzip_flush_reaches_backend (in_buf out_buf addr b off len flush : Z)
    (w : World) (strm : Stream ZS LS) :
  deref w addr = Some strm -> useIGZIP strm <> 0 ->
  get_Z w setParamsID = false ->
  flush = Z_SYNC_FLUSH \/ flush = Z_FULL_FLUSH ->
  in_buf <> NULL -> out_buf <> NULL ->
  to_uInt (get_I w lenID) <> 0 -> to_uInt len <> 0 ->
  let step := deflateBytes in_buf out_buf addr b off len flush w in
  thrown (snd step) = thrown w /\
  calls (snd step) = calls w ++ [C_fast_lz] /\
  exists n, fst step = Returns n.
Proof.
  intros Hd Hu Hs Hf Hin Hout Hl1 Hl2 step. subst step.
  assert (Hg : igzip_unsupported w strm flush = false).
  { unfold igzip_unsupported. rewrite Hs.
    destruct Hf as [-> | ->]; simpl; apply andb_false_r. }
  rewrite (step_igzip _ _ _ _ _ _ _ _ _ Hd Hg Hu Hin Hout).
  apply Z.eqb_neq in Hl1, Hl2. rewrite Hl1, Hl2. simpl orb. cbv iota.
  destruct (get_Z w finishID); (split; [|split]); try (eexists; reflexivity);
    world_simpl; reflexivity.
Qed.

(** ** A pending parameter change *)

(** C2 (as the code has it).  A zlib step with a parameter change pending
    calls [deflateParams] once both buffers are pinned.  When that call
    answers Z_BUF_ERROR the step returns 0, throws nothing and changes one
    thing in the Java object: [setParams] is set to false, as it is on Z_OK.
    The flag stays set only when [deflateParams] answers anything else, which
    is the case that throws InternalError. *)
Theorem C2_params_buf_error_clears_pending (in_buf out_buf addr b off len flush : Z)
    (w : World) (strm : Stream ZS LS) (res : Z) (z' : z_stream ZS) :
  deref w addr = Some strm -> useIGZIP strm = 0 ->
  get_Z w setParamsID = true ->
  in_buf <> NULL -> out_buf <> NULL ->
  deflateParams (z_set_buffers (zStream strm) (in_buf + get_I w offID) (out_buf + off)
                               (to_uInt (get_I w lenID)) (to_uInt len))
                (get_I w levelID) (get_I w strategyID) = (res, z') ->
  let step := deflateBytes in_buf out_buf addr b off len flush w in
  (res = Z_BUF_ERROR ->
   fst step = Returns 0 /\ thrown (snd step) = thrown w /\
   this (snd step) = SetBooleanField setParamsID false (this w)) /\
  (get_Z (snd step) setParamsID = false <-> res = Z_OK \/ res = Z_BUF_ERROR) /\
  (res <> Z_OK -> res <> Z_BUF_ERROR ->
   fst step = Returns 0 /\
   thrown (snd step) = thrown w ++ [("java/lang/InternalError"%string, z_msg z')]).
Proof.
  intros Hd Hu Hs Hin Hout Hcall step. subst step.
  rewrite (step_params _ _ _ _ _ _ _ _ _ Hd res z' Hu Hs Hin Hout Hcall).
  destruct (res =? Z_OK) eqn:Hok; [|destruct (res =? Z_BUF_ERROR) eqn:Hbuf].
  - apply Z.eqb_eq in Hok. subst res.
    split; [discriminate|]. split; [|intros Hne; contradiction].
    split; [intros _; left; reflexivity | intros _; reflexivity].
  - apply Z.eqb_eq in Hbuf. subst res.
    split. { intros _. repeat split; world_simpl; reflexivity. }
    split; [|intros _ Hne; contradiction].
    split; [intros _; right; reflexivity | intros _; reflexivity].
  - apply Z.eqb_neq in Hok, Hbuf.
    split; [intros Hr; contradiction|]. split.
    + split; [|intros [Hr | Hr]; contradiction].
      unfold get_Z in *. simpl in *. rewrite Hs. discriminate.
    + intros _ _. split; [reflexivity|]. world_simpl. reflexivity.
Qed.

(** ** The ordinary zlib step *)

(** C7.  A zlib step with no parameter change pending calls [deflate] once
    both buffers are pinned.  On Z_OK or Z_STREAM_END it adds the bytes
    consumed ([len] field minus what [avail_in] has left) to the [off] field,
    stores the unconsumed rest in the [len] field and returns the output
    capacity minus what [avail_out] has left; the 32-bit conversions C inserts
    are the identity as long as the input window lies inside a Java array and
    the backend only takes from [avail_in] and [avail_out].  On Z_BUF_ERROR it
    returns 0, throws nothing and leaves the Java object alone.  On any other
    result it throws InternalError with the stream's [msg] and returns 0. *)
Theorem C7_standard_step (in_buf out_buf addr b off len flush : Z)
    (w : World) (strm : Stream ZS LS) (res : Z) (z' : z_stream ZS) :
  deref w addr = Some strm -> useIGZIP strm = 0 ->
  get_Z w setParamsID = false ->
  in_buf <> NULL -> out_buf <> NULL ->
  deflate (z_set_buffers (zStream strm) (in_buf + get_I w offID) (out_buf + off)
                         (to_uInt (get_I w lenID)) (to_uInt len))
          (if get_Z w finishID then Z_FINISH else flush) = (res, z') ->
  let step := deflateBytes in_buf out_buf addr b off len flush w in
  let consumed := get_I w lenID - z_avail_in z' in
  let produced := len - z_avail_out z' in
  (res = Z_OK \/ res = Z_STREAM_END ->
   thrown (snd step) = thrown w /\
   get_I (snd step) offID = to_jint (get_I w offID + to_uInt consumed) /\
   get_I (snd step) lenID = to_jint (z_avail_in z') /\
   fst step = Returns (to_jint (to_uInt produced)) /\
   (0 <= get_I w offID -> get_I w offID + get_I w lenID < 2 ^ 31 ->
    len < 2 ^ 31 ->
    0 <= z_avail_in z' <= get_I w lenID -> 0 <= z_avail_out z' <= len ->
    get_I (snd step) offID = get_I w offID + consumed /\
    get_I (snd step) lenID = z_avail_in z' /\
    fst step = Returns produced)) /\
  (res = Z_BUF_ERROR ->
   fst step = Returns 0 /\ thrown (snd step) = thrown w /\
   this (snd step) = this w) /\
  (res <> Z_OK -> res <> Z_STREAM_END -> res <> Z_BUF_ERROR ->
   fst step = Returns 0 /\
   thrown (snd step) = thrown w ++ [("java/lang/InternalError"%string, z_msg z')] /\
   this (snd step) = this w).
Proof.
  intros Hd Hu Hs Hin Hout Hcall step consumed produced.
  subst step consumed produced.
  rewrite (step_deflate _ _ _ _ _ _ _ _ _ Hd res z' Hu Hs Hin Hout Hcall).
  split; [|split].
  - intros Hr.
    assert (Hb : (res =? Z_STREAM_END) || (res =? Z_OK) = true).
    { destruct Hr as [-> | ->]; reflexivity. }
    rewrite Hb.
    assert (Hgen :
      forall w0 : World, get_I w0 offID = get_I w offID -> get_I w0 lenID = get_I w lenID ->
        thrown w0 = thrown w ->
        let w' := set_I lenID (to_jint (z_avail_in z'))
                    (set_I offID (to_jint (get_I w offID
                                           + to_uInt (get_I w lenID - z_avail_in z'))) w0) in
        thrown w' = thrown w /\
        get_I w' offID = to_jint (get_I w offID
                                  + to_uInt (get_I w lenID - z_avail_in z')) /\
        get_I w' lenID = to_jint (z_avail_in z')).
    { intros w0 _ _ Ht. repeat split. exact Ht. }
    match goal with
    | |- context [set_I offID _ ?w0] =>
        destruct (Hgen w0) as [Ht [Ho Hl]];
          [ destruct (res =? Z_STREAM_END); reflexivity
          | destruct (res =? Z_STREAM_END); reflexivity
          | destruct (res =? Z_STREAM_END); world_simpl; reflexivity |]
    end.
    cbv zeta in Ht, Ho, Hl. cbn [fst snd].
    split; [exact Ht|]. split; [exact Ho|]. split; [exact Hl|]. split; [reflexivity|].
    intros H0 H1 H2 H3 H4. rewrite Ho, Hl.
    rewrite off_update_exact by lia.
    rewrite produced_exact by lia.
    rewrite to_jint_id by (unfold is_jint; lia).
    repeat split; reflexivity.
  - intros ->. simpl. repeat split. world_simpl. reflexivity.
  - intros H1 H2 H3. apply Z.eqb_neq in H1, H2, H3. rewrite H1, H2, H3. simpl.
    repeat split. world_simpl. reflexivity.
Qed.

(** ** A step with nothing to read and nowhere to write *)

Lemma to_uInt_0 : to_uInt 0 = 0.
Proof. reflexivity. Qed.

Lemma to_jint_0 : to_jint 0 = 0.
Proof. reflexivity. Qed.

Lemma getBytesRead_heap (addr : Z) (w1 w2 : World) :
  heap w1 = heap w2 -> fst (getBytesRead addr w1) = fst (getBytesRead addr w2).
Proof.
  intros Hh. unfold Java_htsjdk_samtools_util_zip_IntelDeflater_getBytesRead, deref.
  rewrite Hh. destruct (addr =? NULL); [reflexivity|].
  destruct (heap w2 !! addr); reflexivity.
Qed.

Lemma getBytesWritten_heap (addr : Z) (w1 w2 : World) :
  heap w1 = heap w2 -> fst (getBytesWritten addr w1) = fst (getBytesWritten addr w2).
Proof.
  intros Hh. unfold Java_htsjdk_samtools_util_zip_IntelDeflater_getBytesWritten, deref.
  rewrite Hh. destruct (addr =? NULL); [reflexivity|].
  destruct (heap w2 !! addr); reflexivity.
Qed.

Ltac same_world :=
  repeat split;
  first [ apply getBytesRead_heap; reflexivity
        | apply getBytesWritten_heap; reflexivity
        | world_simpl; reflexivity ].

Lemma standard_passes_test (w : World) (strm : Stream ZS LS) (flush : Z) :
  useIGZIP strm = 0 -> igzip_unsupported w strm flush = false.
Proof. intros Hu. unfold igzip_unsupported. rewrite Hu. reflexivity. Qed.

(** C4 (as the code has it).  Take a step whose input length and output
    capacity are both zero.

    On a zlib session with no parameter change pending the step returns 0,
    throws nothing, leaves the Java object as it was and leaves the backend's
    totals as they were, whenever a pin fails or [deflate] answers Z_OK or
    Z_BUF_ERROR (zlib's answer when there is no output room), given zlib's
    accounting.

    On an igzip session that passes the test at the head of [deflateBytes]
    the step returns 0 silently only when a pin fails.  With both buffers
    pinned it stops at [assert(strm->lz2Stream.avail_in != 0)], before
    [fast_lz] is called. *)
Theorem C4_empty_step (in_buf out_buf addr b off flush : Z) (w : World)
    (strm : Stream ZS LS) :
  deref w addr = Some strm -> get_I w lenID = 0 ->
  let step := deflateBytes in_buf out_buf addr b off 0 flush w in
  (useIGZIP strm = 0 -> get_Z w setParamsID = false ->
   deflate_accounting -> is_jint (get_I w offID) ->
   let res := fst (deflate (z_set_buffers (zStream strm) (in_buf + get_I w offID)
                                          (out_buf + off) 0 0)
                           (if get_Z w finishID then Z_FINISH else flush)) in
   in_buf = NULL \/ out_buf = NULL \/ res = Z_OK \/ res = Z_BUF_ERROR ->
   fst step = Returns 0 /\ thrown (snd step) = thrown w /\
   this (snd step) = this w /\
   fst (getBytesRead addr (snd step)) = fst (getBytesRead addr w) /\
   fst (getBytesWritten addr (snd step)) = fst (getBytesWritten addr w)) /\
  (useIGZIP strm <> 0 -> igzip_unsupported w strm flush = false ->
   (in_buf = NULL \/ out_buf = NULL ->
    fst step = Returns 0 /\ thrown (snd step) = thrown w /\
    this (snd step) = this w /\ heap (snd step) = heap w) /\
   (in_buf <> NULL -> out_buf <> NULL ->
    fst step = AssertFails /\ calls (snd step) = calls w)).
Proof.
  intros Hd Hlen step. subst step. split.
  - intros Hu Hs Hacc Hoff res Hcase.
    pose proof (standard_passes_test w strm flush Hu) as Hg.
    destruct (Z.eq_dec in_buf NULL) as [Hin | Hin].
    { rewrite (step_pin_in_fails _ _ _ _ _ _ _ _ _ Hd Hg Hin), Hlen. simpl.
      same_world. }
    destruct (Z.eq_dec out_buf NULL) as [Hout | Hout].
    { rewrite (step_pin_out_fails _ _ _ _ _ _ _ _ _ Hd Hg Hin Hout). simpl.
      same_world. }
    destruct Hcase as [Hc | [Hc | Hcase]]; try contradiction.
    subst res.
    destruct (deflate (z_set_buffers (zStream strm) (in_buf + get_I w offID)
                                     (out_buf + off) 0 0)
                      (if get_Z w finishID then Z_FINISH else flush))
      as [res z'] eqn:Hcall.
    pose proof (Hacc (z_set_buffers (zStream strm) (in_buf + get_I w offID)
                                    (out_buf + off) 0 0)
                     (if get_Z w finishID then Z_FINISH else flush)) as Ha.
    cbv zeta in Ha. rewrite Hcall in Ha.
    unfold z_set_buffers in Ha.
    cbn [z_avail_in z_avail_out z_total_in z_total_out snd] in Ha.
    specialize (Ha ltac:(lia) ltac:(lia)).
    cbn [fst] in Hcase.
    destruct Ha as [Hai [Hao [Hti Hto]]].
    assert (Hai0 : z_avail_in z' = 0) by lia.
    assert (Hao0 : z_avail_out z' = 0) by lia.
    rewrite Hai0 in Hti. rewrite Hao0 in Hto.
    rewrite Z.sub_diag, Z.add_0_r in Hti, Hto.
    assert (Hcall' :
      deflate (z_set_buffers (zStream strm) (in_buf + get_I w offID) (out_buf + off)
                             (to_uInt (get_I w lenID)) (to_uInt 0))
              (if get_Z w finishID then Z_FINISH else flush) = (res, z')).
    { rewrite Hlen, to_uInt_0. exact Hcall. }
    rewrite (step_deflate _ _ _ _ _ _ _ _ _ Hd res z' Hu Hs Hin Hout Hcall').
    unfold Java_htsjdk_samtools_util_zip_IntelDeflater_getBytesRead,
      Java_htsjdk_samtools_util_zip_IntelDeflater_getBytesWritten.
    rewrite Hd, Hu. simpl negb. cbv iota.
    pose proof (deref_not_null _ _ _ Hd) as Hnn.
    destruct Hcase as [-> | ->].
    + replace ((Z_OK =? Z_STREAM_END) || (Z_OK =? Z_OK)) with true by reflexivity.
      replace (Z_OK =? Z_STREAM_END) with false by reflexivity.
      cbv iota. cbn [fst snd].
      rewrite Hlen, Hai0, Hao0, Z.sub_diag, to_uInt_0, Z.add_0_r, to_jint_0.
      rewrite (to_jint_id _ Hoff).
      rewrite !deref_set_I, !deref_log, deref_store by exact Hnn.
      simpl. rewrite Hti, Hto, ?Hu. simpl negb. cbv iota.
      repeat split; try (world_simpl; reflexivity).
      unfold set_I, set_this, get_I in *. simpl in *.
      destruct (this w); simpl in *; subst; reflexivity.
    + replace ((Z_BUF_ERROR =? Z_STREAM_END) || (Z_BUF_ERROR =? Z_OK)) with false
        by reflexivity.
      replace (Z_BUF_ERROR =? Z_BUF_ERROR) with true by reflexivity.
      cbv iota. cbn [fst snd].
      rewrite !deref_log, deref_store by exact Hnn.
      simpl. rewrite Hti, Hto, ?Hu. simpl negb. cbv iota.
      repeat split; world_simpl; reflexivity.
  - intros Hu Hg. split.
    + intros [Hin | Hout].
      * rewrite (step_pin_in_fails _ _ _ _ _ _ _ _ _ Hd Hg Hin), Hlen. simpl.
        repeat split; world_simpl; reflexivity.
      * destruct (Z.eq_dec in_buf NULL) as [Hin | Hin].
        -- rewrite (step_pin_in_fails _ _ _ _ _ _ _ _ _ Hd Hg Hin), Hlen. simpl.
           repeat split; world_simpl; reflexivity.
        -- rewrite (step_pin_out_fails _ _ _ _ _ _ _ _ _ Hd Hg Hin Hout). simpl.
           repeat split; world_simpl; reflexivity.
    + intros Hin Hout.
      rewrite (step_igzip _ _ _ _ _ _ _ _ _ Hd Hg Hu Hin Hout).
      rewrite Hlen, to_uInt_0. simpl.
      split; [reflexivity|]. world_simpl. reflexivity.
Qed.

(** ** The [finished] flag *)

(** What one step does to [finished], path by path. *)
Lemma step_finished (in_buf out_buf addr b off len flush : Z) (w : World)
    (strm : Stream ZS LS) :
  deref w addr = Some strm ->
  get_Z (snd (deflateBytes in_buf out_buf addr b off len flush w)) finishedID =
  get_Z w finishedID
  || (if igzip_unsupported w strm flush then false
      else if (in_buf =? NULL) || (out_buf =? NULL) then false
      else if negb (useIGZIP strm =? 0) then
        negb ((to_uInt (get_I w lenID) =? 0) || (to_uInt len =? 0))
        && get_Z w finishID
      else if get_Z w setParamsID then false
      else fst (deflate (z_set_buffers (zStream strm) (in_buf + get_I w offID)
                                       (out_buf + off) (to_uInt (get_I w lenID))
                                       (to_uInt len))
                        (if get_Z w finishID then Z_FINISH else flush))
           =? Z_STREAM_END).
Proof.
  intros Hd.
  destruct (igzip_unsupported w strm flush) eqn:Hg.
  { rewrite (step_rejected _ _ _ _ _ _ _ _ _ Hd Hg). symmetry. apply orb_false_r. }
  destruct (in_buf =? NULL) eqn:Hin.
  { apply Z.eqb_eq in Hin.
    rewrite (step_pin_in_fails _ _ _ _ _ _ _ _ _ Hd Hg Hin).
    destruct (negb (get_I w lenID =? 0)); symmetry; apply orb_false_r. }
  apply Z.eqb_neq in Hin.
  destruct (out_buf =? NULL) eqn:Hout.
  { apply Z.eqb_eq in Hout.
    rewrite (step_pin_out_fails _ _ _ _ _ _ _ _ _ Hd Hg Hin Hout).
    destruct (negb (len =? 0)); symmetry; apply orb_false_r. }
  apply Z.eqb_neq in Hout. cbn [orb].
  destruct (useIGZIP strm =? 0) eqn:Hu.
  - apply Z.eqb_eq in Hu. cbn [negb].
    destruct (get_Z w setParamsID) eqn:Hs.
    + destruct (deflateParams
                  (z_set_buffers (zStream strm) (in_buf + get_I w offID) (out_buf + off)
                                 (to_uInt (get_I w lenID)) (to_uInt len))
                  (get_I w levelID) (get_I w strategyID)) as [res z'] eqn:Hcall.
      rewrite (step_params _ _ _ _ _ _ _ _ _ Hd res z' Hu Hs Hin Hout Hcall).
      destruct (res =? Z_OK); [|destruct (res =? Z_BUF_ERROR)];
        symmetry; apply orb_false_r.
    + destruct (deflate
                  (z_set_buffers (zStream strm) (in_buf + get_I w offID) (out_buf + off)
                                 (to_uInt (get_I w lenID)) (to_uInt len))
                  (if get_Z w finishID then Z_FINISH else flush)) as [res z'] eqn:Hcall.
      rewrite (step_deflate _ _ _ _ _ _ _ _ _ Hd res z' Hu Hs Hin Hout Hcall).
      cbn [fst].
      destruct (res =? Z_STREAM_END) eqn:He.
      * cbn [orb]. cbn [snd]. unfold get_Z. simpl.
        symmetry. apply orb_true_r.
      * cbn [orb].
        destruct (res =? Z_OK); [|destruct (res =? Z_BUF_ERROR)];
          symmetry; apply orb_false_r.
  - apply Z.eqb_neq in Hu. cbn [negb].
    rewrite (step_igzip _ _ _ _ _ _ _ _ _ Hd Hg Hu Hin Hout).
    destruct ((to_uInt (get_I w lenID) =? 0) || (to_uInt len =? 0)).
    + symmetry. apply orb_false_r.
    + cbn [negb andb]. cbn [snd].
      destruct (get_Z w finishID).
      * unfold get_Z. simpl. symmetry. apply orb_true_r.
      * symmetry. apply orb_false_r.
Qed.

(** C5 (as the code has it).  A step never clears [finished].  On a zlib
    session the ordinary path sets it exactly when [deflate] answers
    Z_STREAM_END, so a finish request that runs out of output room (Z_OK or
    Z_BUF_ERROR) leaves it false; the parameter-change path never sets it.  A
    rejected step and a step whose pin fails leave it alone.  On an igzip
    session a step that reaches [fast_lz] sets it exactly when [finish] was
    requested: [fast_lz] returns nothing, and what it left unconsumed or could
    not write plays no part. *)
Theorem C5_finished_flag (in_buf out_buf addr b off len flush : Z) (w : World)
    (strm : Stream ZS LS) :
  deref w addr = Some strm ->
  let step := deflateBytes in_buf out_buf addr b off len flush w in
  (get_Z w finishedID = true -> get_Z (snd step) finishedID = true) /\
  (useIGZIP strm = 0 -> get_Z w setParamsID = false ->
   in_buf <> NULL -> out_buf <> NULL -> get_Z w finishedID = false ->
   (get_Z (snd step) finishedID = true <->
    fst (deflate (z_set_buffers (zStream strm) (in_buf + get_I w offID) (out_buf + off)
                                (to_uInt (get_I w lenID)) (to_uInt len))
                 (if get_Z w finishID then Z_FINISH else flush)) = Z_STREAM_END)) /\
  (useIGZIP strm = 0 -> get_Z w setParamsID = true ->
   get_Z (snd step) finishedID = get_Z w finishedID) /\
  (igzip_unsupported w strm flush = true \/ in_buf = NULL \/ out_buf = NULL ->
   get_Z (snd step) finishedID = get_Z w finishedID) /\
  (useIGZIP strm <> 0 -> igzip_unsupported w strm flush = false ->
   in_buf <> NULL -> out_buf <> NULL ->
   to_uInt (get_I w lenID) <> 0 -> to_uInt len <> 0 ->
   get_Z w finishedID = false ->
   (get_Z (snd step) finishedID = true <-> get_Z w finishID = true)).
Proof.
  intros Hd step. subst step. rewrite (step_finished _ _ _ _ _ _ _ _ _ Hd).
  split; [|split; [|split; [|split]]].
  - intros ->. reflexivity.
  - intros Hu Hs Hin Hout Hf.
    apply Z.eqb_neq in Hin, Hout.
    rewrite (standard_passes_test _ _ _ Hu), Hin, Hout, Hu, Hs, Hf. simpl.
    apply Z.eqb_eq.
  - intros Hu Hs.
    rewrite (standard_passes_test _ _ _ Hu), Hu, Hs. simpl.
    destruct ((in_buf =? NULL) || (out_buf =? NULL)); apply orb_false_r.
  - intros [Hg | [Hin | Hout]].
    + rewrite Hg. apply orb_false_r.
    + apply Z.eqb_eq in Hin. rewrite Hin. simpl.
      destruct (igzip_unsupported w strm flush); apply orb_false_r.
    + apply Z.eqb_eq in Hout. rewrite Hout, orb_true_r.
      destruct (igzip_unsupported w strm flush); apply orb_false_r.
  - intros Hu Hg Hin Hout Hl1 Hl2 Hf.
    apply Z.eqb_neq in Hin, Hout, Hu, Hl1, Hl2.
    rewrite Hg, Hin, Hout, Hu, Hl1, Hl2, Hf. simpl. reflexivity.
Qed.

(** ** Counters, checksum, reset *)

Lemma app_singleton_neq {A : Type} (l : list A) (x : A) : l ++ [x] <> l.
Proof.
  intros H. apply (f_equal (@length A)) in H.
  rewrite length_app in H. simpl in H. lia.
Qed.

Lemma activeBackend_Fast (s : Stream ZS LS) : activeBackend s = Fast <-> useIGZIP s <> 0.
Proof.
  unfold activeBackend. destruct (useIGZIP s =? 0) eqn:Hu.
  - apply Z.eqb_eq in Hu. split; [discriminate | contradiction].
  - apply Z.eqb_neq in Hu. tauto.
Qed.

Lemma activeBackend_Standard (s : Stream ZS LS) :
  activeBackend s = Standard <-> useIGZIP s = 0.
Proof.
  unfold activeBackend. destruct (useIGZIP s =? 0) eqn:Hu.
  - apply Z.eqb_eq in Hu. tauto.
  - apply Z.eqb_neq in Hu. split; [discriminate | contradiction].
Qed.

(** C9.  [getAdler] throws exactly when the session runs on igzip; it then
    has no value to return.  On a zlib session it returns the stream's [adler]
    field as a [jint] (the same 32 bits) and changes nothing: no event, no
    write to the Java object or the stream. *)
Theorem C9_getAdler (addr : Z) (w : World) (strm : Stream ZS LS) :
  deref w addr = Some strm ->
  let q := getAdler addr w in
  (thrown (snd q) <> thrown w <-> activeBackend strm = Fast) /\
  (activeBackend strm = Fast ->
   q = (FallsOffEnd,
        JNU_ThrowInternalError (Some "igzip doesn't support getAdler function"%string) w)) /\
  (activeBackend strm = Standard ->
   q = (Returns (to_jint (z_adler (zStream strm))), w) /\
   (0 <= z_adler (zStream strm) < 2 ^ 32 ->
    to_uInt (to_jint (z_adler (zStream strm))) = z_adler (zStream strm))).
Proof.
  intros Hd q. subst q.
  unfold Java_htsjdk_samtools_util_zip_IntelDeflater_getAdler. rewrite Hd.
  unfold activeBackend. destruct (useIGZIP strm =? 0); cbn [negb fst snd].
  - split; [split; [intros H; contradiction | discriminate]|].
    split; [discriminate|]. intros _. split; [reflexivity|].
    apply to_uInt_to_jint.
  - split.
    + split; [reflexivity|]. intros _.
      unfold JNU_ThrowInternalError, JNU_ThrowByName. rewrite thrown_log.
      apply app_singleton_neq.
    + split; [reflexivity | discriminate].
Qed.

(** C8.  [getBytesRead] and [getBytesWritten] read [total_in] and [total_out]
    out of the record of the active backend ([lz2Stream] on igzip, [zStream]
    on zlib), convert to [jlong] and touch nothing; there is no count of their
    own to read.  Hence after a reset that raises no error both are 0, as they
    are in a freshly created session, given that the libraries zero the totals
    of a stream they initialise or reset; and [finished] is false. *)
Theorem C8_counters (addr : Z) (w : World) (strm : Stream ZS LS) :
  deref w addr = Some strm ->
  let total_in := match activeBackend strm with
                  | Fast => lz_total_in (lz2Stream strm)
                  | Standard => z_total_in (zStream strm)
                  end in
  let total_out := match activeBackend strm with
                   | Fast => lz_total_out (lz2Stream strm)
                   | Standard => z_total_out (zStream strm)
                   end in
  getBytesRead addr w = (Returns (to_jlong total_in), w) /\
  getBytesWritten addr w = (Returns (to_jlong total_out), w) /\
  (0 <= total_in < 2 ^ 63 -> fst (getBytesRead addr w) = Returns total_in) /\
  (0 <= total_out < 2 ^ 63 -> fst (getBytesWritten addr w) = Returns total_out) /\
  (fresh_totals ->
   let w' := snd (Session_reset addr w) in
   thrown w' = thrown w ->
   fst (getBytesRead addr w') = Returns 0 /\
   fst (getBytesWritten addr w') = Returns 0 /\
   get_Z w' finishedID = false) /\
  (fresh_totals ->
   forall (p level strategy : Z) (nowrap : bool) (w0 : World) (h : Z),
     p <> NULL ->
     fst (init p level strategy nowrap w0) = Returns h -> h <> jlong_zero ->
     fst (getBytesRead h (snd (init p level strategy nowrap w0))) = Returns 0 /\
     fst (getBytesWritten h (snd (init p level strategy nowrap w0))) = Returns 0).
Proof.
  intros Hd total_in total_out.
  assert (Hr : getBytesRead addr w = (Returns (to_jlong total_in), w)).
  { unfold Java_htsjdk_samtools_util_zip_IntelDeflater_getBytesRead.
    rewrite Hd. subst total_in. unfold activeBackend.
    destruct (useIGZIP strm =? 0); reflexivity. }
  assert (Hw : getBytesWritten addr w = (Returns (to_jlong total_out), w)).
  { unfold Java_htsjdk_samtools_util_zip_IntelDeflater_getBytesWritten.
    rewrite Hd. subst total_out. unfold activeBackend.
    destruct (useIGZIP strm =? 0); reflexivity. }
  pose proof (deref_not_null _ _ _ Hd) as Hnn.
  split; [exact Hr|]. split; [exact Hw|].
  split. { intros H. rewrite Hr. cbn [fst]. rewrite to_jlong_id by lia. reflexivity. }
  split. { intros H. rewrite Hw. cbn [fst]. rewrite to_jlong_id by lia. reflexivity. }
  split.
  - intros [Hlz [_ Hz]] w'. subst w'.
    unfold Session_reset, Java_htsjdk_samtools_util_zip_IntelDeflater_reset.
    rewrite Hd.
    unfold Java_htsjdk_samtools_util_zip_IntelDeflater_getBytesRead,
      Java_htsjdk_samtools_util_zip_IntelDeflater_getBytesWritten.
    destruct (useIGZIP strm =? 0) eqn:Hu; cbn [negb snd].
    + pose proof (Hz (zStream strm)) as Hz'.
      destruct (deflateReset (zStream strm)) as [res z] eqn:Hcall.
      cbn [fst snd] in Hz'.
      destruct (res =? Z_OK) eqn:Hok; cbn [negb snd].
      * intros _. apply Z.eqb_eq in Hok. destruct (Hz' Hok) as [Hi Ho].
        rewrite !deref_set_Z, deref_store by exact Hnn.
        cbn [useIGZIP set_zStream zStream]. rewrite Hu. cbn [negb fst].
        rewrite Hi, Ho. repeat split.
      * intros Ht. exfalso.
        unfold JNU_ThrowInternalError, JNU_ThrowByName, set_Z in Ht.
        rewrite thrown_set_this, thrown_log, thrown_store, thrown_log in Ht.
        rewrite app_nil_r in Ht.
        exact (app_singleton_neq _ _ Ht).
    + intros _. destruct (Hlz (lz2Stream strm)) as [Hi Ho].
      rewrite !deref_set_Z, deref_store by exact Hnn.
      cbn [useIGZIP set_lz2Stream lz2Stream]. rewrite Hu. cbn [negb fst].
      rewrite Hi, Ho. repeat split.
  - intros [Hlz [Hz _]] p level strategy nowrap w0 h Hp.
    unfold Java_htsjdk_samtools_util_zip_IntelDeflater_init.
    assert (Hz1 : (p =? NULL) = false) by (apply Z.eqb_neq; exact Hp).
    assert (Hz0 : (p =? 0) = false) by exact Hz1.
    rewrite Hz1.
    unfold Java_htsjdk_samtools_util_zip_IntelDeflater_getBytesRead,
      Java_htsjdk_samtools_util_zip_IntelDeflater_getBytesWritten.
    destruct ((level =? FAST_COMPRESSION) && is_sse42_supported).
    + rewrite deref_log, deref_store by exact Hp. rewrite Hz0. cbv zeta. cbn [fst snd].
      intros Hr' _. injection Hr' as <-.
      rewrite deref_store by exact Hp.
      destruct (Hlz (lz2Stream (@Stream_zero ZS LS))) as [Hi Ho].
      cbn [useIGZIP set_lz2Stream set_useIGZIP lz2Stream]. cbn [negb fst].
      change (negb (IGZIP_TRUE =? 0)) with true. cbv iota.
      rewrite Hi, Ho. split; reflexivity.
    + rewrite Hz0, deref_store by exact Hp.
      pose proof (Hz (zStream (@Stream_zero ZS LS)) level Z_DEFLATED
                     (if nowrap then - MAX_WBITS else MAX_WBITS) DEF_MEM_LEVEL strategy)
        as Hz'.
      destruct (deflateInit2 _ _ _ _ _ _) as [res z].
      cbn [fst snd] in Hz'.
      destruct (res =? Z_OK) eqn:Hok.
      * cbv zeta. cbn [fst snd]. rewrite offsetof_zStream, Z.add_0_r.
        intros Hr' _. injection Hr' as <-.
        apply Z.eqb_eq in Hok. destruct (Hz' Hok) as [Hi Ho].
        rewrite deref_store by exact Hp.
        cbn [useIGZIP set_zStream zStream Stream_zero]. cbn [negb fst].
        change (negb (0 =? 0)) with false. cbv iota.
        rewrite Hi, Ho. split; reflexivity.
      * destruct (res =? Z_MEM_ERROR); [|destruct (res =? Z_STREAM_ERROR)];
          cbv zeta; cbn [fst]; intros Hr' Hh; injection Hr' as <-; contradiction.
Qed.

(** ** The session handle *)

Lemma live_handle_ok (w : World) (h : Z) (s : Stream ZS LS) :
  deref w h = Some s -> handle_ok w h.
Proof.
  intros Hd. unfold handle_ok.
  repeat split; intros.
  - unfold Java_htsjdk_samtools_util_zip_IntelDeflater_deflateBytes. rewrite Hd.
    repeat match goal with
           | |- context [if ?c then _ else _] => destruct c
           | |- context [deflate ?z ?f] => destruct (deflate z f)
           | |- context [deflateParams ?z ?l ?t] => destruct (deflateParams z l t)
           end; discriminate.
  - unfold Java_htsjdk_samtools_util_zip_IntelDeflater_setDictionary.
    destruct (buf =? 0); [discriminate|]. rewrite deref_log, Hd.
    destruct (deflateSetDictionary _ _ _).
    repeat match goal with
           | |- context [if ?c then _ else _] => destruct c
           end; discriminate.
  - unfold Java_htsjdk_samtools_util_zip_IntelDeflater_getAdler. rewrite Hd.
    destruct (negb _); discriminate.
  - unfold Java_htsjdk_samtools_util_zip_IntelDeflater_getBytesRead. rewrite Hd.
    discriminate.
  - unfold Java_htsjdk_samtools_util_zip_IntelDeflater_getBytesWritten. rewrite Hd.
    discriminate.
  - unfold Java_htsjdk_samtools_util_zip_IntelDeflater_reset. rewrite Hd.
    destruct (negb _); [discriminate|].
    destruct (deflateReset _). destruct (negb _); discriminate.
  - unfold Java_htsjdk_samtools_util_zip_IntelDeflater_end. rewrite Hd.
    destruct (useIGZIP s =? 0); [|discriminate].
    destruct (deflateEnd _). discriminate.
Qed.

(** C10.  [init] returns [strm] itself on the igzip path and [&strm->zStream]
    on the zlib path, that is the block address plus the offset of [zStream]
    in [Stream].  [zStream] is the first member, so that offset is 0 for any
    size and alignment of the two library records, the two handles are the
    same address, and the [Stream *] every other native method makes of the
    handle points at the block [init] filled in.  ([offsetof_second] above:
    behind a first member of positive size the offset would not be 0.) *)
Theorem C10_handle_is_block_address (p level strategy : Z) (nowrap : bool)
    (w : World) (h : Z) :
  p <> NULL ->
  fst (init p level strategy nowrap w) = Returns h -> h <> jlong_zero ->
  let w' := snd (init p level strategy nowrap w) in
  Layout.offsetof Stream_members "zStream" = 0 /\
  h = p + (if (level =? FAST_COMPRESSION) && is_sse42_supported then 0
           else Layout.offsetof Stream_members "zStream") /\
  h = p /\
  (exists s, heap w' !! p = Some s /\ deref w' h = Some s) /\
  handle_ok w' h.
Proof.
  intros Hp Hr Hh w'. subst w'.
  destruct (init_handle p level strategy nowrap w h Hp Hr Hh) as [Heq [s [Hd Hu]]].
  split; [apply offsetof_zStream|].
  split. { rewrite offsetof_zStream. destruct (_ && _); lia. }
  split; [exact Heq|].
  split.
  - exists s. split; [|exact Hd].
    subst h. unfold deref in Hd.
    destruct (p =? NULL); [discriminate | exact Hd].
  - exact (live_handle_ok _ _ _ Hd).
Qed.

End Properties.

(** * The reference instance: contracts and runs *)

Lemma Ref_deflate_accounting (sse42 : bool) : @deflate_accounting (Ref.ext sse42).
Proof.
  unfold deflate_accounting. simpl. intros z flush Hi Ho.
  unfold Ref.ref_deflate.
  destruct (z_avail_out z =? 0); [simpl; lia|].
  destruct ((flush =? Z_FINISH) && (z_avail_in z <? z_avail_out z)); [simpl; lia|].
  destruct ((Z.min (z_avail_in z) (z_avail_out z) =? 0) && (flush =? Z_NO_FLUSH));
    simpl; lia.
Qed.

Lemma Ref_fresh_totals (sse42 : bool) : @fresh_totals (Ref.ext sse42).
Proof.
  unfold fresh_totals. simpl. split; [|split].
  - intros l. split; reflexivity.
  - intros z level method windowBits memLevel strategy. unfold Ref.ref_deflateInit2.
    destruct (_ && _); [split; reflexivity | discriminate].
  - intros z. unfold Ref.ref_deflateReset.
    destruct (z_state z); [split; reflexivity | discriminate].
Qed.

(** Closed arithmetic facts about a run. *)
Ltac by_evaluation :=
  vm_compute; repeat split; first [reflexivity | discriminate].

(** ** C1 *)

Lemma C1_witness :
  let E := Ref.ext true in
  let p := 4096 in
  let level := 6 in
  let strategy := 2 in
  let nowrap := true in
  let w := Ref.world0 true (Ref.obj 0) in
  let r := init p level strategy nowrap w in
  let windowBits := if nowrap then - MAX_WBITS else MAX_WBITS in
  let zi := deflateInit2 z_stream_zero level Z_DEFLATED windowBits DEF_MEM_LEVEL
                         strategy in
  (p <> NULL /\ ~ (level = FAST_COMPRESSION /\ is_sse42_supported = true) /\
   fst zi = Z_OK) /\
  calls (snd r) =
    calls w ++ [C_deflateInit2 level Z_DEFLATED windowBits DEF_MEM_LEVEL strategy] /\
  fst r = Returns p /\ thrown (snd r) = thrown w /\
  deref (snd r) p = Some (mk_Stream (snd zi) LZ_Stream2_zero 0).
Proof.
  cbv zeta.
  assert (Hn : ~ (6 = FAST_COMPRESSION /\ @is_sse42_supported (Ref.ext true) = true)).
  { intros [H _]. discriminate H. }
  split.
  - split; [discriminate|]. split; [exact Hn | reflexivity].
  - pose proof (@C1_init_selects_backend (Ref.ext true) 4096 6 2 true
                  (Ref.world0 true (Ref.obj 0))) as H.
    cbv zeta in H.
    destruct H as [_ [H _]]; [discriminate|].
    destruct (H Hn) as [Hcalls [Hok _]].
    split; [exact Hcalls|]. apply Hok. reflexivity.
Defined.

(** The three dispatch outcomes, evaluated: level 1 with SSE4.2, level 1
    without it, level 6 raw. *)
Example init_level1_sse42 :
  calls (snd (init 4096 1 0 false (Ref.world0 true (Ref.obj 0)))) = [C_init_stream].
Proof. reflexivity. Qed.

Example init_level1_no_sse42 :
  calls (snd (init 4096 1 0 false (Ref.world0 false (Ref.obj 0))))
  = [C_deflateInit2 1 8 15 8 0].
Proof. reflexivity. Qed.

Example init_level6_raw :
  calls (snd (init 4096 6 2 true (Ref.world0 true (Ref.obj 0))))
  = [C_deflateInit2 6 8 (-15) 8 2].
Proof. reflexivity. Qed.

(** ** C2 *)

(** A zlib session with a parameter change pending, ten bytes of input and
    no output room: [deflateParams] answers Z_BUF_ERROR, the step returns 0,
    and [setParams] is false afterwards, so the next step takes the ordinary
    path and does not apply the parameters again. *)
Lemma C2_counterexample :
  let E := Ref.ext true in
  let w := Ref.std_world (Ref.obj_params 10) in
  let step := deflateBytes 1000 2000 4096 8 0 0 Z_NO_FLUSH w in
  deref w 4096 = Some Ref.std_stream /\
  get_Z w setParamsID = true /\
  fst (deflateParams (z_set_buffers (zStream Ref.std_stream) 1000 2000 10 0) 6 0)
  = Z_BUF_ERROR /\
  fst step = Returns 0 /\
  ~ get_Z (snd step) setParamsID = true.
Proof. cbv zeta. repeat split. vm_compute. discriminate. Qed.

Lemma C2_witness :
  let E := Ref.ext true in
  let in_buf := 1000 in
  let out_buf := 2000 in
  let addr := 4096 in
  let b := 8 in
  let off := 0 in
  let len := 0 in
  let flush := Z_NO_FLUSH in
  let w := Ref.std_world (Ref.obj_params 10) in
  let strm := Ref.std_stream in
  let res := Z_BUF_ERROR in
  let z' := mk_z_stream 1000 10 0 2000 0 0 None (Some tt) 1 in
  (deref w addr = Some strm /\ useIGZIP strm = 0 /\
   get_Z w setParamsID = true /\ in_buf <> NULL /\ out_buf <> NULL /\
   deflateParams (z_set_buffers (zStream strm) (in_buf + get_I w offID) (out_buf + off)
                                (to_uInt (get_I w lenID)) (to_uInt len))
                 (get_I w levelID) (get_I w strategyID) = (res, z')) /\
  let step := deflateBytes in_buf out_buf addr b off len flush w in
  (fst step = Returns 0 /\ thrown (snd step) = thrown w /\
   this (snd step) = SetBooleanField setParamsID false (this w)) /\
  (get_Z (snd step) setParamsID = false <-> res = Z_OK \/ res = Z_BUF_ERROR).
Proof.
  cbv zeta. split.
  - repeat split; discriminate.
  - pose proof (@C2_params_buf_error_clears_pending (Ref.ext true)
                  1000 2000 4096 8 0 0 Z_NO_FLUSH
                  (Ref.std_world (Ref.obj_params 10)) Ref.std_stream
                  Z_BUF_ERROR (mk_z_stream 1000 10 0 2000 0 0 None (Some tt) 1)) as H.
    cbv zeta in H.
    destruct H as [H1 [H2 _]]; first [reflexivity | discriminate | idtac].
    split; [apply H1; reflexivity | exact H2].
Defined.

(** ** C3 *)

Lemma C3_witness :
  let E := Ref.ext true in
  let in_buf := 1000 in
  let out_buf := 2000 in
  let addr := 4096 in
  let b := 8 in
  let off := 0 in
  let len := 100 in
  let flush := Z_SYNC_FLUSH in
  let w := Ref.igzip_world (Ref.obj 10) in
  let strm := Ref.igzip_stream in
  (deref w addr = Some strm /\ useIGZIP strm <> 0 /\
   get_Z w setParamsID = false /\
   (flush = Z_SYNC_FLUSH \/ flush = Z_FULL_FLUSH) /\
   in_buf <> NULL /\ out_buf <> NULL /\
   to_uInt (get_I w lenID) <> 0 /\ to_uInt len <> 0) /\
  let step := deflateBytes in_buf out_buf addr b off len flush w in
  thrown (snd step) = thrown w /\
  calls (snd step) = calls w ++ [C_fast_lz] /\
  exists n, fst step = Returns n.
Proof.
  cbv zeta. split.
  - repeat split; first [discriminate | left; reflexivity].
  - apply (@C3_igzip_flush_reaches_backend (Ref.ext true)
             1000 2000 4096 8 0 100 Z_SYNC_FLUSH
             (Ref.igzip_world (Ref.obj 10)) Ref.igzip_stream);
      first [reflexivity | discriminate | left; reflexivity].
Defined.

(** The same session asked for a sync flush and for a full flush: no
    exception, [fast_lz] called, ten bytes moved. *)
Example igzip_sync_flush_runs :
  let step := deflateBytes 1000 2000 4096 8 0 100 Z_SYNC_FLUSH
                           (Ref.igzip_world (Ref.obj 10)) in
  fst step = Returns 10 /\ thrown (snd step) = [] /\
  calls (snd step) = [C_init_stream; C_fast_lz].
Proof. repeat split. Qed.

Example igzip_full_flush_runs :
  let step := deflateBytes 1000 2000 4096 8 0 100 Z_FULL_FLUSH
                           (Ref.igzip_world (Ref.obj 10)) in
  fst step = Returns 10 /\ thrown (snd step) = [] /\
  calls (snd step) = [C_init_stream; C_fast_lz].
Proof. repeat split. Qed.

(** ** C4 *)

(** An igzip session, nothing pending, no flush, both arrays pinned, zero
    bytes to read and zero bytes of room: the step does not return 0, it stops
    at the first [assert]. *)
Lemma C4_counterexample :
  let w := Ref.igzip_world (Ref.obj 0) in
  let step := deflateBytes 1000 2000 4096 8 0 0 Z_NO_FLUSH w in
  deref w 4096 = Some Ref.igzip_stream /\
  get_I w lenID = 0 /\
  fst step = AssertFails /\
  fst step <> Returns 0.
Proof. cbv zeta. repeat split. discriminate. Qed.

Lemma C4_witness :
  let E := Ref.ext true in
  let in_buf := 1000 in
  let out_buf := 2000 in
  let addr := 4096 in
  let b := 8 in
  let off := 0 in
  let flush := Z_NO_FLUSH in
  let w := Ref.std_world (Ref.obj 0) in
  let strm := Ref.std_stream in
  let res := fst (deflate (z_set_buffers (zStream strm) (in_buf + get_I w offID)
                                         (out_buf + off) 0 0)
                          (if get_Z w finishID then Z_FINISH else flush)) in
  (deref w addr = Some strm /\ get_I w lenID = 0 /\
   useIGZIP strm = 0 /\ get_Z w setParamsID = false /\
   deflate_accounting /\ is_jint (get_I w offID) /\ res = Z_BUF_ERROR) /\
  let step := deflateBytes in_buf out_buf addr b off 0 flush w in
  fst step = Returns 0 /\ thrown (snd step) = thrown w /\
  this (snd step) = this w /\
  fst (getBytesRead addr (snd step)) = fst (getBytesRead addr w) /\
  fst (getBytesWritten addr (snd step)) = fst (getBytesWritten addr w).
Proof.
  cbv zeta.
  assert (Hj : is_jint 0) by (unfold is_jint; lia).
  split.
  - do 4 (split; [reflexivity|]).
    split; [apply Ref_deflate_accounting|]. split; [exact Hj | reflexivity].
  - pose proof (@C4_empty_step (Ref.ext true) 1000 2000 4096 8 0 Z_NO_FLUSH
                  (Ref.std_world (Ref.obj 0)) Ref.std_stream) as H.
    cbv zeta in H.
    destruct H as [H _]; [reflexivity | reflexivity |].
    apply H; first [ reflexivity | apply Ref_deflate_accounting | exact Hj
                   | right; right; right; reflexivity ].
Defined.

(** The zlib session on the same request: [deflate] answers Z_BUF_ERROR,
    the step returns 0 and the Java object is as before. *)
Example std_empty_step :
  let w := Ref.std_world (Ref.obj 0) in
  let step := deflateBytes 1000 2000 4096 8 0 0 Z_NO_FLUSH w in
  fst step = Returns 0 /\ thrown (snd step) = thrown w /\ this (snd step) = this w.
Proof. repeat split. Qed.

(** With a parameter change pending the same request is not a no-op on a
    zlib session either: [setParams] is cleared. *)
Example std_empty_step_params :
  let w := Ref.std_world (Ref.obj_params 0) in
  let step := deflateBytes 1000 2000 4096 8 0 0 Z_NO_FLUSH w in
  fst step = Returns 0 /\ get_Z w setParamsID = true /\
  get_Z (snd step) setParamsID = false.
Proof. repeat split. Qed.

(** ** C5 *)

(** An igzip session with [finish] requested, ten bytes of input and one
    byte of output room: [fast_lz] leaves nine bytes unconsumed, and
    [finished] is true all the same. *)
Lemma C5_counterexample :
  let w := Ref.igzip_world (Ref.obj_finish 10) in
  let step := deflateBytes 1000 2000 4096 8 0 1 Z_NO_FLUSH w in
  deref w 4096 = Some Ref.igzip_stream /\
  get_Z w finishedID = false /\
  fst step = Returns 1 /\
  get_I (snd step) lenID = 9 /\
  get_Z (snd step) finishedID = true.
Proof. cbv zeta. repeat split. Qed.

Lemma C5_witness :
  let E := Ref.ext true in
  let in_buf := 1000 in
  let out_buf := 2000 in
  let addr := 4096 in
  let b := 8 in
  let off := 0 in
  let len := 1 in
  let flush := Z_NO_FLUSH in
  let w := Ref.std_world (Ref.obj_finish 10) in
  let strm := Ref.std_stream in
  (deref w addr = Some strm /\ useIGZIP strm = 0 /\
   get_Z w setParamsID = false /\ in_buf <> NULL /\ out_buf <> NULL /\
   get_Z w finishedID = false) /\
  let step := deflateBytes in_buf out_buf addr b off len flush w in
  (get_Z (snd step) finishedID = true <->
   fst (deflate (z_set_buffers (zStream strm) (in_buf + get_I w offID) (out_buf + off)
                               (to_uInt (get_I w lenID)) (to_uInt len))
                (if get_Z w finishID then Z_FINISH else flush)) = Z_STREAM_END).
Proof.
  cbv zeta. split.
  - repeat split; discriminate.
  - pose proof (@C5_finished_flag (Ref.ext true) 1000 2000 4096 8 0 1 Z_NO_FLUSH
                  (Ref.std_world (Ref.obj_finish 10)) Ref.std_stream) as H.
    cbv zeta in H.
    destruct H as [_ [H _]]; [reflexivity |].
    apply H; first [reflexivity | discriminate].
Defined.

(** On zlib the same request leaves [finished] false until the stream ends. *)
Example std_finish_without_room :
  let step := deflateBytes 1000 2000 4096 8 0 1 Z_NO_FLUSH
                           (Ref.std_world (Ref.obj_finish 10)) in
  fst step = Returns 1 /\ get_Z (snd step) finishedID = false.
Proof. split; reflexivity. Qed.

Example std_finish_with_room :
  let step := deflateBytes 1000 2000 4096 8 0 100 Z_NO_FLUSH
                           (Ref.std_world (Ref.obj_finish 10)) in
  fst step = Returns 10 /\ get_Z (snd step) finishedID = true.
Proof. split; reflexivity. Qed.

(** ** C6 *)

Lemma C6_witness :
  let E := Ref.ext true in
  let in_buf := 1000 in
  let out_buf := NULL in
  let addr := 4096 in
  let b := 8 in
  let off := 0 in
  let len := 100 in
  let flush := Z_NO_FLUSH in
  let w := Ref.std_world (Ref.obj 10) in
  let strm := Ref.std_stream in
  (deref w addr = Some strm /\ igzip_unsupported w strm flush = false /\
   in_buf <> NULL /\ out_buf = NULL) /\
  let step := deflateBytes in_buf out_buf addr b off len flush w in
  let oom (n : Z) :=
    if n =? 0 then [] else [EvThrow "java/lang/OutOfMemoryError" None] in
  fst step = Returns 0 /\
  trace (snd step) =
    trace w ++ [EvPin (JObj.buf (this w)) in_buf; EvPin b NULL;
                EvRelease (JObj.buf (this w)) in_buf] ++ oom len /\
  this (snd step) = this w /\ heap (snd step) = heap w.
Proof.
  cbv zeta. split.
  - repeat split; discriminate.
  - pose proof (@C6_pin_failure (Ref.ext true) 1000 NULL 4096 8 0 100 Z_NO_FLUSH
                  (Ref.std_world (Ref.obj 10)) Ref.std_stream) as H.
    cbv zeta in H.
    destruct H as [_ H]; [reflexivity | reflexivity |].
    apply H; first [reflexivity | discriminate].
Defined.

(** A failed pin of an empty array is silent; of a non-empty one it is not. *)
Example pin_in_fails_empty :
  let w := Ref.igzip_world (Ref.obj 0) in
  let step := deflateBytes NULL 2000 4096 8 0 100 Z_NO_FLUSH w in
  fst step = Returns 0 /\ thrown (snd step) = [].
Proof. split; reflexivity. Qed.

Example pin_in_fails_nonempty :
  let w := Ref.igzip_world (Ref.obj 10) in
  let step := deflateBytes NULL 2000 4096 8 0 100 Z_NO_FLUSH w in
  fst step = Returns 0 /\
  thrown (snd step) = [("java/lang/OutOfMemoryError"%string, None)].
Proof. split; reflexivity. Qed.

(** ** C7 *)

Lemma C7_witness :
  let E := Ref.ext true in
  let in_buf := 1000 in
  let out_buf := 2000 in
  let addr := 4096 in
  let b := 8 in
  let off := 0 in
  let len := 100 in
  let flush := Z_NO_FLUSH in
  let w := Ref.std_world (Ref.obj 10) in
  let strm := Ref.std_stream in
  let res := Z_OK in
  let z' := mk_z_stream 1010 0 10 2010 90 10 None (Some tt) 1 in
  (deref w addr = Some strm /\ useIGZIP strm = 0 /\
   get_Z w setParamsID = false /\ in_buf <> NULL /\ out_buf <> NULL /\
   deflate (z_set_buffers (zStream strm) (in_buf + get_I w offID) (out_buf + off)
                          (to_uInt (get_I w lenID)) (to_uInt len))
           (if get_Z w finishID then Z_FINISH else flush) = (res, z') /\
   0 <= get_I w offID /\ get_I w offID + get_I w lenID < 2 ^ 31 /\
   len < 2 ^ 31 /\
   0 <= z_avail_in z' <= get_I w lenID /\ 0 <= z_avail_out z' <= len) /\
  let step := deflateBytes in_buf out_buf addr b off len flush w in
  let consumed := get_I w lenID - z_avail_in z' in
  let produced := len - z_avail_out z' in
  thrown (snd step) = thrown w /\
  get_I (snd step) offID = get_I w offID + consumed /\
  get_I (snd step) lenID = z_avail_in z' /\
  fst step = Returns produced.
Proof.
  cbv zeta. split.
  - repeat split; first [discriminate | reflexivity | by_evaluation].
  - pose proof (@C7_standard_step (Ref.ext true) 1000 2000 4096 8 0 100 Z_NO_FLUSH
                  (Ref.std_world (Ref.obj 10)) Ref.std_stream
                  Z_OK (mk_z_stream 1010 0 10 2010 90 10 None (Some tt) 1)) as H.
    cbv zeta in H.
    destruct H as [H _]; first [reflexivity | discriminate | idtac].
    destruct H as [Ht [_ [_ [_ H]]]]; [left; reflexivity |].
    destruct H as [Ho [Hl Hr]];
      [by_evaluation | by_evaluation | by_evaluation | by_evaluation | by_evaluation |].
    split; [exact Ht|]. split; [exact Ho|]. split; [exact Hl | exact Hr].
Defined.

(** ** C8 *)

Lemma C8_witness :
  let E := Ref.ext true in
  let addr := 4096 in
  let w := snd (deflateBytes 1000 2000 4096 8 0 100 Z_NO_FLUSH
                             (Ref.std_world (Ref.obj 10))) in
  let strm := mk_Stream (mk_z_stream 1010 0 10 2010 90 10 None (Some tt) 1)
                        LZ_Stream2_zero 0 in
  (deref w addr = Some strm /\ fresh_totals /\
   thrown (snd (Session_reset addr w)) = thrown w) /\
  getBytesRead addr w = (Returns 10, w) /\
  getBytesWritten addr w = (Returns 10, w) /\
  let w' := snd (Session_reset addr w) in
  fst (getBytesRead addr w') = Returns 0 /\
  fst (getBytesWritten addr w') = Returns 0 /\
  get_Z w' finishedID = false.
Proof.
  cbv zeta. split.
  - split; [reflexivity|]. split; [apply Ref_fresh_totals | reflexivity].
  - pose proof (@C8_counters (Ref.ext true) 4096
                  (snd (deflateBytes 1000 2000 4096 8 0 100 Z_NO_FLUSH
                                     (Ref.std_world (Ref.obj 10))))
                  (mk_Stream (mk_z_stream 1010 0 10 2010 90 10 None (Some tt) 1)
                             LZ_Stream2_zero 0)) as H.
    cbv zeta in H.
    destruct H as [Hr [Hw [_ [_ [H _]]]]]; [reflexivity |].
    split; [exact Hr|]. split; [exact Hw|].
    apply H; [apply Ref_fresh_totals | reflexivity].
Defined.

(** ** C9 *)

Lemma C9_witness :
  let E := Ref.ext true in
  let addr := 4096 in
  let w := Ref.std_world (Ref.obj 10) in
  let strm := Ref.std_stream in
  (deref w addr = Some strm /\ activeBackend strm = Standard) /\
  let q := getAdler addr w in
  (thrown (snd q) <> thrown w <-> activeBackend strm = Fast) /\
  q = (Returns (to_jint (z_adler (zStream strm))), w).
Proof.
  cbv zeta. split.
  - split; reflexivity.
  - pose proof (@C9_getAdler (Ref.ext true) 4096 (Ref.std_world (Ref.obj 10))
                  Ref.std_stream) as H.
    cbv zeta in H.
    destruct H as [H1 [_ H3]]; [reflexivity |].
    split; [exact H1|]. apply H3. reflexivity.
Defined.

Example getAdler_igzip :
  let w := Ref.igzip_world (Ref.obj 10) in
  fst (getAdler 4096 w) = FallsOffEnd /\
  thrown (snd (getAdler 4096 w))
  = [("java/lang/InternalError"%string,
      Some "igzip doesn't support getAdler function"%string)].
Proof. split; reflexivity. Qed.

(** ** C10 *)

Lemma C10_witness :
  let E := Ref.ext true in
  let p := 4096 in
  let level := 6 in
  let strategy := 0 in
  let nowrap := false in
  let w := Ref.world0 true (Ref.obj 0) in
  let h := 4096 in
  (p <> NULL /\ fst (init p level strategy nowrap w) = Returns h /\ h <> jlong_zero) /\
  let w' := snd (init p level strategy nowrap w) in
  Layout.offsetof Stream_members "zStream" = 0 /\
  h = p + (if (level =? FAST_COMPRESSION) && is_sse42_supported then 0
           else Layout.offsetof Stream_members "zStream") /\
  h = p /\
  (exists s, heap w' !! p = Some s /\ deref w' h = Some s) /\
  handle_ok w' h.
Proof.
  cbv zeta. split.
  - repeat split; discriminate.
  - apply (@C10_handle_is_block_address (Ref.ext true) 4096 6 0 false
             (Ref.world0 true (Ref.obj 0)) 4096);
      first [reflexivity | discriminate].
Defined.

(** Both backends hand back the address [calloc] returned. *)
Example init_handles :
  fst (init 4096 6 0 false (Ref.world0 true (Ref.obj 0))) = Returns 4096 /\
  fst (init 4096 1 0 false (Ref.world0 true (Ref.obj 0))) = Returns 4096.
Proof. split; reflexivity. Qed.

(** * Further properties of the native methods *)

(** Flattens the world a native method returns down to its three fields. *)
Ltac flatten_world :=
  unfold thrown, calls, new_events, JNU_ThrowOutOfMemoryError, JNU_ThrowInternalError,
    JNU_ThrowIllegalArgumentException, JNU_ThrowByName, free, set_I, set_Z,
    set_this, store, set_heap, log;
  cbn [heap this trace fst snd];
  rewrite <- ?app_assoc; cbn [app];
  rewrite ?flat_map_app; cbn [flat_map app]; rewrite ?app_nil_r.

Section More.

Context {E : Externals}.

Lemma skipn_app_length {A : Type} (l k : list A) : skipn (length l) (l ++ k) = k.
Proof. induction l as [|x l IH]; [reflexivity | exact IH]. Qed.

Lemma new_events_app (w w' : World) (evs : list Event) :
  trace w' = trace w ++ evs -> new_events w w' = evs.
Proof. intros H. unfold new_events. rewrite H. apply skipn_app_length. Qed.

Lemma app_eq_self_nil {A : Type} (l k : list A) : l ++ k = l -> k = [].
Proof.
  intros H. destruct k as [|x k]; [reflexivity|].
  apply (f_equal (@length A)) in H. rewrite length_app in H. simpl in H. lia.
Qed.

(** ** The CPU probe *)

(** [is_cpuid_ecx_bit_set] reads one bit of ecx.  For a shift count that C
    defines on an [int], 0..31, shifting right and masking with 1 gives bit
    [bitidx] of the register, also when [ecx] is negative as an [int] (bit 31
    set), where [>>] is an arithmetic shift; the bit is the same whether the
    register value is read signed or unsigned.  So the probe is bit 20 of ecx
    for leaf 1. *)
Theorem is_cpuid_ecx_bit_set_testbit (eax bitidx : Z) :
  0 <= bitidx < 32 ->
  is_cpuid_ecx_bit_set eax bitidx = Z.testbit (snd (fst (cpuid eax))) bitidx /\
  is_cpuid_ecx_bit_set eax bitidx = Z.testbit (to_jint (snd (fst (cpuid eax)))) bitidx /\
  is_cpuid_ecx_bit_set eax bitidx = Z.testbit (to_uInt (snd (fst (cpuid eax)))) bitidx /\
  is_sse42_supported = Z.testbit (snd (fst (cpuid 1))) 20.
Proof.
  intros Hb.
  assert (H : forall e n, 0 <= n ->
            is_cpuid_ecx_bit_set e n = Z.testbit (snd (fst (cpuid e))) n).
  { intros e n Hn. unfold is_cpuid_ecx_bit_set.
    destruct (cpuid e) as [[ebx ecx] edx]. cbn [fst snd].
    change 1 with (Z.ones 1) at 1.
    rewrite Z.land_ones by lia. change (2 ^ 1) with 2.
    rewrite <- Z.bit0_eqb, Z.shiftr_spec by lia. reflexivity. }
  assert (Hu : forall x, Z.testbit (to_uInt x) bitidx = Z.testbit x bitidx).
  { intros x. unfold to_uInt. rewrite Z.mod_pow2_bits_low by lia. reflexivity. }
  assert (Hj : forall x, Z.testbit (to_jint x) bitidx = Z.testbit x bitidx).
  { intros x. rewrite <- (Hu (to_jint x)), <- (Hu x). f_equal.
    unfold to_jint, to_uInt.
    rewrite Zminus_mod_idemp_l. f_equal. lia. }
  split; [apply H; lia|]. split; [rewrite Hj; apply H; lia|].
  split; [rewrite Hu; apply H; lia | apply H; lia].
Qed.

(** ** [init]: the two paths, written out *)

Lemma init_igzip_eq (p level strategy : Z) (nowrap : bool) (w : World) :
  p <> NULL ->
  (level =? FAST_COMPRESSION) && is_sse42_supported = true ->
  init p level strategy nowrap w =
  (Returns p,
   store p (set_lz2Stream (set_useIGZIP Stream_zero IGZIP_TRUE)
                          (init_stream (lz2Stream (set_useIGZIP Stream_zero IGZIP_TRUE))))
     (log (EvCall C_init_stream)
        (store p (set_useIGZIP Stream_zero IGZIP_TRUE)
           (log (EvPrintf (String.append "Using igzip" newline))
              (store p Stream_zero w))))).
Proof.
  intros Hp Ht. unfold Java_htsjdk_samtools_util_zip_IntelDeflater_init.
  assert (Hz : (p =? NULL) = false) by (apply Z.eqb_neq; exact Hp).
  assert (Hz0 : (p =? 0) = false) by exact Hz.
  rewrite Hz, Ht, deref_log, deref_store by exact Hp. rewrite Hz0. reflexivity.
Qed.

Lemma init_zlib_eq (p level strategy : Z) (nowrap : bool) (w : World)
    (res : Z) (z : z_stream ZS) :
  p <> NULL ->
  (level =? FAST_COMPRESSION) && is_sse42_supported = false ->
  deflateInit2 z_stream_zero level Z_DEFLATED
               (if nowrap then - MAX_WBITS else MAX_WBITS) DEF_MEM_LEVEL strategy
  = (res, z) ->
  let w1 := store p (set_zStream Stream_zero z)
              (log (EvCall (C_deflateInit2 level Z_DEFLATED
                              (if nowrap then - MAX_WBITS else MAX_WBITS)
                              DEF_MEM_LEVEL strategy))
                 (store p Stream_zero w)) in
  init p level strategy nowrap w =
  if res =? Z_OK then (Returns (p + Layout.offsetof Stream_members "zStream"), w1)
  else if res =? Z_MEM_ERROR then
    (Returns jlong_zero, JNU_ThrowOutOfMemoryError None (free p w1))
  else if res =? Z_STREAM_ERROR then
    (Returns jlong_zero, JNU_ThrowIllegalArgumentException None (free p w1))
  else (Returns jlong_zero, JNU_ThrowInternalError (z_msg z) (free p w1)).
Proof.
  intros Hp Ht Hcall. unfold Java_htsjdk_samtools_util_zip_IntelDeflater_init.
  assert (Hz : (p =? NULL) = false) by (apply Z.eqb_neq; exact Hp).
  assert (Hz0 : (p =? 0) = false) by exact Hz.
  rewrite Hz, Ht, Hz0, deref_store by exact Hp.
  change (zStream Stream_zero) with (@z_stream_zero ZS). rewrite Hcall.
  destruct (res =? Z_OK); [reflexivity|].
  destruct (res =? Z_MEM_ERROR); [reflexivity|].
  destruct (res =? Z_STREAM_ERROR); reflexivity.
Qed.

(** When [deflateInit2] fails, [init] frees the block, throws one exception
    chosen by the result code (OutOfMemoryError for Z_MEM_ERROR,
    IllegalArgumentException for Z_STREAM_ERROR, InternalError carrying the
    stream's [msg] otherwise) and returns 0: nothing is left allocated. *)
Theorem init_failure_frees_block (p level strategy : Z) (nowrap : bool) (w : World)
    (res : Z) (z : z_stream ZS) :
  p <> NULL ->
  (level =? FAST_COMPRESSION) && is_sse42_supported = false ->
  deflateInit2 z_stream_zero level Z_DEFLATED
               (if nowrap then - MAX_WBITS else MAX_WBITS) DEF_MEM_LEVEL strategy
  = (res, z) ->
  res <> Z_OK ->
  let r := init p level strategy nowrap w in
  fst r = Returns jlong_zero /\
  heap (snd r) !! p = None /\
  new_events w (snd r) =
    [EvCall (C_deflateInit2 level Z_DEFLATED (if nowrap then - MAX_WBITS else MAX_WBITS)
                            DEF_MEM_LEVEL strategy);
     EvFree p;
     if res =? Z_MEM_ERROR then EvThrow "java/lang/OutOfMemoryError" None
     else if res =? Z_STREAM_ERROR then EvThrow "java/lang/IllegalArgumentException" None
     else EvThrow "java/lang/InternalError" (z_msg z)].
Proof.
  intros Hp Ht Hcall Hres r. subst r.
  rewrite (init_zlib_eq p level strategy nowrap w res z Hp Ht Hcall).
  apply Z.eqb_neq in Hres. rewrite Hres.
  destruct (res =? Z_MEM_ERROR); [|destruct (res =? Z_STREAM_ERROR)];
    (split; [reflexivity|]; split;
     [ flatten_world; apply lookup_delete_eq
     | apply new_events_app; flatten_world; reflexivity ]).
Qed.

(** When [calloc] fails, the zlib branch throws OutOfMemoryError and returns
    0 without touching anything else.  The igzip branch writes
    [strm->useIGZIP] before it tests [strm]: it goes through the null pointer
    and never reaches its own OutOfMemoryError. *)
Theorem init_calloc_failure (level strategy : Z) (nowrap : bool) (w : World) :
  let r := init NULL level strategy nowrap w in
  ((level =? FAST_COMPRESSION) && is_sse42_supported = false ->
   fst r = Returns jlong_zero /\
   new_events w (snd r) = [EvThrow "java/lang/OutOfMemoryError" None] /\
   heap (snd r) = heap w /\ this (snd r) = this w) /\
  ((level =? FAST_COMPRESSION) && is_sse42_supported = true ->
   fst r = BadPointer /\ thrown (snd r) = thrown w /\ calls (snd r) = calls w).
Proof.
  intros r. subst r. unfold Java_htsjdk_samtools_util_zip_IntelDeflater_init.
  change (NULL =? NULL) with true. cbv iota. split; intros Ht; rewrite Ht.
  - change (NULL =? 0) with true. cbv iota.
    split; [reflexivity|]. split; [|split; reflexivity].
    apply new_events_app. reflexivity.
  - rewrite deref_log. unfold deref. change (NULL =? NULL) with true. cbv iota.
    split; [reflexivity|]. split; flatten_world; reflexivity.
Qed.

(** [init] with a block to work on throws nothing exactly when it returns a
    nonzero handle. *)
Theorem init_throws_iff_no_handle (p level strategy : Z) (nowrap : bool) (w : World) :
  p <> NULL ->
  let r := init p level strategy nowrap w in
  (thrown (snd r) = thrown w <-> exists h, fst r = Returns h /\ h <> jlong_zero) /\
  (thrown (snd r) <> thrown w -> fst r = Returns jlong_zero).
Proof.
  intros Hp r. subst r.
  destruct ((level =? FAST_COMPRESSION) && is_sse42_supported) eqn:Ht.
  - rewrite (init_igzip_eq p level strategy nowrap w Hp Ht). cbn [fst snd].
    assert (Hth : forall s1 s2 s3 e1 e2,
              thrown (store p s1 (log (EvCall e1) (store p s2 (log (EvPrintf e2)
                        (store p s3 w))))) = thrown w).
    { intros. flatten_world. reflexivity. }
    rewrite Hth. split; [|intros H; contradiction].
    split; [intros _; exists p; split; [reflexivity | exact Hp] | reflexivity].
  - destruct (deflateInit2 z_stream_zero level Z_DEFLATED
                (if nowrap then - MAX_WBITS else MAX_WBITS) DEF_MEM_LEVEL strategy)
      as [res z] eqn:Hcall.
    rewrite (init_zlib_eq p level strategy nowrap w res z Hp Ht Hcall).
    destruct (res =? Z_OK).
    + cbn [fst snd]. rewrite offsetof_zStream, Z.add_0_r.
      split; [|intros H; exfalso; apply H; flatten_world; reflexivity].
      split; [intros _; exists p; split; [reflexivity | exact Hp]|].
      intros _. flatten_world. reflexivity.
    + assert (Hne : forall c m w1,
                thrown (JNU_ThrowByName c m (free p w1)) = thrown w1 ++ [(c, m)]).
      { intros. flatten_world. reflexivity. }
      destruct (res =? Z_MEM_ERROR); [|destruct (res =? Z_STREAM_ERROR)];
        cbn [fst snd];
        unfold JNU_ThrowOutOfMemoryError, JNU_ThrowIllegalArgumentException,
          JNU_ThrowInternalError; rewrite Hne;
        (split; [|intros _; reflexivity]);
        (split;
         [ intros H; exfalso; revert H; flatten_world; apply app_singleton_neq
         | intros [h [Hr Hh]]; injection Hr as <-; contradiction ]).
Qed.

(** [init] writes one block only: every other block of the heap, and the
    Java object, are as before. *)
Theorem init_frame (p level strategy : Z) (nowrap : bool) (w : World) (q : Z) :
  q <> p ->
  heap (snd (init p level strategy nowrap w)) !! q = heap w !! q /\
  this (snd (init p level strategy nowrap w)) = this w.
Proof.
  intros Hq.
  destruct (Z.eq_dec p NULL) as [-> | Hp].
  { unfold Java_htsjdk_samtools_util_zip_IntelDeflater_init.
    change (NULL =? NULL) with true. cbv iota.
    destruct ((level =? FAST_COMPRESSION) && is_sse42_supported).
    - rewrite deref_log. unfold deref. change (NULL =? NULL) with true.
      split; reflexivity.
    - change (NULL =? 0) with true. split; reflexivity. }
  destruct ((level =? FAST_COMPRESSION) && is_sse42_supported) eqn:Ht.
  - rewrite (init_igzip_eq p level strategy nowrap w Hp Ht).
    flatten_world. split; [|reflexivity].
    rewrite !lookup_insert_ne by congruence. reflexivity.
  - destruct (deflateInit2 z_stream_zero level Z_DEFLATED
                (if nowrap then - MAX_WBITS else MAX_WBITS) DEF_MEM_LEVEL strategy)
      as [res z] eqn:Hcall.
    rewrite (init_zlib_eq p level strategy nowrap w res z Hp Ht Hcall).
    destruct (res =? Z_OK); [|destruct (res =? Z_MEM_ERROR);
                               [|destruct (res =? Z_STREAM_ERROR)]];
      flatten_world; (split; [|reflexivity]);
      rewrite ?lookup_delete_ne by congruence;
      rewrite !lookup_insert_ne by congruence; reflexivity.
Qed.

(** ** [setDictionary] *)

Lemma setDictionary_eq (buf addr b off len : Z) (w : World) (strm : Stream ZS LS)
    (res : Z) (z : z_stream ZS) :
  deref w addr = Some strm -> buf <> NULL ->
  deflateSetDictionary (zStream strm) (buf + off) (to_uInt len) = (res, z) ->
  let w1 := log (EvRelease b buf)
              (store addr (set_zStream strm z)
                 (log (EvCall (C_deflateSetDictionary (buf + off) (to_uInt len)))
                    (log (EvPin b buf) w))) in
  setDictionary buf addr b off len w =
  if res =? Z_OK then (Returns tt, w1)
  else if res =? Z_STREAM_ERROR then
    (Returns tt, JNU_ThrowIllegalArgumentException None w1)
  else (Returns tt, JNU_ThrowInternalError (z_msg z) w1).
Proof.
  intros Hd Hb Hcall.
  unfold Java_htsjdk_samtools_util_zip_IntelDeflater_setDictionary.
  assert (Hz : (buf =? 0) = false) by (apply Z.eqb_neq; exact Hb).
  rewrite Hz, deref_log, Hd, Hcall.
  destruct (res =? Z_OK); [reflexivity|].
  destruct (res =? Z_STREAM_ERROR); reflexivity.
Qed.

(** A failed pin in [setDictionary] is silent whatever the length: the
    method returns with no exception, no backend call and nothing written,
    and the dictionary is not set.  (A step throws OutOfMemoryError in the
    same situation when the length is nonzero.) *)
Theorem setDictionary_pin_failure_silent (addr b off len : Z) (w : World) :
  let r := setDictionary NULL addr b off len w in
  fst r = Returns tt /\
  new_events w (snd r) = [EvPin b NULL] /\
  heap (snd r) = heap w /\ this (snd r) = this w.
Proof.
  intros r. subst r.
  unfold Java_htsjdk_samtools_util_zip_IntelDeflater_setDictionary.
  change (NULL =? 0) with true. cbv iota.
  split; [reflexivity|]. split; [|split; reflexivity].
  apply new_events_app. reflexivity.
Qed.

(** With the array pinned, [setDictionary] hands [buf + off] and [len],
    converted to [uInt] as the parameter [dictLength] is (a negative [len]
    arrives as [len + 2^32]), to
    [deflateSetDictionary] on the session's [zStream], releases the array, and
    only then maps the result: nothing on Z_OK, IllegalArgumentException on
    Z_STREAM_ERROR, InternalError with the stream's [msg] otherwise.  It does
    not look at [useIGZIP]: an igzip session gets the same call, on a
    [zStream] that was never initialised.  The igzip record, the backend tag,
    the Java object and every other block are left alone. *)
Theorem setDictionary_outcome (buf addr b off len : Z) (w : World) (strm : Stream ZS LS)
    (res : Z) (z : z_stream ZS) :
  deref w addr = Some strm -> buf <> NULL ->
  deflateSetDictionary (zStream strm) (buf + off) (to_uInt len) = (res, z) ->
  let r := setDictionary buf addr b off len w in
  fst r = Returns tt /\
  new_events w (snd r) =
    [EvPin b buf; EvCall (C_deflateSetDictionary (buf + off) (to_uInt len));
     EvRelease b buf]
    ++ (if res =? Z_OK then []
        else if res =? Z_STREAM_ERROR
             then [EvThrow "java/lang/IllegalArgumentException" None]
             else [EvThrow "java/lang/InternalError" (z_msg z)]) /\
  deref (snd r) addr = Some (mk_Stream z (lz2Stream strm) (useIGZIP strm)) /\
  this (snd r) = this w /\
  (forall q, q <> addr -> heap (snd r) !! q = heap w !! q).
Proof.
  intros Hd Hb Hcall r. subst r.
  rewrite (setDictionary_eq buf addr b off len w strm res z Hd Hb Hcall).
  pose proof (deref_not_null _ _ _ Hd) as Hnn.
  assert (Hdr : forall w0, deref (store addr (set_zStream strm z) w0) addr
                           = Some (mk_Stream z (lz2Stream strm) (useIGZIP strm))).
  { intros w0. apply deref_store. exact Hnn. }
  destruct (res =? Z_OK); [|destruct (res =? Z_STREAM_ERROR)];
    (split; [reflexivity|]; split; [apply new_events_app; flatten_world; reflexivity|];
     split; [apply Hdr|]; split; [reflexivity|];
     intros q Hq; flatten_world; apply lookup_insert_ne; congruence).
Qed.

(** ** [deflateBytes]: all paths at once *)

(** Splits a goal about one step into the paths of [deflateBytes] and
    replaces the step by its value on each. *)
Ltac step_paths Hd :=
  match type of Hd with
  | deref ?w ?addr = Some ?strm =>
    match goal with
    | |- context [Java_htsjdk_samtools_util_zip_IntelDeflater_deflateBytes
                    ?ib ?ob addr ?b ?off ?len ?flush w] =>
      let Hg := fresh "Hg" in
      let Hin := fresh "Hin" in
      let Hout := fresh "Hout" in
      let Hu := fresh "Hu" in
      let Hs := fresh "Hs" in
      let Hcall := fresh "Hcall" in
      let res := fresh "res" in
      let z' := fresh "z'" in
      destruct (igzip_unsupported w strm flush) eqn:Hg;
      [ rewrite (step_rejected ib ob addr b off len flush w strm Hd Hg)
      | destruct (Z.eq_dec ib NULL) as [Hin | Hin];
        [ rewrite (step_pin_in_fails ib ob addr b off len flush w strm Hd Hg Hin)
        | destruct (Z.eq_dec ob NULL) as [Hout | Hout];
          [ rewrite (step_pin_out_fails ib ob addr b off len flush w strm Hd Hg Hin Hout)
          | destruct (Z.eq_dec (useIGZIP strm) 0) as [Hu | Hu];
            [ destruct (get_Z w setParamsID) eqn:Hs;
              [ destruct (deflateParams
                            (z_set_buffers (zStream strm) (ib + get_I w offID) (ob + off)
                                           (to_uInt (get_I w lenID)) (to_uInt len))
                            (get_I w levelID) (get_I w strategyID))
                  as [res z'] eqn:Hcall;
                rewrite (step_params ib ob addr b off len flush w strm Hd res z'
                                     Hu Hs Hin Hout Hcall)
              | destruct (deflate
                            (z_set_buffers (zStream strm) (ib + get_I w offID) (ob + off)
                                           (to_uInt (get_I w lenID)) (to_uInt len))
                            (if get_Z w finishID then Z_FINISH else flush))
                  as [res z'] eqn:Hcall;
                rewrite (step_deflate ib ob addr b off len flush w strm Hd res z'
                                      Hu Hs Hin Hout Hcall) ]
            | rewrite (step_igzip ib ob addr b off len flush w strm Hd Hg Hu Hin Hout) ] ] ] ]
    end
  end.

(** The events of one step, in order, on every path. *)
Lemma step_events (in_buf out_buf addr b off len flush : Z) (w : World)
    (strm : Stream ZS LS) :
  deref w addr = Some strm ->
  let this_buf := JObj.buf (this w) in
  let oom (n : Z) :=
    if n =? 0 then [] else [EvThrow "java/lang/OutOfMemoryError" None] in
  let z0 := z_set_buffers (zStream strm) (in_buf + get_I w offID) (out_buf + off)
                          (to_uInt (get_I w lenID)) (to_uInt len) in
  new_events w (snd (deflateBytes in_buf out_buf addr b off len flush w)) =
  if igzip_unsupported w strm flush then
    [EvThrow "java/lang/InternalError" (Some "igzip doesn't support this"%string)]
  else
    EvPin this_buf in_buf ::
    if in_buf =? NULL then oom (get_I w lenID)
    else
      EvPin b out_buf ::
      if out_buf =? NULL then EvRelease this_buf in_buf :: oom len
      else if negb (useIGZIP strm =? 0) then
        if (to_uInt (get_I w lenID) =? 0) || (to_uInt len =? 0) then []
        else [EvCall C_fast_lz; EvRelease b out_buf; EvRelease this_buf in_buf]
      else if get_Z w setParamsID then
        let r := deflateParams z0 (get_I w levelID) (get_I w strategyID) in
        [EvCall (C_deflateParams (get_I w levelID) (get_I w strategyID));
         EvRelease b out_buf; EvRelease this_buf in_buf]
        ++ (if (fst r =? Z_OK) || (fst r =? Z_BUF_ERROR) then []
            else [EvThrow "java/lang/InternalError" (z_msg (snd r))])
      else
        let f := if get_Z w finishID then Z_FINISH else flush in
        let r := deflate z0 f in
        [EvCall (C_deflate f); EvRelease b out_buf; EvRelease this_buf in_buf]
        ++ (if (fst r =? Z_STREAM_END) || (fst r =? Z_OK) || (fst r =? Z_BUF_ERROR)
            then []
            else [EvThrow "java/lang/InternalError" (z_msg (snd r))]).
Proof.
  intros Hd this_buf oom z0. subst this_buf oom z0. cbv zeta.
  step_paths Hd.
  - apply new_events_app. reflexivity.
  - apply Z.eqb_eq in Hin. rewrite Hin. apply new_events_app.
    destruct (get_I w lenID =? 0); flatten_world; reflexivity.
  - apply Z.eqb_neq in Hin. apply Z.eqb_eq in Hout. rewrite Hin, Hout.
    apply new_events_app.
    destruct (len =? 0); flatten_world; reflexivity.
  - apply Z.eqb_neq in Hin, Hout. rewrite Hin, Hout, Hu, ?Hcall. cbn [negb fst snd].
    apply new_events_app.
    destruct (res =? Z_OK); [|destruct (res =? Z_BUF_ERROR)];
      flatten_world; reflexivity.
  - apply Z.eqb_neq in Hin, Hout. rewrite Hin, Hout, Hu, ?Hcall. cbn [negb fst snd].
    apply new_events_app.
    destruct (res =? Z_STREAM_END); [|destruct (res =? Z_OK);
                                       [|destruct (res =? Z_BUF_ERROR)]];
      flatten_world; reflexivity.
  - apply Z.eqb_neq in Hin, Hout, Hu. rewrite Hin, Hout, Hu. cbn [negb].
    apply new_events_app.
    destruct ((to_uInt (get_I w lenID) =? 0) || (to_uInt len =? 0));
      [|destruct (get_Z w finishID)]; flatten_world; reflexivity.
Qed.

(** Every step that runs to its end releases what it pinned, innermost first
    (the output array, then the input array), so no array stays pinned across
    steps, whichever path was taken and whether or not it threw.  The one
    exception is a step stopped by an [assert] on the igzip path: both arrays
    are still pinned when the process aborts. *)
Theorem step_pins_balanced (in_buf out_buf addr b off len flush : Z) (w : World)
    (strm : Stream ZS LS) (st : list (Z * Z)) :
  deref w addr = Some strm ->
  let step := deflateBytes in_buf out_buf addr b off len flush w in
  pin_stack (new_events w (snd step)) st =
  Some (match fst step with
        | AssertFails => (b, out_buf) :: (JObj.buf (this w), in_buf) :: st
        | _ => st
        end).
Proof.
  intros Hd step. subst step.
  rewrite (step_events in_buf out_buf addr b off len flush w strm Hd). cbv zeta.
  step_paths Hd; cbn [fst snd].
  - reflexivity.
  - apply Z.eqb_eq in Hin. rewrite Hin.
    destruct (get_I w lenID =? 0); cbn; rewrite Hin; reflexivity.
  - apply Z.eqb_neq in Hin. apply Z.eqb_eq in Hout. rewrite Hin, Hout.
   
    destruct (len =? 0); cbn; rewrite Hin, Hout, !Z.eqb_refl; reflexivity.
  - apply Z.eqb_neq in Hin, Hout. rewrite Hin, Hout, Hu.
    destruct (res =? Z_OK); [|destruct (res =? Z_BUF_ERROR)];
      cbn; rewrite Hin, Hout, !Z.eqb_refl; reflexivity.
  - apply Z.eqb_neq in Hin, Hout. rewrite Hin, Hout, Hu.
    destruct (res =? Z_STREAM_END); [|destruct (res =? Z_OK);
                                       [|destruct (res =? Z_BUF_ERROR)]];
      cbn; rewrite Hin, Hout, !Z.eqb_refl; reflexivity.
  - apply Z.eqb_neq in Hin, Hout, Hu. rewrite Hin, Hout, Hu.
    destruct ((to_uInt (get_I w lenID) =? 0) || (to_uInt len =? 0));
      cbn; rewrite Hin, Hout, ?Z.eqb_refl; reflexivity.
Qed.

(** A step calls a backend at most once, and the call is fixed by the
    session: [fast_lz] on igzip; on zlib [deflateParams] with the [level] and
    [strategy] fields when a parameter change is pending, else [deflate] with
    Z_FINISH when [finish] is set, whatever [flush] says, and with [flush]
    otherwise.  No backend is called when the step is rejected, a pin fails or
    an [assert] stops it. *)
Theorem step_backend_call (in_buf out_buf addr b off len flush : Z) (w : World)
    (strm : Stream ZS LS) :
  deref w addr = Some strm ->
  let step := deflateBytes in_buf out_buf addr b off len flush w in
  calls (snd step) =
  calls w ++
    if igzip_unsupported w strm flush || (in_buf =? NULL) || (out_buf =? NULL) then []
    else if negb (useIGZIP strm =? 0) then
      if (to_uInt (get_I w lenID) =? 0) || (to_uInt len =? 0) then [] else [C_fast_lz]
    else if get_Z w setParamsID then
      [C_deflateParams (get_I w levelID) (get_I w strategyID)]
    else [C_deflate (if get_Z w finishID then Z_FINISH else flush)].
Proof.
  intros Hd step. subst step.
  step_paths Hd; cbn [fst snd orb].
  - cbn. flatten_world. reflexivity.
  - apply Z.eqb_eq in Hin. rewrite Hin. cbn [orb].
    destruct (negb (get_I w lenID =? 0)); cbn; flatten_world; reflexivity.
  - apply Z.eqb_eq in Hout. rewrite Hout, orb_true_r.
    destruct (negb (len =? 0)); cbn; flatten_world; reflexivity.
  - apply Z.eqb_neq in Hin, Hout. rewrite Hin, Hout, Hu. cbn [negb orb].
    destruct (res =? Z_OK); [|destruct (res =? Z_BUF_ERROR)];
      cbn; flatten_world; reflexivity.
  - apply Z.eqb_neq in Hin, Hout. rewrite Hin, Hout, Hu. cbn [negb orb].
    destruct (res =? Z_STREAM_END); [|destruct (res =? Z_OK);
                                       [|destruct (res =? Z_BUF_ERROR)]];
      cbn; flatten_world; reflexivity.
  - apply Z.eqb_neq in Hin, Hout, Hu. rewrite Hin, Hout, Hu. cbn [negb orb].
    destruct ((to_uInt (get_I w lenID) =? 0) || (to_uInt len =? 0));
      [|destruct (get_Z w finishID)]; cbn; flatten_world; reflexivity.
Qed.

(** A step throws at most one exception, and a step that throws reports no
    bytes: it returns 0, or, when the igzip test rejects it, ends without a
    return value. *)
Theorem step_throw_reports_nothing (in_buf out_buf addr b off len flush : Z)
    (w : World) (strm : Stream ZS LS) :
  deref w addr = Some strm ->
  let step := deflateBytes in_buf out_buf addr b off len flush w in
  (thrown (snd step) = thrown w \/ exists e, thrown (snd step) = thrown w ++ [e]) /\
  (thrown (snd step) <> thrown w ->
   fst step = Returns 0 \/
   (fst step = FallsOffEnd /\ igzip_unsupported w strm flush = true)).
Proof.
  intros Hd step. subst step.
  assert (Hone : forall w0 c m, thrown w0 = thrown w ->
            thrown (JNU_ThrowByName c m w0) = thrown w ++ [(c, m)]).
  { intros w0 c m H0. unfold JNU_ThrowByName. rewrite thrown_log, H0. reflexivity. }
  step_paths Hd; cbn [fst snd].
  - split; [right; eexists; apply Hone; reflexivity|].
    intros _. right. split; reflexivity.
  - split; [|intros _; left; reflexivity].
    destruct (negb (get_I w lenID =? 0));
      [right; eexists; apply Hone; flatten_world; reflexivity
      | left; flatten_world; reflexivity].
  - split; [|intros _; left; reflexivity].
    destruct (negb (len =? 0));
      [right; eexists; apply Hone; flatten_world; reflexivity
      | left; flatten_world; reflexivity].
  - destruct (res =? Z_OK); [|destruct (res =? Z_BUF_ERROR)]; cbn [fst snd].
    + split; [left; flatten_world; reflexivity|].
      intros H. exfalso. apply H. flatten_world. reflexivity.
    + split; [left; flatten_world; reflexivity|]. intros _. left. reflexivity.
    + split; [right; eexists; apply Hone; flatten_world; reflexivity|].
      intros _. left. reflexivity.
  - destruct (res =? Z_STREAM_END) eqn:He;
      [|destruct (res =? Z_OK); [|destruct (res =? Z_BUF_ERROR)]]; cbn [orb fst snd].
    + split; [left; flatten_world; reflexivity|].
      intros H. exfalso. apply H. flatten_world. reflexivity.
    + split; [left; flatten_world; reflexivity|].
      intros H. exfalso. apply H. flatten_world. reflexivity.
    + split; [left; flatten_world; reflexivity|]. intros _. left. reflexivity.
    + split; [right; eexists; apply Hone; flatten_world; reflexivity|].
      intros _. left. reflexivity.
  - destruct ((to_uInt (get_I w lenID) =? 0) || (to_uInt len =? 0)); cbn [fst snd].
    + split; [left; flatten_world; reflexivity|].
      intros H. exfalso. apply H. flatten_world. reflexivity.
    + split; [left; destruct (get_Z w finishID); flatten_world; reflexivity|].
      intros H. exfalso. apply H.
      destruct (get_Z w finishID); flatten_world; reflexivity.
Qed.

Lemma deref_heap (w : World) (a : Z) (s : Stream ZS LS) :
  deref w a = Some s -> a <> NULL /\ heap w !! a = Some s.
Proof.
  intros Hd. split; [exact (deref_not_null _ _ _ Hd)|].
  unfold deref in Hd. destruct (a =? NULL); [discriminate | exact Hd].
Qed.

Lemma heap_deref (w : World) (a : Z) (s : Stream ZS LS) :
  a <> NULL -> heap w !! a = Some s -> deref w a = Some s.
Proof.
  intros Ha Hh. unfold deref. apply Z.eqb_neq in Ha. rewrite Ha. exact Hh.
Qed.

(** A step never changes which backend a session runs on, writes only the
    record of that backend (an igzip step leaves [zStream] alone, a zlib step
    leaves [lz2Stream] alone), keeps the block allocated, and touches no other
    block of the heap. *)
Theorem step_keeps_backend (in_buf out_buf addr b off len flush : Z) (w : World)
    (strm : Stream ZS LS) :
  deref w addr = Some strm ->
  let w' := snd (deflateBytes in_buf out_buf addr b off len flush w) in
  (exists s', deref w' addr = Some s' /\
              useIGZIP s' = useIGZIP strm /\
              (useIGZIP strm = 0 -> lz2Stream s' = lz2Stream strm) /\
              (useIGZIP strm <> 0 -> zStream s' = zStream strm)) /\
  (forall q, q <> addr -> heap w' !! q = heap w !! q).
Proof.
  intros Hd w'. subst w'.
  destruct (deref_heap _ _ _ Hd) as [Hnn Hh].
  assert (Hsame : forall w0 : World, heap w0 = heap w ->
            (exists s', deref w0 addr = Some s' /\
                        useIGZIP s' = useIGZIP strm /\
                        (useIGZIP strm = 0 -> lz2Stream s' = lz2Stream strm) /\
                        (useIGZIP strm <> 0 -> zStream s' = zStream strm)) /\
            (forall q, q <> addr -> heap w0 !! q = heap w !! q)).
  { intros w0 H0. split.
    - exists strm. split; [apply heap_deref; [exact Hnn | rewrite H0; exact Hh]|].
      repeat split; reflexivity.
    - intros q _. rewrite H0. reflexivity. }
  assert (Hput : forall (w0 : World) (s' : Stream ZS LS),
            heap w0 = <[addr := s']> (heap w) ->
            useIGZIP s' = useIGZIP strm ->
            (useIGZIP strm = 0 -> lz2Stream s' = lz2Stream strm) ->
            (useIGZIP strm <> 0 -> zStream s' = zStream strm) ->
            (exists s', deref w0 addr = Some s' /\
                        useIGZIP s' = useIGZIP strm /\
                        (useIGZIP strm = 0 -> lz2Stream s' = lz2Stream strm) /\
                        (useIGZIP strm <> 0 -> zStream s' = zStream strm)) /\
            (forall q, q <> addr -> heap w0 !! q = heap w !! q)).
  { intros w0 s' H0 H1 H2 H3. split.
    - exists s'. split; [|repeat split; assumption].
      apply heap_deref; [exact Hnn|]. rewrite H0. apply lookup_insert_eq.
    - intros q Hq. rewrite H0. apply lookup_insert_ne. congruence. }
  step_paths Hd; cbn [fst snd].
  - apply Hsame. reflexivity.
  - apply Hsame. destruct (negb (get_I w lenID =? 0)); reflexivity.
  - apply Hsame. destruct (negb (len =? 0)); reflexivity.
  - apply (Hput _ (set_zStream strm z')).
    + destruct (res =? Z_OK); [|destruct (res =? Z_BUF_ERROR)]; reflexivity.
    + reflexivity.
    + intros _. reflexivity.
    + intros Hne. contradiction.
  - apply (Hput _ (set_zStream strm z')).
    + destruct (res =? Z_STREAM_END); [|destruct (res =? Z_OK);
                                         [|destruct (res =? Z_BUF_ERROR)]]; reflexivity.
    + reflexivity.
    + intros _. reflexivity.
    + intros Hne. contradiction.
  - destruct ((to_uInt (get_I w lenID) =? 0) || (to_uInt len =? 0)); cbn [snd].
    + eapply Hput; [reflexivity | reflexivity | intros H0; contradiction
                   | intros _; reflexivity].
    + destruct (get_Z w finishID);
        (eapply Hput;
         [ flatten_world; rewrite insert_insert_eq; reflexivity
         | reflexivity | intros H0; contradiction | intros _; reflexivity ]).
Qed.

(** Of the fields of the Java object a step writes only [off], [len],
    [finished] and [setParams]: [level], [strategy], [finish] and [buf] are as
    before, and [setParams] is never raised. *)
Theorem step_java_fields (in_buf out_buf addr b off len flush : Z) (w : World)
    (strm : Stream ZS LS) :
  deref w addr = Some strm ->
  let w' := snd (deflateBytes in_buf out_buf addr b off len flush w) in
  get_I w' levelID = get_I w levelID /\
  get_I w' strategyID = get_I w strategyID /\
  get_Z w' finishID = get_Z w finishID /\
  JObj.buf (this w') = JObj.buf (this w) /\
  (get_Z w' setParamsID = true -> get_Z w setParamsID = true).
Proof.
  intros Hd w'. subst w'.
  step_paths Hd; cbn [fst snd];
    repeat match goal with
           | |- context [if ?c then _ else _] => destruct c eqn:?
           end;
    cbn [fst snd]; repeat split;
    try (intros H; cbn in H); unfold get_Z in *; cbn in *; congruence.
Qed.

(** ** Accounting of a step *)

Lemma update_window (w0 : World) (O L a : Z) :
  0 <= O -> 0 <= a <= L -> O + L < 2 ^ 31 ->
  let w1 := set_I lenID (to_jint a) (set_I offID (to_jint (O + to_uInt (L - a))) w0) in
  get_I w1 offID = O + (L - a) /\ get_I w1 lenID = a.
Proof.
  intros HO Ha HL w1. subst w1. split.
  - change (to_jint (O + to_uInt (L - a)) = O + (L - a)).
    apply off_update_exact; assumption.
  - change (to_jint a = a). apply to_jint_id. unfold is_jint. lia.
Qed.

(** Both accounting facts at once, for sharing. *)
Lemma step_accounting (in_buf out_buf addr b off len flush : Z) (w : World)
    (strm : Stream ZS LS) :
  deref w addr = Some strm -> backend_takes_only ->
  0 <= get_I w offID -> 0 <= get_I w lenID ->
  get_I w offID + get_I w lenID < 2 ^ 31 -> 0 <= len < 2 ^ 31 ->
  let step := deflateBytes in_buf out_buf addr b off len flush w in
  (get_I (snd step) offID + get_I (snd step) lenID = get_I w offID + get_I w lenID /\
   get_I w offID <= get_I (snd step) offID /\ 0 <= get_I (snd step) lenID) /\
  (forall n, fst step = Returns n -> 0 <= n <= len).
Proof.
  intros Hd [Hdef [Hpar Hlz]] HO HL HOL Hlen step. subst step.
  assert (HuL : to_uInt (get_I w lenID) = get_I w lenID) by (apply to_uInt_id; lia).
  assert (Hul : to_uInt len = len) by (apply to_uInt_id; lia).
  assert (Hkeep : forall w0 : World,
            (get_I w0 offID = get_I w offID /\ get_I w0 lenID = get_I w lenID) ->
            get_I w0 offID + get_I w0 lenID = get_I w offID + get_I w lenID /\
            get_I w offID <= get_I w0 offID /\ 0 <= get_I w0 lenID).
  { intros w0 [H0 H1]. rewrite H0, H1. lia. }
  assert (Hzero : forall n : Z, Returns 0 = Returns n -> 0 <= n <= len).
  { intros n Hn. injection Hn as <-. lia. }
  assert (Hupd : forall (w0 : World) (a ao : Z),
            get_I w0 offID = get_I w offID -> get_I w0 lenID = get_I w lenID ->
            0 <= a <= get_I w lenID -> 0 <= ao <= len ->
            let w1 := set_I lenID (to_jint a)
                        (set_I offID (to_jint (get_I w offID
                                               + to_uInt (get_I w lenID - a))) w0) in
            (get_I w1 offID + get_I w1 lenID = get_I w offID + get_I w lenID /\
             get_I w offID <= get_I w1 offID /\ 0 <= get_I w1 lenID) /\
            (forall n, Returns (to_jint (to_uInt (len - ao))) = Returns n ->
                       0 <= n <= len)).
  { intros w0 a ao _ _ Ha Hao w1.
    destruct (update_window w0 (get_I w offID) (get_I w lenID) a HO Ha HOL) as [H1 H2].
    fold w1 in H1, H2. rewrite H1, H2. split; [lia|].
    intros n Hn. injection Hn as <-. rewrite produced_exact by lia. lia. }
  step_paths Hd; cbn [fst snd].
  - split; [apply Hkeep; split; reflexivity | discriminate].
  - split; [|exact Hzero].
    apply Hkeep. destruct (negb (get_I w lenID =? 0)); split; reflexivity.
  - split; [|exact Hzero].
    apply Hkeep. destruct (negb (len =? 0)); split; reflexivity.
  - pose proof (Hpar (z_set_buffers (zStream strm) (in_buf + get_I w offID)
                                    (out_buf + off) (to_uInt (get_I w lenID))
                                    (to_uInt len))
                     (get_I w levelID) (get_I w strategyID)) as Hb.
    rewrite Hcall in Hb. cbn [snd z_set_buffers z_avail_in z_avail_out] in Hb.
    rewrite HuL, Hul in Hb. specialize (Hb HL ltac:(lia)). destruct Hb as [Ha Hao].
    destruct (res =? Z_OK); [|destruct (res =? Z_BUF_ERROR)]; cbn [fst snd].
    + apply Hupd; first [reflexivity | assumption].
    + split; [apply Hkeep; split; reflexivity | exact Hzero].
    + split; [apply Hkeep; split; reflexivity | exact Hzero].
  - pose proof (Hdef (z_set_buffers (zStream strm) (in_buf + get_I w offID)
                                    (out_buf + off) (to_uInt (get_I w lenID))
                                    (to_uInt len))
                     (if get_Z w finishID then Z_FINISH else flush)) as Hb.
    rewrite Hcall in Hb. cbn [snd z_set_buffers z_avail_in z_avail_out] in Hb.
    rewrite HuL, Hul in Hb. specialize (Hb HL ltac:(lia)). destruct Hb as [Ha Hao].
    destruct (res =? Z_STREAM_END); [|destruct (res =? Z_OK);
                                       [|destruct (res =? Z_BUF_ERROR)]];
      cbn [orb fst snd].
    + apply Hupd; first [reflexivity | assumption].
    + apply Hupd; first [reflexivity | assumption].
    + split; [apply Hkeep; split; reflexivity | exact Hzero].
    + split; [apply Hkeep; split; reflexivity | exact Hzero].
  - destruct ((to_uInt (get_I w lenID) =? 0) || (to_uInt len =? 0)); cbn [fst snd].
    + split; [apply Hkeep; split; reflexivity | discriminate].
    + pose proof (Hlz (lz_set_end_of_stream
                         (lz_set_buffers (lz2Stream strm) (in_buf + get_I w offID)
                                         (out_buf + off) (to_uInt (get_I w lenID))
                                         (to_uInt len))
                         (if get_Z w finishID then 1 else 0))) as Hb.
      cbn [lz_set_end_of_stream lz_set_buffers lz_avail_in lz_avail_out] in Hb.
      destruct Hb as [Ha Hao]; [lia | lia |].
      destruct (get_Z w finishID);
        (apply Hupd; [reflexivity | reflexivity | lia | lia]).
Qed.

(** The input window only shrinks from the front.  With the window inside a
    Java array and a backend that only takes from [avail_in] and [avail_out],
    every step, on every path, leaves [off + len] where it was, moves [off]
    forward or not at all, and keeps [len] nonnegative: what is left to read
    is a suffix of what there was. *)
Theorem step_window_conserved (in_buf out_buf addr b off len flush : Z) (w : World)
    (strm : Stream ZS LS) :
  deref w addr = Some strm -> backend_takes_only ->
  0 <= get_I w offID -> 0 <= get_I w lenID ->
  get_I w offID + get_I w lenID < 2 ^ 31 -> 0 <= len < 2 ^ 31 ->
  let w' := snd (deflateBytes in_buf out_buf addr b off len flush w) in
  get_I w' offID + get_I w' lenID = get_I w offID + get_I w lenID /\
  get_I w offID <= get_I w' offID /\ 0 <= get_I w' lenID.
Proof.
  intros Hd Hb HO HL HOL Hlen.
  exact (proj1 (step_accounting in_buf out_buf addr b off len flush w strm
                                Hd Hb HO HL HOL Hlen)).
Qed.

(** Under the same conditions the byte count a step returns never exceeds
    the output capacity it was given, and is never negative. *)
Theorem step_return_bounded (in_buf out_buf addr b off len flush : Z) (w : World)
    (strm : Stream ZS LS) (n : Z) :
  deref w addr = Some strm -> backend_takes_only ->
  0 <= get_I w offID -> 0 <= get_I w lenID ->
  get_I w offID + get_I w lenID < 2 ^ 31 -> 0 <= len < 2 ^ 31 ->
  fst (deflateBytes in_buf out_buf addr b off len flush w) = Returns n ->
  0 <= n <= len.
Proof.
  intros Hd Hb HO HL HOL Hlen.
  exact (proj2 (step_accounting in_buf out_buf addr b off len flush w strm
                                Hd Hb HO HL HOL Hlen) n).
Qed.

(** ** The igzip path: asserts and a pending parameter change *)

(** A step stops at an [assert] exactly on an igzip session that passes the
    test, has both arrays pinned, and has nothing to read or no room to write;
    one of the two is enough, and a [finish] request makes no difference.  So
    the usual closing call, [finish] set and no input left, aborts on igzip.
    A zlib session never stops at an [assert]. *)
Theorem step_assert_iff (in_buf out_buf addr b off len flush : Z) (w : World)
    (strm : Stream ZS LS) :
  deref w addr = Some strm ->
  (fst (deflateBytes in_buf out_buf addr b off len flush w) = AssertFails <->
   useIGZIP strm <> 0 /\ igzip_unsupported w strm flush = false /\
   in_buf <> NULL /\ out_buf <> NULL /\
   (to_uInt (get_I w lenID) = 0 \/ to_uInt len = 0)).
Proof.
  intros Hd.
  step_paths Hd; cbn [fst snd].
  - split; [discriminate | intros [_ [H _]]; discriminate].
  - split; [discriminate | intros [_ [_ [H _]]]; contradiction].
  - split; [discriminate | intros [_ [_ [_ [H _]]]]; contradiction].
  - split; [|intros [H _]; contradiction].
    destruct (res =? Z_OK); [|destruct (res =? Z_BUF_ERROR)]; discriminate.
  - split; [|intros [H _]; contradiction].
    destruct (res =? Z_STREAM_END); [|destruct (res =? Z_OK);
                                       [|destruct (res =? Z_BUF_ERROR)]]; discriminate.
  - destruct (to_uInt (get_I w lenID) =? 0) eqn:H1;
      [|destruct (to_uInt len =? 0) eqn:H2]; cbn [orb fst].
    + apply Z.eqb_eq in H1. split; [intros _|reflexivity].
      repeat split; try assumption. left. exact H1.
    + apply Z.eqb_eq in H2. split; [intros _|reflexivity].
      repeat split; try assumption. right. exact H2.
    + apply Z.eqb_neq in H1, H2.
      split; [discriminate | intros [_ [_ [_ [_ [H | H]]]]]; contradiction].
Qed.


(** ** Steps in sequence on zlib *)

(** A pending parameter change is applied once.  After a zlib step whose
    [deflateParams] answered Z_OK or Z_BUF_ERROR, the next step with both
    arrays pinned calls [deflate], not [deflateParams]. *)
Theorem params_applied_once (in_buf out_buf addr b off len flush : Z) (w : World)
    (strm : Stream ZS LS) (res : Z) (z' : z_stream ZS) :
  deref w addr = Some strm -> useIGZIP strm = 0 ->
  get_Z w setParamsID = true ->
  in_buf <> NULL -> out_buf <> NULL ->
  deflateParams (z_set_buffers (zStream strm) (in_buf + get_I w offID) (out_buf + off)
                               (to_uInt (get_I w lenID)) (to_uInt len))
                (get_I w levelID) (get_I w strategyID) = (res, z') ->
  res = Z_OK \/ res = Z_BUF_ERROR ->
  let w' := snd (deflateBytes in_buf out_buf addr b off len flush w) in
  forall in_buf2 out_buf2 b2 off2 len2 flush2,
    in_buf2 <> NULL -> out_buf2 <> NULL ->
    calls (snd (deflateBytes in_buf2 out_buf2 addr b2 off2 len2 flush2 w')) =
    calls w' ++ [C_deflate (if get_Z w finishID then Z_FINISH else flush2)].
Proof.
  intros Hd Hu Hs Hin Hout Hcall Hres w' in_buf2 out_buf2 b2 off2 len2 flush2 Hin2 Hout2.
  subst w'.
  rewrite (step_params _ _ _ _ _ _ _ _ _ Hd res z' Hu Hs Hin Hout Hcall).
  pose proof (deref_not_null _ _ _ Hd) as Hnn.
  assert (Hgen : forall W : World,
            deref W addr = Some (set_zStream strm z') ->
            get_Z W setParamsID = false -> get_Z W finishID = get_Z w finishID ->
            calls (snd (deflateBytes in_buf2 out_buf2 addr b2 off2 len2 flush2 W)) =
            calls W ++ [C_deflate (if get_Z w finishID then Z_FINISH else flush2)]).
  { intros W HdW HsW HfW.
    destruct (deflate (z_set_buffers (zStream (set_zStream strm z'))
                                     (in_buf2 + get_I W offID) (out_buf2 + off2)
                                     (to_uInt (get_I W lenID)) (to_uInt len2))
                      (if get_Z W finishID then Z_FINISH else flush2))
      as [res2 z2] eqn:Hcall2.
    rewrite (step_deflate _ _ _ _ _ _ _ _ _ HdW res2 z2 Hu HsW Hin2 Hout2 Hcall2).
    rewrite HfW.
    destruct (res2 =? Z_STREAM_END); [|destruct (res2 =? Z_OK);
                                        [|destruct (res2 =? Z_BUF_ERROR)]];
      cbn; flatten_world; reflexivity. }
  destruct Hres as [-> | ->].
  - change (Z_OK =? Z_OK) with true. cbv iota. cbn [snd].
    apply Hgen; [|reflexivity|reflexivity].
    rewrite !deref_set_I, deref_set_Z, !deref_log. apply deref_store. exact Hnn.
  - change (Z_BUF_ERROR =? Z_OK) with false.
    change (Z_BUF_ERROR =? Z_BUF_ERROR) with true. cbv iota. cbn [snd].
    apply Hgen; [|reflexivity|reflexivity].
    rewrite deref_set_Z, !deref_log. apply deref_store. exact Hnn.
Qed.

(** ** [reset] and [end] *)

(** The native [reset] re-initialises the record of the active backend and
    nothing else: the Java object ([finished], [setParams], [off], [len]
    included) is untouched, the other record and the backend tag stay, other
    blocks stay.  On igzip it is one call of [init_stream] and cannot throw.
    On zlib it is one call of [deflateReset], and InternalError with no
    message is thrown exactly when that does not answer Z_OK. *)
Theorem reset_outcome (addr : Z) (w : World) (strm : Stream ZS LS) :
  deref w addr = Some strm ->
  let r := reset addr w in
  fst r = Returns tt /\
  this (snd r) = this w /\
  new_events w (snd r) =
    (if negb (useIGZIP strm =? 0) then [EvCall C_init_stream]
     else EvCall C_deflateReset ::
          if fst (deflateReset (zStream strm)) =? Z_OK then []
          else [EvThrow "java/lang/InternalError" None]) /\
  deref (snd r) addr =
    Some (if negb (useIGZIP strm =? 0)
          then mk_Stream (zStream strm) (init_stream (lz2Stream strm)) (useIGZIP strm)
          else mk_Stream (snd (deflateReset (zStream strm))) (lz2Stream strm)
                         (useIGZIP strm)) /\
  (forall q, q <> addr -> heap (snd r) !! q = heap w !! q).
Proof.
  intros Hd r. subst r.
  pose proof (deref_not_null _ _ _ Hd) as Hnn.
  unfold Java_htsjdk_samtools_util_zip_IntelDeflater_reset. rewrite Hd.
  destruct (negb (useIGZIP strm =? 0)).
  - split; [reflexivity|]. split; [reflexivity|].
    split; [apply new_events_app; flatten_world; reflexivity|].
    split; [apply deref_store; exact Hnn|].
    intros q Hq. flatten_world. apply lookup_insert_ne. congruence.
  - destruct (deflateReset (zStream strm)) as [res z]. cbn [fst snd].
    destruct (res =? Z_OK); cbn [negb];
      (split; [reflexivity|]; split; [reflexivity|];
       split; [apply new_events_app; flatten_world; reflexivity|];
       split; [unfold JNU_ThrowInternalError, JNU_ThrowByName;
               rewrite ?deref_log; apply deref_store; exact Hnn|];
       intros q Hq; flatten_world; apply lookup_insert_ne; congruence).
Qed.

Lemma end_eq (addr : Z) (w : World) (strm : Stream ZS LS) :
  deref w addr = Some strm ->
  end_ addr w =
  (Returns tt,
   free addr
     (if useIGZIP strm =? 0 then
        let w1 := store addr (set_zStream strm (snd (deflateEnd (zStream strm))))
                    (log (EvCall C_deflateEnd) w) in
        if fst (deflateEnd (zStream strm)) =? Z_STREAM_ERROR
        then JNU_ThrowInternalError None w1 else w1
      else w)).
Proof.
  intros Hd. unfold Java_htsjdk_samtools_util_zip_IntelDeflater_end. rewrite Hd.
  destruct (useIGZIP strm =? 0); [|reflexivity].
  destruct (deflateEnd (zStream strm)) as [res z]. reflexivity.
Qed.

(** [end] frees the block on every path.  An igzip session is freed with no
    backend call.  A zlib session is freed after one call of [deflateEnd],
    also when that call reports an error; only Z_STREAM_ERROR is turned into
    an InternalError.  Afterwards the handle is dead: a second [end], or any
    other method given the same handle, dereferences freed memory. *)
Theorem end_outcome (addr : Z) (w : World) (strm : Stream ZS LS) :
  deref w addr = Some strm ->
  let r := end_ addr w in
  fst r = Returns tt /\
  this (snd r) = this w /\
  new_events w (snd r) =
    (if useIGZIP strm =? 0
     then EvCall C_deflateEnd ::
          if fst (deflateEnd (zStream strm)) =? Z_STREAM_ERROR
          then [EvThrow "java/lang/InternalError" None] else []
     else []) ++ [EvFree addr] /\
  heap (snd r) !! addr = None /\
  (forall q, q <> addr -> heap (snd r) !! q = heap w !! q) /\
  fst (end_ addr (snd r)) = BadPointer /\
  fst (reset addr (snd r)) = BadPointer /\
  fst (getBytesRead addr (snd r)) = BadPointer /\
  fst (getBytesWritten addr (snd r)) = BadPointer /\
  fst (getAdler addr (snd r)) = BadPointer /\
  (forall in_buf out_buf b off len flush,
      fst (deflateBytes in_buf out_buf addr b off len flush (snd r)) = BadPointer).
Proof.
  intros Hd r. subst r.
  assert (Hdead : forall W : World, heap W !! addr = None ->
            fst (end_ addr W) = BadPointer /\
            fst (reset addr W) = BadPointer /\
            fst (getBytesRead addr W) = BadPointer /\
            fst (getBytesWritten addr W) = BadPointer /\
            fst (getAdler addr W) = BadPointer /\
            (forall in_buf out_buf b off len flush,
                fst (deflateBytes in_buf out_buf addr b off len flush W) = BadPointer)).
  { intros W HW.
    assert (HdW : deref W addr = None).
    { unfold deref. destruct (addr =? NULL); [reflexivity | exact HW]. }
    unfold Java_htsjdk_samtools_util_zip_IntelDeflater_end,
      Java_htsjdk_samtools_util_zip_IntelDeflater_reset,
      Java_htsjdk_samtools_util_zip_IntelDeflater_getBytesRead,
      Java_htsjdk_samtools_util_zip_IntelDeflater_getBytesWritten,
      Java_htsjdk_samtools_util_zip_IntelDeflater_getAdler,
      Java_htsjdk_samtools_util_zip_IntelDeflater_deflateBytes.
    rewrite HdW. repeat split. }
  rewrite (end_eq addr w strm Hd). cbn [fst snd].
  assert (Hnone : forall W0 : World, heap (free addr W0) !! addr = None).
  { intros W0. flatten_world. apply lookup_delete_eq. }
  split; [reflexivity|].
  split.
  { destruct (useIGZIP strm =? 0); [|reflexivity]. cbv zeta.
    destruct (fst (deflateEnd (zStream strm)) =? Z_STREAM_ERROR); reflexivity. }
  split.
  { apply new_events_app.
    destruct (useIGZIP strm =? 0); [|flatten_world; reflexivity]. cbv zeta.
    destruct (fst (deflateEnd (zStream strm)) =? Z_STREAM_ERROR);
      flatten_world; reflexivity. }
  split; [apply Hnone|].
  split; [|apply Hdead; apply Hnone].
  intros q Hq.
  destruct (useIGZIP strm =? 0); [|flatten_world; apply lookup_delete_ne; congruence].
  cbv zeta.
  destruct (fst (deflateEnd (zStream strm)) =? Z_STREAM_ERROR); flatten_world;
    rewrite lookup_delete_ne, lookup_insert_ne by congruence; reflexivity.
Qed.

(** ** Counters against what a step reports *)

(** On the ordinary zlib path the counters move by exactly what the step
    reports: after a step that ended in Z_OK or Z_STREAM_END, [getBytesWritten]
    has grown by the value returned and [getBytesRead] by the advance of
    [off], given zlib's accounting and values in range. *)
Theorem step_counters_advance (in_buf out_buf addr b off len flush : Z) (w : World)
    (strm : Stream ZS LS) (res : Z) (z' : z_stream ZS) (n : Z) :
  deref w addr = Some strm -> useIGZIP strm = 0 ->
  get_Z w setParamsID = false ->
  in_buf <> NULL -> out_buf <> NULL ->
  deflate (z_set_buffers (zStream strm) (in_buf + get_I w offID) (out_buf + off)
                         (to_uInt (get_I w lenID)) (to_uInt len))
          (if get_Z w finishID then Z_FINISH else flush) = (res, z') ->
  res = Z_OK \/ res = Z_STREAM_END ->
  deflate_accounting ->
  0 <= get_I w offID -> 0 <= get_I w lenID ->
  get_I w offID + get_I w lenID < 2 ^ 31 -> 0 <= len < 2 ^ 31 ->
  0 <= z_total_in (zStream strm) < 2 ^ 62 ->
  0 <= z_total_out (zStream strm) < 2 ^ 62 ->
  let step := deflateBytes in_buf out_buf addr b off len flush w in
  fst step = Returns n ->
  fst (getBytesWritten addr (snd step)) = Returns (z_total_out (zStream strm) + n) /\
  fst (getBytesRead addr (snd step)) =
    Returns (z_total_in (zStream strm) + (get_I (snd step) offID - get_I w offID)) /\
  fst (getBytesWritten addr w) = Returns (z_total_out (zStream strm)) /\
  fst (getBytesRead addr w) = Returns (z_total_in (zStream strm)).
Proof.
  intros Hd Hu Hs Hin Hout Hcall Hres Hacc HO HL HOL Hlen Hti Hto step. subst step.
  rewrite (step_deflate _ _ _ _ _ _ _ _ _ Hd res z' Hu Hs Hin Hout Hcall).
  pose proof (deref_not_null _ _ _ Hd) as Hnn.
  assert (HuL : to_uInt (get_I w lenID) = get_I w lenID) by (apply to_uInt_id; lia).
  assert (Hul : to_uInt len = len) by (apply to_uInt_id; lia).
  pose proof (Hacc (z_set_buffers (zStream strm) (in_buf + get_I w offID) (out_buf + off)
                                  (to_uInt (get_I w lenID)) (to_uInt len))
                   (if get_Z w finishID then Z_FINISH else flush)) as Ha.
  cbv zeta in Ha. rewrite Hcall in Ha.
  cbn [snd z_set_buffers z_avail_in z_avail_out z_total_in z_total_out] in Ha.
  rewrite HuL, Hul in Ha.
  destruct Ha as [Hai [Hao [Hin' Hout']]]; [lia | lia |].
  assert (Hb : (res =? Z_STREAM_END) || (res =? Z_OK) = true).
  { destruct Hres as [-> | ->]; reflexivity. }
  rewrite Hb. cbn [fst snd].
  intros Hn. injection Hn as <-.
  rewrite produced_exact by lia.
  unfold Java_htsjdk_samtools_util_zip_IntelDeflater_getBytesWritten,
    Java_htsjdk_samtools_util_zip_IntelDeflater_getBytesRead.
  rewrite Hd, Hu. cbn [negb fst]. change (0 =? 0) with true. cbn [negb].
  assert (Hoff : forall W0 : World, get_I W0 offID = get_I w offID ->
            get_I (set_I lenID (to_jint (z_avail_in z'))
                     (set_I offID (to_jint (get_I w offID
                        + to_uInt (get_I w lenID - z_avail_in z'))) W0)) offID
            = get_I w offID + (get_I w lenID - z_avail_in z')).
  { intros W0 _.
    change (to_jint (get_I w offID + to_uInt (get_I w lenID - z_avail_in z'))
            = get_I w offID + (get_I w lenID - z_avail_in z')).
    apply off_update_exact; lia. }
  assert (HdW : forall W0 : World,
            deref W0 addr = Some (set_zStream strm z') ->
            deref (set_I lenID (to_jint (z_avail_in z'))
                     (set_I offID (to_jint (get_I w offID
                        + to_uInt (get_I w lenID - z_avail_in z'))) W0)) addr
            = Some (set_zStream strm z')).
  { intros W0 H0. rewrite !deref_set_I. exact H0. }
  destruct (res =? Z_STREAM_END);
    (rewrite HdW by (rewrite ?deref_set_Z, !deref_log; apply deref_store; exact Hnn);
     rewrite Hoff by reflexivity;
     cbn [useIGZIP set_zStream zStream]; rewrite Hu;
     change (0 =? 0) with true; cbn [negb fst];
     rewrite Hin', Hout';
     rewrite !to_jlong_id by lia;
     repeat split; f_equal; lia).
Qed.

End More.

(** * Further properties on the reference instance *)

Lemma Ref_backend_takes_only (sse42 : bool) : @backend_takes_only (Ref.ext sse42).
Proof.
  unfold backend_takes_only. simpl. split; [|split].
  - intros z flush Hi Ho. unfold Ref.ref_deflate.
    destruct (z_avail_out z =? 0); [simpl; lia|].
    destruct ((flush =? Z_FINISH) && (z_avail_in z <? z_avail_out z)); [simpl; lia|].
    destruct ((Z.min (z_avail_in z) (z_avail_out z) =? 0) && (flush =? Z_NO_FLUSH));
      simpl; lia.
  - intros z level strategy Hi Ho. unfold Ref.ref_deflateParams.
    destruct (negb _); [simpl; lia|].
    destruct (z_avail_out z =? 0); simpl; lia.
  - intros l Hi Ho. unfold Ref.ref_fast_lz. simpl. lia.
Qed.

Lemma is_cpuid_ecx_bit_set_testbit_witness :
  let E := Ref.ext true in
  0 <= 20 < 32 /\
  is_cpuid_ecx_bit_set 1 20 = Z.testbit (snd (fst (cpuid 1))) 20 /\
  is_cpuid_ecx_bit_set 1 20 = Z.testbit (to_jint (snd (fst (cpuid 1)))) 20 /\
  is_cpuid_ecx_bit_set 1 20 = Z.testbit (to_uInt (snd (fst (cpuid 1)))) 20 /\
  is_sse42_supported = Z.testbit (snd (fst (cpuid 1))) 20.
Proof.
  cbv zeta. split; [lia|].
  apply (@is_cpuid_ecx_bit_set_testbit (Ref.ext true) 1 20). lia.
Defined.

Lemma init_failure_frees_block_witness :
  let E := Ref.ext true in
  let p := 4096 in
  let level := 42 in
  let strategy := 0 in
  let nowrap := false in
  let w := Ref.world0 true (Ref.obj 0) in
  let res := Z_STREAM_ERROR in
  let z := @z_stream_zero unit in
  (p <> NULL /\
   (level =? FAST_COMPRESSION) && is_sse42_supported = false /\
   deflateInit2 z_stream_zero level Z_DEFLATED
                (if nowrap then - MAX_WBITS else MAX_WBITS) DEF_MEM_LEVEL strategy
   = (res, z) /\
   res <> Z_OK) /\
  let r := init p level strategy nowrap w in
  fst r = Returns jlong_zero /\
  heap (snd r) !! p = None /\
  new_events w (snd r) =
    [EvCall (C_deflateInit2 level Z_DEFLATED (if nowrap then - MAX_WBITS else MAX_WBITS)
                            DEF_MEM_LEVEL strategy);
     EvFree p;
     if res =? Z_MEM_ERROR then EvThrow "java/lang/OutOfMemoryError" None
     else if res =? Z_STREAM_ERROR then EvThrow "java/lang/IllegalArgumentException" None
     else EvThrow "java/lang/InternalError" (z_msg z)].
Proof.
  cbv zeta. split.
  - repeat split; discriminate.
  - apply (@init_failure_frees_block (Ref.ext true) 4096 42 0 false
             (Ref.world0 true (Ref.obj 0)) Z_STREAM_ERROR z_stream_zero);
      first [reflexivity | discriminate].
Defined.

Lemma init_calloc_failure_witness :
  let E := Ref.ext true in
  let level := 6 in
  let strategy := 0 in
  let nowrap := false in
  let w := Ref.world0 true (Ref.obj 0) in
  (level =? FAST_COMPRESSION) && is_sse42_supported = false /\
  let r := init NULL level strategy nowrap w in
  fst r = Returns jlong_zero /\
  new_events w (snd r) = [EvThrow "java/lang/OutOfMemoryError" None] /\
  heap (snd r) = heap w /\ this (snd r) = this w.
Proof.
  cbv zeta. split; [reflexivity|].
  apply (proj1 (@init_calloc_failure (Ref.ext true) 6 0 false
                  (Ref.world0 true (Ref.obj 0)))).
  reflexivity.
Defined.

(** The igzip branch on the same failure. *)
Example init_calloc_failure_igzip :
  fst (init NULL 1 0 false (Ref.world0 true (Ref.obj 0))) = BadPointer /\
  thrown (snd (init NULL 1 0 false (Ref.world0 true (Ref.obj 0)))) = [].
Proof. split; reflexivity. Qed.

Lemma init_throws_iff_no_handle_witness :
  let E := Ref.ext true in
  let p := 4096 in
  let level := 42 in
  let strategy := 0 in
  let nowrap := false in
  let w := Ref.world0 true (Ref.obj 0) in
  p <> NULL /\
  let r := init p level strategy nowrap w in
  (thrown (snd r) = thrown w <-> exists h, fst r = Returns h /\ h <> jlong_zero) /\
  (thrown (snd r) <> thrown w -> fst r = Returns jlong_zero).
Proof.
  cbv zeta. split; [discriminate|].
  apply (@init_throws_iff_no_handle (Ref.ext true) 4096 42 0 false
           (Ref.world0 true (Ref.obj 0))).
  discriminate.
Defined.

Lemma init_frame_witness :
  let E := Ref.ext true in
  let p := 8192 in
  let level := 1 in
  let strategy := 0 in
  let nowrap := false in
  let w := Ref.std_world (Ref.obj 10) in
  let q := 4096 in
  q <> p /\
  heap (snd (init p level strategy nowrap w)) !! q = heap w !! q /\
  this (snd (init p level strategy nowrap w)) = this w.
Proof.
  cbv zeta. split; [discriminate|].
  apply (@init_frame (Ref.ext true) 8192 1 0 false (Ref.std_world (Ref.obj 10)) 4096).
  discriminate.
Defined.

Lemma setDictionary_outcome_witness :
  let E := Ref.ext true in
  let buf := 3000 in
  let addr := 4096 in
  let b := 9 in
  let off := 4 in
  let len := 16 in
  let w := Ref.igzip_world (Ref.obj 10) in
  let strm := Ref.igzip_stream in
  let res := Z_STREAM_ERROR in
  let z := @z_stream_zero unit in
  (deref w addr = Some strm /\ buf <> NULL /\
   deflateSetDictionary (zStream strm) (buf + off) (to_uInt len) = (res, z)) /\
  let r := setDictionary buf addr b off len w in
  fst r = Returns tt /\
  new_events w (snd r) =
    [EvPin b buf; EvCall (C_deflateSetDictionary (buf + off) (to_uInt len));
     EvRelease b buf]
    ++ (if res =? Z_OK then []
        else if res =? Z_STREAM_ERROR
             then [EvThrow "java/lang/IllegalArgumentException" None]
             else [EvThrow "java/lang/InternalError" (z_msg z)]) /\
  deref (snd r) addr = Some (mk_Stream z (lz2Stream strm) (useIGZIP strm)) /\
  this (snd r) = this w /\
  (forall q, q <> addr -> heap (snd r) !! q = heap w !! q).
Proof.
  cbv zeta. split.
  - repeat split; discriminate.
  - apply (@setDictionary_outcome (Ref.ext true) 3000 4096 9 4 16
             (Ref.igzip_world (Ref.obj 10)) Ref.igzip_stream
             Z_STREAM_ERROR z_stream_zero);
      first [reflexivity | discriminate].
Defined.

(** A negative length reaches zlib as an unsigned one. *)
Example setDictionary_negative_len :
  calls (snd (setDictionary 3000 4096 9 0 (-1) (Ref.std_world (Ref.obj 10))))
  = [C_deflateInit2 6 8 15 8 0; C_deflateSetDictionary 3000 4294967295].
Proof. reflexivity. Qed.

(** A dictionary on a zlib session, for comparison: accepted, nothing thrown. *)
Example setDictionary_std :
  let r := setDictionary 3000 4096 9 4 16 (Ref.std_world (Ref.obj 10)) in
  fst r = Returns tt /\ thrown (snd r) = [] /\
  calls (snd r) = [C_deflateInit2 6 8 15 8 0; C_deflateSetDictionary 3004 16].
Proof. repeat split. Qed.

Lemma step_pins_balanced_witness :
  let E := Ref.ext true in
  let in_buf := 1000 in
  let out_buf := 2000 in
  let addr := 4096 in
  let b := 8 in
  let off := 0 in
  let len := 100 in
  let flush := Z_NO_FLUSH in
  let w := Ref.std_world (Ref.obj 10) in
  let strm := Ref.std_stream in
  let st := [(5, 500)] in
  deref w addr = Some strm /\
  let step := deflateBytes in_buf out_buf addr b off len flush w in
  pin_stack (new_events w (snd step)) st =
  Some (match fst step with
        | AssertFails => (b, out_buf) :: (JObj.buf (this w), in_buf) :: st
        | _ => st
        end).
Proof.
  cbv zeta. split; [reflexivity|].
  apply (@step_pins_balanced (Ref.ext true) 1000 2000 4096 8 0 100 Z_NO_FLUSH
           (Ref.std_world (Ref.obj 10)) Ref.std_stream [(5, 500)]).
  reflexivity.
Defined.

(** The step that an [assert] stops leaves both arrays pinned. *)
Example assert_leaves_pins :
  let w := Ref.igzip_world (Ref.obj_finish 0) in
  let step := deflateBytes 1000 2000 4096 8 0 100 Z_NO_FLUSH w in
  fst step = AssertFails /\
  pin_stack (new_events w (snd step)) [] = Some [(8, 2000); (7, 1000)].
Proof. split; reflexivity. Qed.

Lemma step_backend_call_witness :
  let E := Ref.ext true in
  let in_buf := 1000 in
  let out_buf := 2000 in
  let addr := 4096 in
  let b := 8 in
  let off := 0 in
  let len := 100 in
  let flush := Z_SYNC_FLUSH in
  let w := Ref.std_world (Ref.obj_finish 10) in
  let strm := Ref.std_stream in
  deref w addr = Some strm /\
  let step := deflateBytes in_buf out_buf addr b off len flush w in
  calls (snd step) =
  calls w ++
    if igzip_unsupported w strm flush || (in_buf =? NULL) || (out_buf =? NULL) then []
    else if negb (useIGZIP strm =? 0) then
      if (to_uInt (get_I w lenID) =? 0) || (to_uInt len =? 0) then [] else [C_fast_lz]
    else if get_Z w setParamsID then
      [C_deflateParams (get_I w levelID) (get_I w strategyID)]
    else [C_deflate (if get_Z w finishID then Z_FINISH else flush)].
Proof.
  cbv zeta. split; [reflexivity|].
  apply (@step_backend_call (Ref.ext true) 1000 2000 4096 8 0 100 Z_SYNC_FLUSH
           (Ref.std_world (Ref.obj_finish 10)) Ref.std_stream).
  reflexivity.
Defined.

(** [finish] wins over a sync flush request. *)
Example finish_overrides_flush :
  calls (snd (deflateBytes 1000 2000 4096 8 0 100 Z_SYNC_FLUSH
                           (Ref.std_world (Ref.obj_finish 10))))
  = [C_deflateInit2 6 8 15 8 0; C_deflate Z_FINISH].
Proof. reflexivity. Qed.

Lemma step_throw_reports_nothing_witness :
  let E := Ref.ext true in
  let in_buf := 1000 in
  let out_buf := NULL in
  let addr := 4096 in
  let b := 8 in
  let off := 0 in
  let len := 100 in
  let flush := Z_NO_FLUSH in
  let w := Ref.std_world (Ref.obj 10) in
  let strm := Ref.std_stream in
  deref w addr = Some strm /\
  let step := deflateBytes in_buf out_buf addr b off len flush w in
  (thrown (snd step) = thrown w \/ exists e, thrown (snd step) = thrown w ++ [e]) /\
  (thrown (snd step) <> thrown w ->
   fst step = Returns 0 \/
   (fst step = FallsOffEnd /\ igzip_unsupported w strm flush = true)).
Proof.
  cbv zeta. split; [reflexivity|].
  apply (@step_throw_reports_nothing (Ref.ext true) 1000 NULL 4096 8 0 100 Z_NO_FLUSH
           (Ref.std_world (Ref.obj 10)) Ref.std_stream).
  reflexivity.
Defined.

Lemma step_keeps_backend_witness :
  let E := Ref.ext true in
  let in_buf := 1000 in
  let out_buf := 2000 in
  let addr := 4096 in
  let b := 8 in
  let off := 0 in
  let len := 100 in
  let flush := Z_NO_FLUSH in
  let w := Ref.igzip_world (Ref.obj 10) in
  let strm := Ref.igzip_stream in
  deref w addr = Some strm /\
  let w' := snd (deflateBytes in_buf out_buf addr b off len flush w) in
  (exists s', deref w' addr = Some s' /\
              useIGZIP s' = useIGZIP strm /\
              (useIGZIP strm = 0 -> lz2Stream s' = lz2Stream strm) /\
              (useIGZIP strm <> 0 -> zStream s' = zStream strm)) /\
  (forall q, q <> addr -> heap w' !! q = heap w !! q).
Proof.
  cbv zeta. split; [reflexivity|].
  apply (@step_keeps_backend (Ref.ext true) 1000 2000 4096 8 0 100 Z_NO_FLUSH
           (Ref.igzip_world (Ref.obj 10)) Ref.igzip_stream).
  reflexivity.
Defined.

Lemma step_java_fields_witness :
  let E := Ref.ext true in
  let in_buf := 1000 in
  let out_buf := 2000 in
  let addr := 4096 in
  let b := 8 in
  let off := 0 in
  let len := 100 in
  let flush := Z_NO_FLUSH in
  let w := Ref.std_world (Ref.obj_params 10) in
  let strm := Ref.std_stream in
  deref w addr = Some strm /\
  let w' := snd (deflateBytes in_buf out_buf addr b off len flush w) in
  get_I w' levelID = get_I w levelID /\
  get_I w' strategyID = get_I w strategyID /\
  get_Z w' finishID = get_Z w finishID /\
  JObj.buf (this w') = JObj.buf (this w) /\
  (get_Z w' setParamsID = true -> get_Z w setParamsID = true).
Proof.
  cbv zeta. split; [reflexivity|].
  apply (@step_java_fields (Ref.ext true) 1000 2000 4096 8 0 100 Z_NO_FLUSH
           (Ref.std_world (Ref.obj_params 10)) Ref.std_stream).
  reflexivity.
Defined.

Lemma step_window_conserved_witness :
  let E := Ref.ext true in
  let in_buf := 1000 in
  let out_buf := 2000 in
  let addr := 4096 in
  let b := 8 in
  let off := 0 in
  let len := 4 in
  let flush := Z_NO_FLUSH in
  let w := Ref.std_world (Ref.obj 10) in
  let strm := Ref.std_stream in
  (deref w addr = Some strm /\ backend_takes_only /\
   0 <= get_I w offID /\ 0 <= get_I w lenID /\
   get_I w offID + get_I w lenID < 2 ^ 31 /\ 0 <= len < 2 ^ 31) /\
  let w' := snd (deflateBytes in_buf out_buf addr b off len flush w) in
  get_I w' offID + get_I w' lenID = get_I w offID + get_I w lenID /\
  get_I w offID <= get_I w' offID /\ 0 <= get_I w' lenID.
Proof.
  cbv zeta. split.
  - split; [reflexivity|]. split; [apply Ref_backend_takes_only|]. by_evaluation.
  - apply (@step_window_conserved (Ref.ext true) 1000 2000 4096 8 0 4 Z_NO_FLUSH
             (Ref.std_world (Ref.obj 10)) Ref.std_stream);
      first [reflexivity | apply Ref_backend_takes_only | by_evaluation].
Defined.

(** Four bytes of room: four bytes taken off the front of the window. *)
Example window_after_short_step :
  let w' := snd (deflateBytes 1000 2000 4096 8 0 4 Z_NO_FLUSH
                              (Ref.std_world (Ref.obj 10))) in
  get_I w' offID = 4 /\ get_I w' lenID = 6.
Proof. split; reflexivity. Qed.

Lemma step_return_bounded_witness :
  let E := Ref.ext true in
  let in_buf := 1000 in
  let out_buf := 2000 in
  let addr := 4096 in
  let b := 8 in
  let off := 0 in
  let len := 4 in
  let flush := Z_NO_FLUSH in
  let w := Ref.igzip_world (Ref.obj 10) in
  let strm := Ref.igzip_stream in
  let n := 4 in
  (deref w addr = Some strm /\ backend_takes_only /\
   0 <= get_I w offID /\ 0 <= get_I w lenID /\
   get_I w offID + get_I w lenID < 2 ^ 31 /\ 0 <= len < 2 ^ 31 /\
   fst (deflateBytes in_buf out_buf addr b off len flush w) = Returns n) /\
  0 <= n <= len.
Proof.
  cbv zeta. split.
  - split; [reflexivity|]. split; [apply Ref_backend_takes_only|]. by_evaluation.
  - apply (@step_return_bounded (Ref.ext true) 1000 2000 4096 8 0 4 Z_NO_FLUSH
             (Ref.igzip_world (Ref.obj 10)) Ref.igzip_stream 4);
      first [reflexivity | apply Ref_backend_takes_only | by_evaluation].
Defined.

Lemma step_assert_iff_witness :
  let E := Ref.ext true in
  let in_buf := 1000 in
  let out_buf := 2000 in
  let addr := 4096 in
  let b := 8 in
  let off := 0 in
  let len := 100 in
  let flush := Z_NO_FLUSH in
  let w := Ref.igzip_world (Ref.obj_finish 0) in
  let strm := Ref.igzip_stream in
  deref w addr = Some strm /\
  (fst (deflateBytes in_buf out_buf addr b off len flush w) = AssertFails <->
   useIGZIP strm <> 0 /\ igzip_unsupported w strm flush = false /\
   in_buf <> NULL /\ out_buf <> NULL /\
   (to_uInt (get_I w lenID) = 0 \/ to_uInt len = 0)).
Proof.
  cbv zeta. split; [reflexivity|].
  apply (@step_assert_iff (Ref.ext true) 1000 2000 4096 8 0 100 Z_NO_FLUSH
           (Ref.igzip_world (Ref.obj_finish 0)) Ref.igzip_stream).
  reflexivity.
Defined.


(** Two steps on that session: the first runs, the second is rejected. *)
Example igzip_second_step_rejected :
  let w := Ref.igzip_world (Ref.obj_params 10) in
  let step1 := deflateBytes 1000 2000 4096 8 0 4 Z_NO_FLUSH w in
  let step2 := deflateBytes 1000 2000 4096 8 4 96 Z_NO_FLUSH (snd step1) in
  fst step1 = Returns 4 /\ thrown (snd step1) = [] /\
  fst step2 = FallsOffEnd /\
  thrown (snd step2) = [("java/lang/InternalError"%string,
                         Some "igzip doesn't support this"%string)].
Proof. repeat split. Qed.

Lemma params_applied_once_witness :
  let E := Ref.ext true in
  let in_buf := 1000 in
  let out_buf := 2000 in
  let addr := 4096 in
  let b := 8 in
  let off := 0 in
  let len := 100 in
  let flush := Z_NO_FLUSH in
  let w := Ref.std_world (Ref.obj_params 10) in
  let strm := Ref.std_stream in
  let res := Z_OK in
  let z' := mk_z_stream 1000 10 0 2000 100 0 None (Some tt) 1 in
  (deref w addr = Some strm /\ useIGZIP strm = 0 /\
   get_Z w setParamsID = true /\ in_buf <> NULL /\ out_buf <> NULL /\
   deflateParams (z_set_buffers (zStream strm) (in_buf + get_I w offID) (out_buf + off)
                                (to_uInt (get_I w lenID)) (to_uInt len))
                 (get_I w levelID) (get_I w strategyID) = (res, z') /\
   (res = Z_OK \/ res = Z_BUF_ERROR)) /\
  let w' := snd (deflateBytes in_buf out_buf addr b off len flush w) in
  forall in_buf2 out_buf2 b2 off2 len2 flush2,
    in_buf2 <> NULL -> out_buf2 <> NULL ->
    calls (snd (deflateBytes in_buf2 out_buf2 addr b2 off2 len2 flush2 w')) =
    calls w' ++ [C_deflate (if get_Z w finishID then Z_FINISH else flush2)].
Proof.
  cbv zeta. split.
  - repeat split; first [discriminate | left; reflexivity].
  - apply (@params_applied_once (Ref.ext true) 1000 2000 4096 8 0 100 Z_NO_FLUSH
             (Ref.std_world (Ref.obj_params 10)) Ref.std_stream
             Z_OK (mk_z_stream 1000 10 0 2000 100 0 None (Some tt) 1));
      first [reflexivity | discriminate | left; reflexivity].
Defined.

Lemma reset_outcome_witness :
  let E := Ref.ext true in
  let addr := 4096 in
  let w := Ref.igzip_world (Ref.obj_finish 10) in
  let strm := Ref.igzip_stream in
  deref w addr = Some strm /\
  let r := reset addr w in
  fst r = Returns tt /\
  this (snd r) = this w /\
  new_events w (snd r) =
    (if negb (useIGZIP strm =? 0) then [EvCall C_init_stream]
     else EvCall C_deflateReset ::
          if fst (deflateReset (zStream strm)) =? Z_OK then []
          else [EvThrow "java/lang/InternalError" None]) /\
  deref (snd r) addr =
    Some (if negb (useIGZIP strm =? 0)
          then mk_Stream (zStream strm) (init_stream (lz2Stream strm)) (useIGZIP strm)
          else mk_Stream (snd (deflateReset (zStream strm))) (lz2Stream strm)
                         (useIGZIP strm)) /\
  (forall q, q <> addr -> heap (snd r) !! q = heap w !! q).
Proof.
  cbv zeta. split; [reflexivity|].
  apply (@reset_outcome (Ref.ext true) 4096 (Ref.igzip_world (Ref.obj_finish 10))
           Ref.igzip_stream).
  reflexivity.
Defined.

Lemma end_outcome_witness :
  let E := Ref.ext true in
  let addr := 4096 in
  let w := Ref.std_world (Ref.obj 10) in
  let strm := Ref.std_stream in
  deref w addr = Some strm /\
  let r := end_ addr w in
  fst r = Returns tt /\
  this (snd r) = this w /\
  new_events w (snd r) =
    (if useIGZIP strm =? 0
     then EvCall C_deflateEnd ::
          if fst (deflateEnd (zStream strm)) =? Z_STREAM_ERROR
          then [EvThrow "java/lang/InternalError" None] else []
     else []) ++ [EvFree addr] /\
  heap (snd r) !! addr = None /\
  (forall q, q <> addr -> heap (snd r) !! q = heap w !! q) /\
  fst (end_ addr (snd r)) = BadPointer /\
  fst (reset addr (snd r)) = BadPointer /\
  fst (getBytesRead addr (snd r)) = BadPointer /\
  fst (getBytesWritten addr (snd r)) = BadPointer /\
  fst (getAdler addr (snd r)) = BadPointer /\
  (forall in_buf out_buf b off len flush,
      fst (deflateBytes in_buf out_buf addr b off len flush (snd r)) = BadPointer).
Proof.
  cbv zeta. split; [reflexivity|].
  apply (@end_outcome (Ref.ext true) 4096 (Ref.std_world (Ref.obj 10)) Ref.std_stream).
  reflexivity.
Defined.

Lemma step_counters_advance_witness :
  let E := Ref.ext true in
  let in_buf := 1000 in
  let out_buf := 2000 in
  let addr := 4096 in
  let b := 8 in
  let off := 0 in
  let len := 4 in
  let flush := Z_NO_FLUSH in
  let w := Ref.std_world (Ref.obj 10) in
  let strm := Ref.std_stream in
  let res := Z_OK in
  let z' := mk_z_stream 1004 6 4 2004 0 4 None (Some tt) 1 in
  let n := 4 in
  (deref w addr = Some strm /\ useIGZIP strm = 0 /\
   get_Z w setParamsID = false /\ in_buf <> NULL /\ out_buf <> NULL /\
   deflate (z_set_buffers (zStream strm) (in_buf + get_I w offID) (out_buf + off)
                          (to_uInt (get_I w lenID)) (to_uInt len))
           (if get_Z w finishID then Z_FINISH else flush) = (res, z') /\
   (res = Z_OK \/ res = Z_STREAM_END) /\
   deflate_accounting /\
   0 <= get_I w offID /\ 0 <= get_I w lenID /\
   get_I w offID + get_I w lenID < 2 ^ 31 /\ 0 <= len < 2 ^ 31 /\
   0 <= z_total_in (zStream strm) < 2 ^ 62 /\
   0 <= z_total_out (zStream strm) < 2 ^ 62 /\
   fst (deflateBytes in_buf out_buf addr b off len flush w) = Returns n) /\
  let step := deflateBytes in_buf out_buf addr b off len flush w in
  fst (getBytesWritten addr (snd step)) = Returns (z_total_out (zStream strm) + n) /\
  fst (getBytesRead addr (snd step)) =
    Returns (z_total_in (zStream strm) + (get_I (snd step) offID - get_I w offID)) /\
  fst (getBytesWritten addr w) = Returns (z_total_out (zStream strm)) /\
  fst (getBytesRead addr w) = Returns (z_total_in (zStream strm)).
Proof.
  cbv zeta. split.
  - do 6 (split; [first [reflexivity | discriminate]|]).
    split; [left; reflexivity|]. split; [apply Ref_deflate_accounting|].
    by_evaluation.
  - apply (@step_counters_advance (Ref.ext true) 1000 2000 4096 8 0 4 Z_NO_FLUSH
             (Ref.std_world (Ref.obj 10)) Ref.std_stream
             Z_OK (mk_z_stream 1004 6 4 2004 0 4 None (Some tt) 1) 4);
      first [reflexivity | discriminate | left; reflexivity
            | apply Ref_deflate_accounting | by_evaluation].
Defined.
